(** * exaMCP: the prompt layer and the analysis entry point, embedded in Rocq

    The development follows the Go sources:
    - [backend/service/mcp/prompt_generator.go] (module [PromptGenerator]),
    - the advanced prompt generator of package [mcp] (modules [Advanced]
      for the classification and [AdvancedGenerator] for the generator),
    - [backend/main.go], method [App.AnalyzeExcelFile] (module [Backend])
      and the methods on the current analysis (module [Frontend]),
    - the application shell with [safeExecute] (module [Shell]).

    Go strings are byte strings, modelled by [string]; Go [int] values are
    modelled by [Z] (no arithmetic in the modelled functions can leave the
    64-bit range for inputs inside it); a run-time panic is an explicit
    outcome. *)

From Stdlib Require Import ZArith String Ascii List Lia Permutation.
From Stdlib Require Import DecimalString.
From stdpp Require Import base option list gmap strings.
From Equations Require Import Equations.
Import ListNotations.

Local Open Scope string_scope.
Local Open Scope Z_scope.

(** ** Outcomes of Go code that may panic *)

Inductive Go (A : Type) : Type :=
| Ret (a : A)
| Panic (msg : string).
Arguments Ret {A} a.
Arguments Panic {A} msg.

Definition go_bind {A B} (m : Go A) (k : A -> Go B) : Go B :=
  match m with
  | Ret a => k a
  | Panic msg => Panic msg
  end.

(** A Go [error] value, by its message ([err.Error()]). *)
Definition error := string.

(** A Go result pair (value, error) of which exactly one part is set. *)
Inductive result (A : Type) : Type :=
| Ok (a : A)
| Err (err : error).
Arguments Ok {A} a.
Arguments Err {A} err.

(** ** The functions of package [strings] and [fmt] that the sources call *)

Module GoStrings.

(** [strings.HasPrefix s prefix]. *)
Fixpoint HasPrefix (s prefix : string) : bool :=
  match prefix, s with
  | EmptyString, _ => true
  | String _ _, EmptyString => false
  | String p prefix', String c s' =>
      if Ascii.eqb p c then HasPrefix s' prefix' else false
  end.

(** [strings.Contains s substr]: [substr] occurs in [s] at some offset. *)
Fixpoint Contains (s substr : string) : bool :=
  HasPrefix s substr ||
  match s with
  | EmptyString => false
  | String _ s' => Contains s' substr
  end.

(** The scan of [strings.Count] for a non-empty [substr]: occurrences are
    counted left to right and do not overlap, so after a match the next
    [skip] bytes are passed over. *)
Fixpoint count_from (skip : nat) (s substr : string) : Z :=
  match s with
  | EmptyString => 0
  | String _ s' =>
      match skip with
      | S k => count_from k s' substr
      | O =>
          if HasPrefix s substr
          then 1 + count_from (String.length substr - 1) s' substr
          else count_from O s' substr
      end
  end.

(** [strings.Count s substr]. For the empty [substr] Go answers one more
    than the number of runes of [s]; the byte length stands for the rune
    count here, and no caller in this development passes an empty
    pattern. *)
Definition Count (s substr : string) : Z :=
  match substr with
  | EmptyString => Z.of_nat (String.length s) + 1
  | _ => count_from O s substr
  end.

(** [strings.Join elems sep]. *)
Fixpoint Join (elems : list string) (sep : string) : string :=
  match elems with
  | [] => ""
  | [e] => e
  | e :: rest => e ++ sep ++ Join rest sep
  end.

(** [strings.Split s sep] for a one-byte separator. *)
Fixpoint split_byte (sep : ascii) (cur : string) (s : string) : list string :=
  match s with
  | EmptyString => [cur]
  | String c s' =>
      if Ascii.eqb c sep then cur :: split_byte sep "" s'
      else split_byte sep (cur ++ String c "") s'
  end.

(** [strings.ToLower] of the Go library (Unicode lower-casing of a UTF-8
    string). *)
Class Lowering := { ToLower : string -> string }.

(** Go's [strings.ToLower] on strings of ASCII bytes: the letters A..Z
    move to a..z, every other byte stays. *)
Definition asciiLower (c : ascii) : ascii :=
  let n := N_of_ascii c in
  if ((65 <=? n) && (n <=? 90))%N then ascii_of_N (n + 32) else c.

Fixpoint asciiToLower (s : string) : string :=
  match s with
  | EmptyString => EmptyString
  | String c s' => String (asciiLower c) (asciiToLower s')
  end.

(** The lowering used to run the code on ASCII inputs. *)
Definition asciiLowering : Lowering := {| ToLower := asciiToLower |}.

(** [regexp.MustCompile(pattern).MatchString(s)] for a pattern made of
    literal alternatives separated by [|] (no other metacharacter): the
    pattern matches when one alternative occurs in [s]. *)
Definition regexp_MatchString (pattern s : string) : bool :=
  existsb (Contains s) (split_byte "|"%char "" pattern).

(** The [%d] verb of [fmt.Sprintf]. *)
Definition Itoa (n : Z) : string := NilEmpty.string_of_int (Z.to_int n).

(** [s] has [t] as a contiguous substring. *)
Definition substring_of (t s : string) : Prop :=
  exists pre post, s = pre ++ t ++ post.

End GoStrings.

(** ** [backend/service/mcp/prompt_generator.go] *)

Module PromptGenerator.
Import GoStrings.

Record Relationship := {
  TargetRange : string;
  Type_ : string;
  SourceField : string;
  TargetField : string
}.

Record DataRange := {
  RangeAddress : string;
  Headers : list string;
  DataRows : Z;
  DataTypes : gmap string string;
  SampleData : list (list string);
  Description : string;
  HasHeaders : bool;
  SheetName : string;
  Relationships : list Relationship
}.

Record PromptConfig := {
  Language : string;
  IncludeExamples : bool;
  UseAdvancedContext : bool;
  MaxSampleRows : Z;
  HighlightKeyColumns : list string;
  TemplateVariables : gmap string string;
  OutputType : string;
  DetailLevel : string;
  IncludeModules : list string;
  TargetExcelVersion : string
}.

(** The slice expression [s[:hi]]. Go panics when [hi] is negative or
    exceeds the capacity; between the length and the capacity it would
    expose spare elements, which the only caller below never asks for
    (there [hi] is below the length), so the model takes the length for the
    capacity. *)
Definition slice_to {A} (s : list A) (hi : Z) : Go (list A) :=
  if hi <? 0
  then Panic ("runtime error: slice bounds out of range [:" ++ Itoa hi ++ "]")
  else if Z.of_nat (length s) <? hi
  then Panic ("runtime error: slice bounds out of range [:" ++ Itoa hi
                ++ "] with capacity " ++ Itoa (Z.of_nat (length s)))
  else Ret (take (Z.to_nat hi) s).

(** [limitSampleData]. *)
Definition limitSampleData (sampleData : list (list string)) (maxRows : Z)
  : Go (list (list string)) :=
  if Z.of_nat (length sampleData) <=? maxRows
  then Ret sampleData
  else slice_to sampleData maxRows.

(** [string(rune('A'+remainder))]: for the code points 65..90 the UTF-8
    encoding is the single byte of that value. *)
Definition letter (remainder : Z) : ascii :=
  ascii_of_N (Z.to_N (65 + remainder)).

(** The loop of [columnLetterFromIndex], on the pair (index, result).
    Go's [/] and [%] truncate towards zero: [Z.quot] and [Z.rem]. *)
Equations? columnLetterFromIndex_loop (index : Z) (result : string) : string
  by wf (Z.to_nat (index + 1)) lt :=
  columnLetterFromIndex_loop index result with Z_le_gt_dec 0 index => {
    | left _ :=
        let remainder := Z.rem index 26 in
        columnLetterFromIndex_loop (Z.quot index 26 - 1)
          (String (letter remainder) result);
    | right _ := result }.
Proof.
  pose proof (Z.quot_pos index 26 ltac:(lia) ltac:(lia)).
  assert (Z.quot index 26 <= index)
    by (apply Z.quot_le_upper_bound; lia).
  lia.
Qed.

(** [columnLetterFromIndex]. *)
Definition columnLetterFromIndex (index : Z) : string :=
  columnLetterFromIndex_loop index "".

(** The loop of [generateColumnLetters]: [todo] iterations remain, the
    next one writes [letters[i]]. *)
Fixpoint generateColumnLetters_loop (todo : nat) (i : Z) (letters : list string)
  : list string :=
  match todo with
  | O => letters
  | S todo' =>
      generateColumnLetters_loop todo' (i + 1)
        (<[Z.to_nat i := columnLetterFromIndex i]> letters)
  end.

(** [generateColumnLetters]; [make([]string, count)] panics on a negative
    count. *)
Definition generateColumnLetters (count : Z) : Go (list string) :=
  if count <? 0 then Panic "runtime error: makeslice: len out of range"
  else
    let letters := replicate (Z.to_nat count) "" in
    Ret (generateColumnLetters_loop (Z.to_nat count) 0 letters).

(** The values stored in the template data map ([map[string]interface{}]). *)
Inductive TemplateValue :=
| VString (s : string)
| VStructure (d : DataRange)
| VConfig (c : PromptConfig)
| VRows (rows : list (list string))
| VStrings (l : list string).

(** Package [text/template] of the Go library: [template.New(name).Parse]
    and [Template.Execute] into a buffer, each with its error result. *)
Class TemplateEngine := {
  Template : Type;
  template_Parse : string -> string -> result Template;
  template_Execute : Template -> gmap string TemplateValue -> result string
}.

(** The template and example texts, and the entries of the
    [moduleDescriptions] table: string constants of the source file. *)
Class PromptTexts := {
  basicTemplate : string;
  advancedTemplate : string;
  reportingTemplate : string;
  dataProcessingTemplate : string;
  userInterfaceTemplate : string;
  basicExample : string;
  sqlExample : string;
  reportingExample : string;
  dataProcessingExample : string;
  userInterfaceExample : string;
  moduleDescriptions : gmap string string
}.

Definition nl : string := String (ascii_of_nat 10) "".

(** The bytes that stand between the two field names in the format string
    of [formatRelationships]. *)
Definition arrow : string :=
  string_of_list_ascii
    (map ascii_of_nat [195; 162; 226; 128; 160; 226; 128; 153]%nat).

(** [DefaultPromptConfig]. *)
Definition DefaultPromptConfig : PromptConfig := {|
  Language := "en";
  IncludeExamples := true;
  UseAdvancedContext := false;
  MaxSampleRows := 3;
  HighlightKeyColumns := [];
  TemplateVariables := ∅;
  OutputType := "Generic";
  DetailLevel := "Intermediate";
  IncludeModules := [];
  TargetExcelVersion := "Excel 2016+"
|}.

(** [getModuleList]. *)
Definition getModuleList (includeStandardModules : bool) : list string :=
  if includeStandardModules then ["SQLUtils"; "DataTools"; "UIHelpers"]
  else [].

(** [contains]. *)
Fixpoint contains (slice : list string) (value : string) : bool :=
  match slice with
  | [] => false
  | item :: rest => if String.eqb item value then true else contains rest value
  end.

(** The loop of [formatHeaders]; [i] is the index of the next header. *)
Fixpoint formatHeaders_loop (i : Z) (headers : list string)
    (dataTypes : gmap string string) : string :=
  match headers with
  | [] => ""
  | header :: rest =>
      let dataType := default "" (dataTypes !! header) in
      let dataType := if String.eqb dataType "" then "Unknown" else dataType in
      ("[header:" ++ header ++ "] (Column " ++ columnLetterFromIndex i
         ++ ", Type: " ++ dataType ++ ")" ++ nl)
      ++ formatHeaders_loop (i + 1) rest dataTypes
  end.

(** [formatHeaders]. *)
Definition formatHeaders (headers : list string) (dataTypes : gmap string string)
  : string :=
  formatHeaders_loop 0 headers dataTypes.

Fixpoint formatRelationships_loop (i : Z) (relationships : list Relationship)
  : string :=
  match relationships with
  | [] => ""
  | rel :: rest =>
      (Itoa (i + 1) ++ ". " ++ Type_ rel ++ " related to " ++ TargetRange rel
         ++ " through " ++ SourceField rel ++ " " ++ arrow ++ " "
         ++ TargetField rel ++ nl)
      ++ formatRelationships_loop (i + 1) rest
  end.

(** [formatRelationships]. *)
Definition formatRelationships (relationships : list Relationship) : string :=
  match relationships with
  | [] => "No relationships detected."
  | _ => formatRelationships_loop 0 relationships
  end.

Section Texts.
Context `{PromptTexts}.

(** [getPromptTemplate]. *)
Definition getPromptTemplate (config : PromptConfig) : string :=
  if String.eqb (OutputType config) "Reporting" then reportingTemplate
  else if String.eqb (OutputType config) "DataProcessing"
  then dataProcessingTemplate
  else if String.eqb (OutputType config) "UserInterface"
  then userInterfaceTemplate
  else if UseAdvancedContext config then advancedTemplate
  else basicTemplate.

Fixpoint getModuleDescriptions_loop (modules : list string) : string :=
  match modules with
  | [] => ""
  | module :: rest =>
      match moduleDescriptions !! module with
      | Some desc =>
          ("## " ++ module ++ " Module" ++ nl ++ desc ++ nl ++ nl)
          ++ getModuleDescriptions_loop rest
      | None => getModuleDescriptions_loop rest
      end
  end.

(** [getModuleDescriptions]. *)
Definition getModuleDescriptions (modules : list string) : string :=
  match modules with
  | [] => ""
  | _ => getModuleDescriptions_loop modules
  end.

Fixpoint getExamples_loop (i : Z) (examples : list string) : string :=
  match examples with
  | [] => ""
  | example :: rest =>
      ("### Example " ++ Itoa (i + 1) ++ nl ++ example ++ nl ++ nl)
      ++ getExamples_loop (i + 1) rest
  end.

(** [getExamples]. *)
Definition getExamples (config : PromptConfig) : string :=
  if negb (IncludeExamples config) then ""
  else
    let examples :=
      if String.eqb (OutputType config) "Reporting" then [reportingExample]
      else if String.eqb (OutputType config) "DataProcessing"
      then [dataProcessingExample]
      else if String.eqb (OutputType config) "UserInterface"
      then [userInterfaceExample]
      else [basicExample] in
    let examples :=
      if contains (IncludeModules config) "SQLUtils"
      then app examples [sqlExample] else examples in
    getExamples_loop 0 examples.
End Texts.

(** [fallbackPrompt]; [%v] of an error prints its message. The [config]
    argument is not used by the source either. *)
Definition fallbackPrompt (structure : DataRange) (userRequirement : string)
    (config : PromptConfig) (err : error) : string :=
  ("# TASK: Generate Excel VBA script based on user requirements" ++ nl ++ nl)
  ++ ("ERROR: Template processing failed: " ++ err
        ++ ". Using fallback prompt." ++ nl ++ nl)
  ++ ("## EXCEL STRUCTURE" ++ nl)
  ++ ("- Sheet: " ++ SheetName structure ++ nl)
  ++ ("- Range: " ++ RangeAddress structure ++ nl)
  ++ ("- Headers: " ++ Join (Headers structure) ", " ++ nl)
  ++ ("- Data Rows: " ++ Itoa (DataRows structure) ++ nl ++ nl)
  ++ ("## USER REQUIREMENT" ++ nl)
  ++ userRequirement
  ++ (nl ++ nl)
  ++ ("## OUTPUT INSTRUCTIONS" ++ nl)
  ++ ("Generate VBA code that fulfills the user requirement." ++ nl).

Section Generate.
Context `{PromptTexts} `{TemplateEngine}.

(** The template data of [GenerateExaMCPPromptWithConfig]: the entries of
    the map literal in the order in which Go evaluates them, then the
    custom template variables, which overwrite entries of the same key
    (the keys of a map are distinct, so the range order over
    [config.TemplateVariables] does not matter). [now] is the formatted
    reading of the clock. *)
Definition templateData (now : string) (structure : DataRange)
    (userRequirement : string) (config : PromptConfig)
  : Go (gmap string TemplateValue) :=
  let headersFormatted :=
    formatHeaders (Headers structure) (DataTypes structure) in
  go_bind (limitSampleData (SampleData structure) (MaxSampleRows config))
    (fun sampleDataLimited =>
  let relationshipDescriptions :=
    formatRelationships (Relationships structure) in
  let moduleDescriptions := getModuleDescriptions (IncludeModules config) in
  let examples := getExamples config in
  go_bind (generateColumnLetters (Z.of_nat (length (Headers structure))))
    (fun columnLetters =>
  let data : gmap string TemplateValue :=
    <["ColumnLetters" := VStrings columnLetters]>
    (<["Examples" := VString examples]>
    (<["ModuleDescriptions" := VString moduleDescriptions]>
    (<["RelationshipDescriptions" := VString relationshipDescriptions]>
    (<["SampleDataLimited" := VRows sampleDataLimited]>
    (<["HeadersFormatted" := VString headersFormatted]>
    (<["Config" := VConfig config]>
    (<["UserRequirement" := VString userRequirement]>
    (<["Structure" := VStructure structure]>
    (<["CurrentDateTime" := VString now]> ∅))))))))) in
  Ret ((VString <$> TemplateVariables config) ∪ data))).

(** [GenerateExaMCPPromptWithConfig]. *)
Definition GenerateExaMCPPromptWithConfig (now : string)
    (structure : DataRange) (userRequirement : string)
    (config : PromptConfig) : Go string :=
  let templateContent := getPromptTemplate config in
  go_bind (templateData now structure userRequirement config) (fun data =>
  match template_Parse "mcp_prompt" templateContent with
  | Err err => Ret (fallbackPrompt structure userRequirement config err)
  | Ok tmpl =>
      match template_Execute tmpl data with
      | Err err => Ret (fallbackPrompt structure userRequirement config err)
      | Ok buf => Ret buf
      end
  end).

(** [GenerateMCPPrompt]. *)
Definition GenerateMCPPrompt (now : string) (structure : DataRange)
    (userRequirement : string) (includeStandardModules : bool) : Go string :=
  let config := DefaultPromptConfig in
  let config := {|
    Language := Language config;
    IncludeExamples := IncludeExamples config;
    UseAdvancedContext := UseAdvancedContext config;
    MaxSampleRows := MaxSampleRows config;
    HighlightKeyColumns := HighlightKeyColumns config;
    TemplateVariables := TemplateVariables config;
    OutputType := OutputType config;
    DetailLevel := DetailLevel config;
    IncludeModules := getModuleList includeStandardModules;
    TargetExcelVersion := TargetExcelVersion config |} in
  GenerateExaMCPPromptWithConfig now structure userRequirement config.
End Generate.

(** The region of the end-to-end example of the spec (section 8): a
    header row Name, Age and three data rows. *)
Definition exampleRange : DataRange := {|
  RangeAddress := "A1:B4";
  Headers := ["Name"; "Age"];
  DataRows := 3;
  DataTypes := <["Name" := "Text"]> (<["Age" := "Number"]> ∅);
  SampleData := [["Alice"; "30"]; ["Bob"; "25"]; ["Cara"; "41"]];
  Description := "";
  HasHeaders := true;
  SheetName := "Sheet1";
  Relationships := []
|}.

(** [config.MaxSampleRows = n]. *)
Definition withMaxSampleRows (config : PromptConfig) (n : Z) : PromptConfig := {|
  Language := Language config;
  IncludeExamples := IncludeExamples config;
  UseAdvancedContext := UseAdvancedContext config;
  MaxSampleRows := n;
  HighlightKeyColumns := HighlightKeyColumns config;
  TemplateVariables := TemplateVariables config;
  OutputType := OutputType config;
  DetailLevel := DetailLevel config;
  IncludeModules := IncludeModules config;
  TargetExcelVersion := TargetExcelVersion config
|}.

End PromptGenerator.

(** ** The spreadsheet column-letter convention

    These definitions follow the words of the spec (labels "A, B, ..., Z,
    AA, AB, ..."), not the code: the names in their enumeration order, and
    the bijective base-26 reading of a name, in which the letters A..Z are
    the digits 1..26. *)

Module ColumnLetters.

(** The digit a byte stands for: A is 1, ..., Z is 26. *)
Definition digit (c : ascii) : Z := Z.of_N (N_of_ascii c) - 64.

Definition is_letter (c : ascii) : Prop := 1 <= digit c <= 26.

(** A column name: one or more letters A..Z. *)
Definition isColumnName (s : string) : Prop :=
  s <> "" /\ Forall is_letter (list_ascii_of_string s).

(** The value of a list of letters, most significant first. *)
Definition lettersValue (l : list ascii) : Z :=
  foldl (fun acc c => acc * 26 + digit c) 0 l.

(** The same value read from the least significant letter. *)
Definition lettersValueLE (l : list ascii) : Z :=
  foldr (fun c acc => digit c + 26 * acc) 0 l.

(** The bijective base-26 value of a name: A is 1, Z is 26, AA is 27. *)
Definition columnNumber (s : string) : Z :=
  lettersValue (list_ascii_of_string s).

(** The name after a given one, on the letters from the last to the
    first: a Z turns into an A and carries, any other letter moves to its
    successor, and a carry past the first letter adds an A. *)
Fixpoint next_rev (l : list ascii) : list ascii :=
  match l with
  | [] => ["A"%char]
  | c :: l' =>
      if Ascii.eqb c "Z" then "A"%char :: next_rev l'
      else ascii_of_N (N_of_ascii c + 1) :: l'
  end.

Definition nextColumn (s : string) : string :=
  string_of_list_ascii (rev (next_rev (rev (list_ascii_of_string s)))).

(** The name number [i] (from 0) of the enumeration A, B, ..., Z, AA,
    AB, ... *)
Definition excelColumnName (i : nat) : string := Nat.iter i nextColumn "A".

End ColumnLetters.

(** ** The advanced prompt generator of package [mcp] *)

Module Advanced.
Import GoStrings PromptGenerator.

Record TaskClassification := {
  PrimaryType : string;
  SecondaryType : string;
  Features : list string;
  Complexity : string;
  Keywords : list string
}.

(** A [for k, v := range m] loop over a Go map visits every key of [m]
    once, in an order the language leaves unspecified and that may differ
    from one loop to the next. [order] lists the candidate keys in the
    order one particular loop takes; keys absent from [m] are passed
    over. *)
Definition range {V S : Type} (order : list string) (m : gmap string V)
    (body : string -> V -> S -> S) (s : S) : S :=
  foldl (fun s k => match m !! k with Some v => body k v s | None => s end)
    s order.

Definition technicalTerms : list string := [
  "filter"; "sort"; "report"; "chart"; "data"; "column"; "row"; "cell";
  "sheet"; "workbook"; "range"; "formula"; "function"; "macro"; "calculate";
  "format"; "conditional"; "pivot"; "table"; "validation"; "userform";
  "button"; "combobox"; "textbox"; "query"; "sql"; "export"; "import";
  "sum"; "average"; "count"; "unique"; "duplicate"; "error"; "loop" ].

(** The de-duplication loop of [extractKeywords], with its [seen] map. *)
Fixpoint extractKeywords_dedup (keywords uniqueKeywords : list string)
    (seen : gmap string bool) : list string :=
  match keywords with
  | [] => uniqueKeywords
  | kw :: rest =>
      if negb (default false (seen !! kw))
      then extractKeywords_dedup rest (app uniqueKeywords [kw])
             (<[kw := true]> seen)
      else extractKeywords_dedup rest uniqueKeywords seen
  end.

Definition taskPatterns : gmap string (list string) :=
  <["Reporting" := [
      "report"; "chart"; "graph"; "visualize"; "dashboard"; "summary"; "pivot";
      "statistics"; "trend"; "analysis"; "kpi"; "metric"; "visualization" ]]>
  (<["DataProcessing" := [
      "filter"; "sort"; "clean"; "calculate"; "transform"; "convert";
      "normalize"; "aggregate"; "group"; "consolidate"; "merge"; "join";
      "data processing" ]]>
  (<["UserInterface" := [
      "form"; "button"; "userform"; "interface"; "ui"; "input"; "dialog";
      "dropdown"; "checkbox"; "interactive"; "menu"; "user experience" ]]>
  (<["Automation" := [
      "automate"; "schedule"; "batch"; "periodic"; "monitor"; "workflow";
      "trigger"; "event"; "automatic"; "background"; "routine" ]]>
  (<["DataValidation" := [
      "validate"; "verify"; "check"; "ensure"; "integrity"; "constraint";
      "rule"; "validation"; "error checking"; "valid"; "format checking" ]]>
   ∅)))).

Definition featurePatterns : gmap string string :=
  <["SQL" := "sql|query|select|from|where|group by"]>
  (<["Charts" := "chart|graph|plot|visualize|pie|bar|line"]>
  (<["Formatting" := "format|style|color|conditional|highlight"]>
  (<["ImportExport" := "import|export|csv|text file|external"]>
  (<["Calculations" := "calculate|sum|average|count|formula"]>
  (<["AdvancedUI" := "userform|complex form|multi-step|wizard"]>
  (<["ErrorHandling" := "error handling|validation|try catch|on error"]>
   ∅)))))).

(** The orders taken by the five [range] loops over maps in
    [classifyUserRequirement], in the order of the source text. *)
Record RangeOrders := {
  order_taskPatterns : list string;
  order_primaryScore : list string;
  order_primaryScore2 : list string;
  order_secondaryScore : list string;
  order_featurePatterns : list string
}.

Definition taskTypes : list string :=
  ["Reporting"; "DataProcessing"; "UserInterface"; "Automation";
   "DataValidation"].

Definition featureNames : list string :=
  ["SQL"; "Charts"; "Formatting"; "ImportExport"; "Calculations";
   "AdvancedUI"; "ErrorHandling"].

(** Orders that Go may take: each loop visits each key once. *)
Definition possible_orders (o : RangeOrders) : Prop :=
  order_taskPatterns o ≡ₚ taskTypes /\
  order_primaryScore o ≡ₚ taskTypes /\
  order_primaryScore2 o ≡ₚ taskTypes /\
  order_secondaryScore o ≡ₚ taskTypes /\
  order_featurePatterns o ≡ₚ featureNames.

Section Lower.
Context `{Lowering}.

(** [extractKeywords]. *)
Definition extractKeywords (requirement : string) : list string :=
  let lowerReq := ToLower requirement in
  let keywords :=
    filter (fun term => Is_true (Contains lowerReq term)) technicalTerms in
  let uniqueKeywords := extractKeywords_dedup keywords [] ∅ in
  if 10 <? Z.of_nat (length uniqueKeywords)
  then take 10 uniqueKeywords
  else uniqueKeywords.

(** The scores of [classifyUserRequirement]: for each task type the
    summed counts of its patterns in [req]. *)
Definition primaryScores (order : list string) (req : string)
  : gmap string Z :=
  range order taskPatterns
    (fun taskType patterns primaryScore =>
       foldl (fun primaryScore pattern =>
                let count := Count req pattern in
                if 0 <? count
                then <[taskType :=
                         default 0 (primaryScore !! taskType) + count]>
                       primaryScore
                else primaryScore)
             primaryScore patterns)
    ∅.

(** The loop that finds the highest score: the state is the pair of the
    highest score so far and the type that holds it. *)
Definition highest (order : list string) (scores : gmap string Z)
    (init : string) : Z * string :=
  range order scores
    (fun taskType score st =>
       if fst st <? score then (score, taskType) else st)
    (0, init).

(** [classifyUserRequirement]; the [structure] argument is not used by
    the source either. *)
Definition classifyUserRequirement (o : RangeOrders) (requirement : string)
    (structure : DataRange) : TaskClassification :=
  let req := ToLower requirement in
  let keywords := extractKeywords req in
  let primaryScore := primaryScores (order_taskPatterns o) req in
  let primaryType :=
    snd (highest (order_primaryScore o) primaryScore "Generic") in
  let secondaryScore : gmap string Z :=
    range (order_primaryScore2 o) primaryScore
      (fun taskType score secondaryScore =>
         if negb (String.eqb taskType primaryType) && (0 <? score)
         then <[taskType := score]> secondaryScore
         else secondaryScore)
      ∅ in
  let secondaryType :=
    snd (highest (order_secondaryScore o) secondaryScore "") in
  let features :=
    range (order_featurePatterns o) featurePatterns
      (fun feature pattern features =>
         if regexp_MatchString pattern req
         then app features [feature] else features)
      [] in
  let complexityScore := 0 in
  let complexityScore :=
    if 3 <=? Z.of_nat (length features) then complexityScore + 2
    else if 1 <=? Z.of_nat (length features) then complexityScore + 1
    else complexityScore in
  let complexityScore :=
    if negb (String.eqb secondaryType "") then complexityScore + 1
    else complexityScore in
  let complexityScore :=
    if Contains req "complex" || Contains req "advanced"
       || Contains req "sophisticated"
    then complexityScore + 1 else complexityScore in
  let complexityScore :=
    if 200 <? Z.of_nat (String.length requirement)
    then complexityScore + 1 else complexityScore in
  let complexity :=
    if 3 <=? complexityScore then "Complex"
    else if 1 <=? complexityScore then "Moderate"
    else "Simple" in
  {| PrimaryType := primaryType;
     SecondaryType := secondaryType;
     Features := features;
     Complexity := complexity;
     Keywords := keywords |}.
End Lower.

(** Two orders Go may take: the keys as the source lists them, and the
    same keys from the last to the first. *)
Definition sourceOrder : RangeOrders := {|
  order_taskPatterns := taskTypes;
  order_primaryScore := taskTypes;
  order_primaryScore2 := taskTypes;
  order_secondaryScore := taskTypes;
  order_featurePatterns := featureNames
|}.

Definition reverseOrder : RangeOrders := {|
  order_taskPatterns := rev taskTypes;
  order_primaryScore := rev taskTypes;
  order_primaryScore2 := rev taskTypes;
  order_secondaryScore := rev taskTypes;
  order_featurePatterns := rev featureNames
|}.

End Advanced.

(** ** [backend/main.go]: [App.AnalyzeExcelFile] *)

Module Backend.
Import PromptGenerator.

(** [excel.AnalysisOptions], as the composite literal in
    [AnalyzeExcelFile] builds it. *)
Record AnalysisOptions := {
  MaxSheets : Z;
  MaxRows : Z;
  MaxSamples : Z;
  UseAdvanced : bool
}.

(** [excel.ExcelStructureAnalysis], by the fields that [main.go] reads;
    a region of [AllRanges] is handed to the prompt layer as a
    [DataRange]. The Go code holds it through a pointer that may be nil:
    [option ExcelStructureAnalysis]; nothing in [main.go] writes through
    that pointer. *)
Record ExcelStructureAnalysis := {
  SheetNames : list string;
  AllRanges : list DataRange
}.

(** The sections of [Config] that [AnalyzeExcelFile] reads. *)
Record ExcelSection := {
  Excel_MaxSheets : Z;
  Excel_MaxRows : Z;
  Excel_MaxSamples : Z;
  Excel_UseAdvanced : bool
}.

Record SystemSection := {
  DevMode : bool;
  TempDir : string;
  MaxConcurrency : Z;
  CacheEnabled : bool;
  CacheDir : string
}.

Record Config := {
  Excel : ExcelSection;
  System : SystemSection
}.

(** [Task]; the identifier and the two time stamps are clock readings and
    are left out. *)
Record Task := {
  Task_Type : string;
  Task_Status : string;
  Task_Error : option error
}.

(** [ErrorResponse] with [Details] nil, as [wrapError] is called here. *)
Record ErrorResponse := {
  Code : string;
  Message : string
}.

(** What [runtime.EventsEmit] sends to the front end. *)
Inductive Event :=
| TaskEvent (name : string) (task : Task)
| ErrorEvent (name : string) (code : string) (message : string).

(** The calls into package [excel], recorded in order, those with results
    together with what they returned. *)
Inductive Call :=
| CallLoad (cacheFile : string)
    (r : option ExcelStructureAnalysis * option error)
| CallAnalyze (filePath : string) (options : AnalysisOptions)
    (r : option ExcelStructureAnalysis * option error)
| CallSave (analysis : ExcelStructureAnalysis) (cacheFile : string).

(** The fields of [App] that [AnalyzeExcelFile] touches. [a.ctx] has been
    set by [startup]. *)
Record App := {
  config : Config;
  excelAnalysis : option ExcelStructureAnalysis;
  currentRegion : Z;
  filePath : string
}.

(** What the method runs against: the functions of package [excel]
    (whose source is not part of this development) acting on the outside
    world [W] (the files on disk), and the Go library functions used to
    build the cache file name and the error text. The functions of package
    [excel] are given the analysis as a value: they read it and do not
    write through the pointer. The result of [SaveAnalysisToCache] is
    dropped by the caller and is left out. *)
Class Environment (W : Type) := {
  Hash : Type;
  HashFilePath : string -> Hash;
  Sprintf_x : Hash -> string;
  filepath_Join : string -> string -> string;
  json_Marshal : ErrorResponse -> result string;
  LoadAnalysisFromCache :
    string -> W -> W * (option ExcelStructureAnalysis * option error);
  excel_AnalyzeExcelFile :
    string -> AnalysisOptions -> W ->
    W * (option ExcelStructureAnalysis * option error);
  SaveAnalysisToCache : ExcelStructureAnalysis -> string -> W -> W
}.

Section Method.
Context {W : Type} `{Environment W}.

(** The state threaded through the method. *)
Record St := {
  world : W;
  receiver : App;
  emitted : list Event;
  calls : list Call
}.

(** State passing with panics. *)
Definition M (A : Type) : Type := St -> St * Go A.

Definition ret {A} (a : A) : M A := fun s => (s, Ret a).

Definition panic {A} (msg : string) : M A := fun s => (s, Panic msg).

Definition bind {A B} (m : M A) (k : A -> M B) : M B :=
  fun s =>
    match m s with
    | (s', Ret a) => k a s'
    | (s', Panic msg) => (s', Panic msg)
    end.

Definition get_app : M App := fun s => (s, Ret (receiver s)).

Definition set_app (a : App) : M unit :=
  fun s => ({| world := world s; receiver := a; emitted := emitted s;
               calls := calls s |}, Ret tt).

Definition emit (e : Event) (s : St) : St :=
  {| world := world s; receiver := receiver s; emitted := app (emitted s) [e];
     calls := calls s |}.

(** [runtime.EventsEmit(a.ctx, name, task)]. *)
Definition EventsEmit (name : string) (task : Task) : M unit :=
  fun s => (emit (TaskEvent name task) s, Ret tt).

(** A call into package [excel]: it acts on the world and is recorded. *)
Definition run_call {A} (c : A -> Call) (f : W -> W * A) (s : St) : St * A :=
  let (w', r) := f (world s) in
  ({| world := w'; receiver := receiver s; emitted := emitted s;
      calls := app (calls s) [c r] |}, r).

Definition call {A} (c : A -> Call) (f : W -> W * A) : M A :=
  fun s => let (s', r) := run_call c f s in (s', Ret r).

(** The cache file of a request:
    [filepath.Join(CacheDir, fmt.Sprintf("%x.json", excel.HashFilePath(filePath)))]. *)
Definition cacheFileOf (cfg : Config) (filePath : string) : string :=
  filepath_Join (CacheDir (System cfg))
    (Sprintf_x (HashFilePath filePath) ++ ".json").

(** [wrapError code err nil]. *)
Definition wrapError (code : string) (err : error) : error :=
  let errResp := {| Code := code; Message := err |} in
  match json_Marshal errResp with
  | Err jsonErr => "错误(" ++ code ++ "): " ++ err
  | Ok jsonBytes => jsonBytes
  end.

(** [countTotalHeaders]. *)
Definition countTotalHeaders (analysis : ExcelStructureAnalysis) : Z :=
  foldl (fun totalHeaders rng =>
           totalHeaders + Z.of_nat (length (Headers rng)))
        0 (AllRanges analysis).

(** The [options] literal. *)
Definition optionsOf (cfg : Config) : AnalysisOptions :=
  {| MaxSheets := Excel_MaxSheets (Excel cfg);
     MaxRows := Excel_MaxRows (Excel cfg);
     MaxSamples := Excel_MaxSamples (Excel cfg);
     UseAdvanced := Excel_UseAdvanced (Excel cfg) |}.

Notation "'let*' x ':=' m 'in' k" := (bind m (fun x => k))
  (at level 10, x name, m at level 100, k at level 200, only parsing).

(** The part of the body up to the point where [analysis] and [err] are
    settled (the [if a.config.System.CacheEnabled] statement). *)
Definition obtainAnalysis (filePath : string)
  : M (option ExcelStructureAnalysis * option error) :=
  let* a := get_app in
  let options := optionsOf (config a) in
  if CacheEnabled (System (config a)) then
    let cacheFile := cacheFileOf (config a) filePath in
    let* r := call (CallLoad cacheFile) (LoadAnalysisFromCache cacheFile) in
    match snd r with
    | None => ret r
    | Some _ =>
        let* r := call (CallAnalyze filePath options)
                    (excel_AnalyzeExcelFile filePath options) in
        match r with
        | (Some analysis, None) =>
            let* _ := call (fun _ => CallSave analysis cacheFile)
                        (fun w => (SaveAnalysisToCache analysis cacheFile w, tt)) in
            ret r
        | _ => ret r
        end
    end
  else
    call (CallAnalyze filePath options)
      (excel_AnalyzeExcelFile filePath options).

(** The rest of the body, from the update of the task status on. The
    completion log line evaluates [len(analysis.SheetNames)], which
    dereferences [analysis]. *)
Definition settle (filePath : string) (task : Task)
    (r : option ExcelStructureAnalysis * option error)
  : M (option ExcelStructureAnalysis * option error) :=
  let (analysis, err) := r in
  let* task :=
          match err with
          | Some e =>
              ret {| Task_Type := Task_Type task; Task_Status := "failed";
                     Task_Error := Some e |}
          | None =>
              match analysis with
              | None =>
                panic ("runtime error: invalid memory address "
                       ++ "or nil pointer dereference")
              | Some _ =>
                  ret {| Task_Type := Task_Type task;
                         Task_Status := "completed";
                         Task_Error := Task_Error task |}
              end
          end in
  let* _ := EventsEmit "task:update" task in
  let* _ :=
    match err, analysis with
    | None, Some _ =>
        let* a := get_app in
        set_app {| config := config a; excelAnalysis := analysis;
                   currentRegion := currentRegion a; filePath := filePath |}
    | _, _ => ret tt
    end in
  match err with
  | Some e => ret (None, Some (wrapError "EXCEL_ANALYSIS_FAILED" e))
  | None => ret (analysis, None)
  end.

Definition startTask : Task :=
  {| Task_Type := "excel_analysis"; Task_Status := "pending";
     Task_Error := None |}.

(** The body of [AnalyzeExcelFile] below its [defer]. *)
Definition AnalyzeExcelFile_body (filePath : string)
  : M (option ExcelStructureAnalysis * option error) :=
  let* _ := EventsEmit "task:start" startTask in
  let* r := obtainAnalysis filePath in
  settle filePath startTask r.

(** [defer a.recoverPanic(methodName)] around a body whose results are
    unnamed: a panic is reported to the front end and the method returns
    the zero values. *)
Definition recoverPanic {A} (methodName : string) (zero : A) (body : M A)
  : St -> St * A :=
  fun s =>
    match body s with
    | (s', Ret a) => (s', a)
    | (s', Panic msg) =>
        (emit (ErrorEvent "app:error" "INTERNAL_ERROR"
                 ("内部错误: " ++ msg)) s', zero)
    end.

(** What the method hands back once [analysis] and [err] are settled:
    the analysis when there is no error, otherwise nil and the wrapped
    error. *)
Definition handBack (r : option ExcelStructureAnalysis * option error)
  : option ExcelStructureAnalysis * option error :=
  match r with
  | (analysis, None) => (analysis, None)
  | (_, Some e) => (None, Some (wrapError "EXCEL_ANALYSIS_FAILED" e))
  end.

(** [AnalyzeExcelFile]. *)
Definition AnalyzeExcelFile (filePath : string)
  : St -> St * (option ExcelStructureAnalysis * option error) :=
  recoverPanic "AnalyzeExcelFile" (None, None)
    (AnalyzeExcelFile_body filePath).

(** *** Requests running side by side

    [AnalyzeExcelFile] takes no lock ([a.mutex] is not touched) and
    keeps no table of running requests, so several calls interleave
    freely. A request is cut at its calls into package [excel]; each
    piece between two cuts acts on the shared state in one step. *)

Inductive Thread :=
| AtStart (filePath : string)
| AtLookup (filePath : string)
| AtAnalyze (filePath : string) (viaCache : bool)
| AtSave (filePath : string) (analysis : ExcelStructureAnalysis)
| AtSettle (filePath : string)
    (r : option ExcelStructureAnalysis * option error)
| Returned (r : option ExcelStructureAnalysis * option error).

Definition thread_step (t : Thread) (s : St) : St * Thread :=
  match t with
  | AtStart filePath =>
      (emit (TaskEvent "task:start" startTask) s,
       if CacheEnabled (System (config (receiver s)))
       then AtLookup filePath else AtAnalyze filePath false)
  | AtLookup filePath =>
      let cacheFile := cacheFileOf (config (receiver s)) filePath in
      let (s', r) :=
        run_call (CallLoad cacheFile) (LoadAnalysisFromCache cacheFile) s in
      (s', match snd r with
           | None => AtSettle filePath r
           | Some _ => AtAnalyze filePath true
           end)
  | AtAnalyze filePath viaCache =>
      let options := optionsOf (config (receiver s)) in
      let (s', r) :=
        run_call (CallAnalyze filePath options)
          (excel_AnalyzeExcelFile filePath options) s in
      (s', match viaCache, r with
           | true, (Some analysis, None) => AtSave filePath analysis
           | _, _ => AtSettle filePath r
           end)
  | AtSave filePath analysis =>
      let cacheFile := cacheFileOf (config (receiver s)) filePath in
      let (s', _) :=
        run_call (fun _ : unit => CallSave analysis cacheFile)
          (fun w => (SaveAnalysisToCache analysis cacheFile w, tt)) s in
      (s', AtSettle filePath (Some analysis, None))
  | AtSettle filePath r =>
      let (s', res) :=
        recoverPanic "AnalyzeExcelFile" (None, None)
          (settle filePath startTask r) s in
      (s', Returned res)
  | Returned r => (s, Returned r)
  end.

Fixpoint run_thread (fuel : nat) (t : Thread) (s : St) : St * Thread :=
  match fuel with
  | O => (s, t)
  | S fuel' => let (s', t') := thread_step t s in run_thread fuel' t' s'
  end.

(** The shared state and the requests in progress. *)
Record Sys := {
  shared : St;
  pool : list Thread
}.

(** Request number [i] takes its next step. *)
Definition sys_step (sys : Sys) (i : nat) : Sys :=
  match pool sys !! i with
  | None => sys
  | Some t =>
      let (s', t') := thread_step t (shared sys) in
      {| shared := s'; pool := <[i := t']> (pool sys) |}
  end.

(** A schedule names the request that moves at each step. *)
Definition run_schedule (schedule : list nat) (sys : Sys) : Sys :=
  foldl sys_step sys schedule.

Definition is_returned (t : Thread) : bool :=
  match t with Returned _ => true | _ => false end.

Definition all_returned (sys : Sys) : bool := forallb is_returned (pool sys).

(** [n] requests for the same file, about to start. *)
Definition requests (n : nat) (filePath : string) (s : St) : Sys :=
  {| shared := s; pool := replicate n (AtStart filePath) |}.

(** The call counters. *)
Definition is_analyze (c : Call) : bool :=
  match c with CallAnalyze _ _ _ => true | _ => false end.

Definition is_load (c : Call) : bool :=
  match c with CallLoad _ _ => true | _ => false end.

Definition is_failed_load (c : Call) : bool :=
  match c with CallLoad _ (_, Some _) => true | _ => false end.

Definition count_calls (p : Call -> bool) (s : St) : nat :=
  length (List.filter p (calls s)).

Definition results (sys : Sys)
  : list (option ExcelStructureAnalysis * option error) :=
  omap (fun t => match t with Returned r => Some r | _ => None end)
    (pool sys).

(** Bookkeeping over the pool: a request that has read the cache, and
    a request whose read failed and whose analysis is still to come. *)
Definition started (t : Thread) : nat :=
  match t with AtStart _ | AtLookup _ => 0 | _ => 1 end.

Definition pending (t : Thread) : nat :=
  match t with AtAnalyze _ true => 1 | _ => 0 end.

Definition on_cache_path (t : Thread) : bool :=
  match t with AtAnalyze _ false => false | _ => true end.

Definition total (f : Thread -> nat) (l : list Thread) : nat :=
  foldr (fun t n => (f t + n)%nat) 0%nat l.

(** What every schedule preserves: the failed reads are the analyses
    done plus those still to come, and the reads are the requests that
    have started. *)
Definition balanced (sys : Sys) : Prop :=
  CacheEnabled (System (config (receiver (shared sys)))) = true /\
  forallb on_cache_path (pool sys) = true /\
  (count_calls is_failed_load (shared sys)
   = count_calls is_analyze (shared sys) + total pending (pool sys))%nat /\
  (count_calls is_load (shared sys) = total started (pool sys))%nat.

End Method.

(** Modelled from the spec: package [excel] ([HashFilePath],
    [LoadAnalysisFromCache], [AnalyzeExcelFile], [SaveAnalysisToCache]) is
    not among the sources. The disk and the instance below follow the cache
    store of the spec, section 6 ([get(fingerprint)] answers the stored
    analysis or a miss, [put(fingerprint, analysis)] stores it), with an
    analyzer that reads the sheet names of the workbook and keeps at most
    [MaxSheets] of them. They serve to run the method on concrete inputs;
    the general statements quantify over every [Environment]. *)
Record Disk := {
  workbooks : gmap string (list string);
  cacheFiles : gmap string ExcelStructureAnalysis
}.

(** Modelled from the spec: the functions of package [excel] on a [Disk]
    (see above); the library functions are stand-ins of the same types. *)
#[export] Instance diskEnvironment : Environment Disk := {|
  Hash := string;
  HashFilePath := fun filePath => filePath;
  Sprintf_x := fun h => h;
  filepath_Join := fun dir name => dir ++ "/" ++ name;
  json_Marshal := fun e => Ok (Code e ++ ": " ++ Message e);
  LoadAnalysisFromCache := fun cacheFile d =>
    match cacheFiles d !! cacheFile with
    | Some analysis => (d, (Some analysis, None))
    | None => (d, (None, Some "cache file not found"))
    end;
  excel_AnalyzeExcelFile := fun filePath options d =>
    match workbooks d !! filePath with
    | Some sheets =>
        (d, (Some {| SheetNames := take (Z.to_nat (MaxSheets options)) sheets;
                     AllRanges := [] |}, None))
    | None => (d, (None, Some "workbook not found"))
    end;
  SaveAnalysisToCache := fun analysis cacheFile d =>
    {| workbooks := workbooks d;
       cacheFiles := <[cacheFile := analysis]> (cacheFiles d) |}
|}.

(** The same environment with another [SaveAnalysisToCache]. *)
Definition withSave {W} (env : Environment W)
    (save : ExcelStructureAnalysis -> string -> W -> W) : Environment W := {|
  Hash := @Hash W env;
  HashFilePath := @HashFilePath W env;
  Sprintf_x := @Sprintf_x W env;
  filepath_Join := @filepath_Join W env;
  json_Marshal := @json_Marshal W env;
  LoadAnalysisFromCache := @LoadAnalysisFromCache W env;
  excel_AnalyzeExcelFile := @excel_AnalyzeExcelFile W env;
  SaveAnalysisToCache := save
|}.

(** The configuration with caching switched off. *)
Definition withoutCache (cfg : Config) : Config :=
  {| Excel := Excel cfg;
     System := {| DevMode := DevMode (System cfg);
                  TempDir := TempDir (System cfg);
                  MaxConcurrency := MaxConcurrency (System cfg);
                  CacheEnabled := false;
                  CacheDir := CacheDir (System cfg) |} |}.

Definition limits (maxSheets maxRows maxSamples : Z) (useAdvanced : bool)
  : ExcelSection :=
  {| Excel_MaxSheets := maxSheets; Excel_MaxRows := maxRows;
     Excel_MaxSamples := maxSamples; Excel_UseAdvanced := useAdvanced |}.

Definition cachingConfig (l : ExcelSection) : Config :=
  {| Excel := l;
     System := {| DevMode := false; TempDir := "tmp"; MaxConcurrency := 4;
                  CacheEnabled := true; CacheDir := "cache" |} |}.

Definition freshApp (cfg : Config) : App :=
  {| config := cfg; excelAnalysis := None; currentRegion := 0;
     filePath := "" |}.

Definition startState {W} (cfg : Config) (w : W) : St :=
  {| world := w; receiver := freshApp cfg; emitted := []; calls := [] |}.

(** A disk with one workbook of three sheets and an empty cache. *)
Definition oneBook (sheets : list string) : Disk :=
  {| workbooks := {[ "book.xlsx" := sheets ]}; cacheFiles := ∅ |}.

Definition threeSheets : list string := ["a"; "b"; "c"].

Definition oneSheetLimits : ExcelSection := limits 1 100 5 false.

Definition threeSheetLimits : ExcelSection := limits 3 100 5 false.

Definition analysisOf (sheets : list string) : ExcelStructureAnalysis :=
  {| SheetNames := sheets; AllRanges := [] |}.

(** A disk whose cache already holds an analysis of the workbook. *)
Definition cachedBook (sheets : list string)
    (cached : ExcelStructureAnalysis) : Disk :=
  {| workbooks := {[ "book.xlsx" := sheets ]};
     cacheFiles := {[ "cache/book.xlsx.json" := cached ]} |}.

(** The workbook at [path] is rewritten with other sheets. *)
Definition rewriteBook (path : string) (sheets : list string) (d : Disk) : Disk :=
  {| workbooks := <[path := sheets]> (workbooks d);
     cacheFiles := cacheFiles d |}.

(** The configuration of the receiver is replaced (as [UpdateAppConfig]
    does) and the world is acted upon from outside, between two
    requests. *)
Definition between {W} (cfg : Config) (outside : W -> W) (s : St (W:=W)) : St :=
  {| world := outside (world s);
     receiver := {| config := cfg; excelAnalysis := excelAnalysis (receiver s);
                    currentRegion := currentRegion (receiver s);
                    filePath := filePath (receiver s) |};
     emitted := emitted s; calls := calls s |}.

End Backend.

(** ** The advanced prompt generator of package [mcp]: the generator *)

Module AdvancedGenerator.
Import GoStrings PromptGenerator Advanced.

(** The scan of [strings.Replace(s, old, new, -1)] for a non-empty [old]:
    occurrences are replaced from left to right and do not overlap, so
    after a match the rest of the occurrence is passed over. *)
Fixpoint replace_from (skip : nat) (s old new : string) : string :=
  match s with
  | EmptyString => EmptyString
  | String c s' =>
      match skip with
      | S k => replace_from k s' old new
      | O =>
          if HasPrefix s old
          then new ++ replace_from (String.length old - 1) s' old new
          else String c (replace_from O s' old new)
      end
  end.

(** [strings.Replace(s, old, new, -1)]. For the empty [old] Go puts [new]
    in front of every rune and at the end; bytes stand for runes here, and
    the callers in this development pass non-empty constants. *)
Definition ReplaceAll (s old new : string) : string :=
  match old with
  | EmptyString =>
      new ++ foldr (fun c acc => String c new ++ acc) "" (list_ascii_of_string s)
  | _ => replace_from O s old new
  end.

Record UserInfo := {
  Username : string;
  Timestamp : string;
  SessionID : string;
  Preferences : gmap string string
}.

Record CustomModule := {
  Module_Name : string;
  Module_Description : string;
  Module_CodeSample : string
}.

Record AdvancedPromptConfig := {
  A_Language : string;
  A_DetailLevel : string;
  FewShotExamples : Z;
  A_MaxSampleRows : Z;
  TaskType : string;
  A_TargetExcelVersion : string;
  User : UserInfo;
  HighlightColumns : list string;
  IncludeRelationships : bool;
  A_TemplateVariables : gmap string string;
  A_IncludeModules : list string;
  CustomModules : list CustomModule;
  EnableChainOfThought : bool;
  IncludeErrorScenarios : bool;
  OptimizationLevel : string
}.

(** The values stored in the template data map of the advanced
    generator. *)
Inductive AdvancedValue :=
| AString (s : string)
| AStructure (d : DataRange)
| AConfig (c : AdvancedPromptConfig)
| AClassification (c : TaskClassification)
| ARows (rows : list (list string)).

(** Package [text/template] with the function map of
    [GenerateAdvancedPrompt] ([add], [join]). *)
Class AdvancedEngine := {
  AdvancedTemplate : Type;
  advanced_Parse : string -> string -> result AdvancedTemplate;
  advanced_Execute :
    AdvancedTemplate -> gmap string AdvancedValue -> result string
}.

(** The text constants of the advanced generator: the templates, the
    examples that are not in [prompt_generator.go], and the texts that the
    description functions write or return. *)
Class AdvancedTexts := {
  advancedGenericTemplate : string;
  advancedReportingTemplate : string;
  advancedDataProcessingTemplate : string;
  advancedUserInterfaceTemplate : string;
  advancedAutomationTemplate : string;
  advancedDataValidationTemplate : string;
  automationExample : string;
  dataValidationExample : string;
  errorHandlingExample : string;
  sqlUtilsText : string;
  dataToolsText : string;
  uiHelpersText : string;
  thoughtReporting : string;
  thoughtDataProcessing : string;
  thoughtUserInterface : string;
  thoughtAutomation : string;
  thoughtDataValidation : string;
  thoughtGeneric : string;
  errorsBasic : string;
  errorsReporting : string;
  errorsDataProcessing : string;
  errorsUserInterface : string;
  errorsAutomation : string;
  errorsDataValidation : string;
  tipsBasic : string;
  tipsAdvanced : string
}.

(** The loop of [formatHeadersAdvanced]; the inner loop over the
    highlighted columns is the membership test [contains]. *)
Fixpoint formatHeadersAdvanced_loop (i : Z) (headers : list string)
    (dataTypes : gmap string string) (highlightColumns : list string)
  : string :=
  match headers with
  | [] => ""
  | header :: rest =>
      let dataType := default "" (dataTypes !! header) in
      let dataType := if String.eqb dataType "" then "Unknown" else dataType in
      let isHighlighted := contains highlightColumns header in
      (if isHighlighted
       then "[header:" ++ header ++ "] (Column " ++ columnLetterFromIndex i
              ++ ", Type: " ++ dataType ++ ") *KEY COLUMN*" ++ nl
       else "[header:" ++ header ++ "] (Column " ++ columnLetterFromIndex i
              ++ ", Type: " ++ dataType ++ ")" ++ nl)
      ++ formatHeadersAdvanced_loop (i + 1) rest dataTypes highlightColumns
  end.

(** [formatHeadersAdvanced]. *)
Definition formatHeadersAdvanced (headers : list string)
    (dataTypes : gmap string string) (highlightColumns : list string)
  : string :=
  formatHeadersAdvanced_loop 0 headers dataTypes highlightColumns.

Fixpoint getRelationshipDescription_loop (i : Z)
    (relationships : list Relationship) : string :=
  match relationships with
  | [] => ""
  | rel :: rest =>
      (Itoa (i + 1) ++ ". " ++ Type_ rel ++ " relationship: Field ["
         ++ SourceField rel ++ "] connects to [" ++ TargetField rel
         ++ "] in range " ++ TargetRange rel ++ nl)
      ++ getRelationshipDescription_loop (i + 1) rest
  end.

(** [getRelationshipDescription]. *)
Definition getRelationshipDescription (relationships : list Relationship)
  : string :=
  match relationships with
  | [] => "No explicit relationships detected between data ranges."
  | _ =>
      ("The following relationships exist between data elements:" ++ nl ++ nl)
      ++ getRelationshipDescription_loop 0 relationships
  end.

(** The rows loop of [fallbackAdvancedPrompt]: it stops at the fourth
    row. *)
Fixpoint fallbackRows_loop (i : Z) (rows : list (list string)) : string :=
  match rows with
  | [] => ""
  | row :: rest =>
      if 3 <=? i then ""
      else ("Row " ++ Itoa (i + 1) ++ ": " ++ Join row ", " ++ nl)
           ++ fallbackRows_loop (i + 1) rest
  end.

(** [fallbackAdvancedPrompt]; [now] is the formatted reading of the
    clock. *)
Definition fallbackAdvancedPrompt (now : string) (structure : DataRange)
    (userRequirement : string) (err : error) : string :=
  ("# TASK: Generate Excel VBA script based on user requirements" ++ nl ++ nl)
  ++ ("ERROR: Advanced template processing failed: " ++ err
        ++ ". Using fallback prompt." ++ nl ++ nl)
  ++ ("Current Date and Time: " ++ now ++ nl)
  ++ ("User: Corphon" ++ nl ++ nl)
  ++ ("## EXCEL STRUCTURE" ++ nl)
  ++ ("- Sheet: " ++ SheetName structure ++ nl)
  ++ ("- Range: " ++ RangeAddress structure ++ nl)
  ++ ("- Headers: " ++ Join (Headers structure) ", " ++ nl)
  ++ ("- Data Rows: " ++ Itoa (DataRows structure) ++ nl ++ nl)
  ++ ("## HEADERS" ++ nl)
  ++ formatHeaders_loop 0 (Headers structure) (DataTypes structure)
  ++ nl
  ++ ("## SAMPLE DATA" ++ nl)
  ++ fallbackRows_loop 0 (SampleData structure)
  ++ nl
  ++ ("## USER REQUIREMENT" ++ nl)
  ++ userRequirement
  ++ (nl ++ nl)
  ++ ("## OUTPUT INSTRUCTIONS" ++ nl)
  ++ ("Generate comprehensive VBA code that fulfills the user requirement."
        ++ nl)
  ++ ("Include error handling and ensure the code is optimized for performance."
        ++ nl).

Section Texts.
Context `{PromptTexts} `{AdvancedTexts}.

(** [selectPromptTemplate]. *)
Definition selectPromptTemplate (taskType detailLevel : string) : string :=
  let template :=
    if String.eqb taskType "Reporting" then advancedReportingTemplate
    else if String.eqb taskType "DataProcessing"
    then advancedDataProcessingTemplate
    else if String.eqb taskType "UserInterface"
    then advancedUserInterfaceTemplate
    else if String.eqb taskType "Automation" then advancedAutomationTemplate
    else if String.eqb taskType "DataValidation"
    then advancedDataValidationTemplate
    else advancedGenericTemplate in
  if String.eqb detailLevel "Basic" then
    let template :=
      ReplaceAll template
        ("## CHAIN OF THOUGHT" ++ nl ++ "{{.ChainOfThought}}" ++ nl ++ nl) "" in
    let template :=
      ReplaceAll template
        ("## ERROR SCENARIOS" ++ nl ++ "{{.ErrorScenarios}}" ++ nl ++ nl) "" in
    let template :=
      ReplaceAll template
        ("## OPTIMIZATION TIPS" ++ nl ++ "{{.OptimizationTips}}" ++ nl ++ nl) "" in
    template
  else template.

Fixpoint getModulesDescription_loop (modules : list string) : string :=
  match modules with
  | [] => ""
  | module :: rest =>
      (if String.eqb module "SQLUtils" then sqlUtilsText
       else if String.eqb module "DataTools" then dataToolsText
       else if String.eqb module "UIHelpers" then uiHelpersText
       else "")
      ++ getModulesDescription_loop rest
  end.

(** [getModulesDescription]. *)
Definition getModulesDescription (modules : list string) : string :=
  match modules with
  | [] => ""
  | _ => getModulesDescription_loop modules
  end.

(** [selectExamplesForTask]. *)
Definition selectExamplesForTask (taskType : string) (numExamples : Z)
  : Go string :=
  if numExamples <=? 0 then Ret ""
  else
    let examples :=
      if String.eqb taskType "Reporting" then [reportingExample]
      else if String.eqb taskType "DataProcessing" then [dataProcessingExample]
      else if String.eqb taskType "UserInterface" then [userInterfaceExample]
      else if String.eqb taskType "Automation" then [automationExample]
      else if String.eqb taskType "DataValidation" then [dataValidationExample]
      else [basicExample] in
    let examples :=
      if 2 <=? numExamples then app examples [sqlExample] else examples in
    let examples :=
      if 3 <=? numExamples then app examples [errorHandlingExample]
      else examples in
    go_bind
      (if numExamples <? Z.of_nat (length examples)
       then slice_to examples numExamples else Ret examples)
      (fun examples => Ret (getExamples_loop 0 examples)).

(** [getChainOfThoughtPrompt]. *)
Definition getChainOfThoughtPrompt (taskType : string) : string :=
  if String.eqb taskType "Reporting" then thoughtReporting
  else if String.eqb taskType "DataProcessing" then thoughtDataProcessing
  else if String.eqb taskType "UserInterface" then thoughtUserInterface
  else if String.eqb taskType "Automation" then thoughtAutomation
  else if String.eqb taskType "DataValidation" then thoughtDataValidation
  else thoughtGeneric.

(** [getCommonErrorScenarios]. *)
Definition getCommonErrorScenarios (taskType : string) : string :=
  let basic := errorsBasic in
  if String.eqb taskType "Reporting" then basic ++ errorsReporting
  else if String.eqb taskType "DataProcessing"
  then basic ++ errorsDataProcessing
  else if String.eqb taskType "UserInterface"
  then basic ++ errorsUserInterface
  else if String.eqb taskType "Automation" then basic ++ errorsAutomation
  else if String.eqb taskType "DataValidation"
  then basic ++ errorsDataValidation
  else basic.

(** [getOptimizationTips]. *)
Definition getOptimizationTips (level : string) : string :=
  if String.eqb level "None" then ""
  else
    let basic := tipsBasic in
    if String.eqb level "Basic" then basic
    else basic ++ tipsAdvanced.
End Texts.

(** [DefaultAdvancedConfig]; [now] is the formatted reading of the
    clock. *)
Definition DefaultAdvancedConfig (now : string) : AdvancedPromptConfig := {|
  A_Language := "en";
  A_DetailLevel := "Intermediate";
  FewShotExamples := 1;
  A_MaxSampleRows := 3;
  TaskType := "Auto";
  A_TargetExcelVersion := "Excel 2016+";
  User := {| Username := "User"; Timestamp := now; SessionID := "";
             Preferences := ∅ |};
  HighlightColumns := [];
  IncludeRelationships := true;
  A_TemplateVariables := ∅;
  A_IncludeModules := [];
  CustomModules := [];
  EnableChainOfThought := true;
  IncludeErrorScenarios := true;
  OptimizationLevel := "Basic"
|}.

Section Generate.
Context `{Lowering} `{PromptTexts} `{AdvancedTexts} `{AdvancedEngine}.

(** The template data of [GenerateAdvancedPrompt], the entries in the
    order in which Go evaluates them, then the custom template variables.
    [o] holds the orders that the classification takes over its maps. *)
Definition advancedData (o : RangeOrders) (structure : DataRange)
    (userRequirement : string) (config : AdvancedPromptConfig)
  : Go (gmap string AdvancedValue) :=
  let taskClassification :=
    classifyUserRequirement o userRequirement structure in
  let headersFormatted :=
    formatHeadersAdvanced (Headers structure) (DataTypes structure)
      (HighlightColumns config) in
  go_bind (limitSampleData (SampleData structure) (A_MaxSampleRows config))
    (fun sampleData =>
  let relationshipInfo :=
    getRelationshipDescription (Relationships structure) in
  let modulesInfo := getModulesDescription (A_IncludeModules config) in
  go_bind (selectExamplesForTask (TaskType config) (FewShotExamples config))
    (fun examples =>
  let chainOfThought := getChainOfThoughtPrompt (TaskType config) in
  let errorScenarios := getCommonErrorScenarios (TaskType config) in
  let optimizationTips := getOptimizationTips (OptimizationLevel config) in
  let data : gmap string AdvancedValue :=
    <["OptimizationTips" := AString optimizationTips]>
    (<["ErrorScenarios" := AString errorScenarios]>
    (<["ChainOfThought" := AString chainOfThought]>
    (<["Examples" := AString examples]>
    (<["ModulesInfo" := AString modulesInfo]>
    (<["RelationshipInfo" := AString relationshipInfo]>
    (<["SampleData" := ARows sampleData]>
    (<["HeadersFormatted" := AString headersFormatted]>
    (<["TaskClassification" := AClassification taskClassification]>
    (<["Config" := AConfig config]>
    (<["UserRequirement" := AString userRequirement]>
    (<["Structure" := AStructure structure]>
    (<["Timestamp" := AString (Timestamp (User config))]>
    (<["User" := AString (Username (User config))]> ∅))))))))))))) in
  Ret ((AString <$> A_TemplateVariables config) ∪ data))).

(** [GenerateAdvancedPrompt]; [fallbackNow] is the clock reading of the
    fallback prompt. *)
Definition GenerateAdvancedPrompt (o : RangeOrders) (fallbackNow : string)
    (structure : DataRange) (userRequirement : string)
    (config : AdvancedPromptConfig) : Go string :=
  let templateContent :=
    selectPromptTemplate (TaskType config) (A_DetailLevel config) in
  go_bind (advancedData o structure userRequirement config) (fun data =>
  match advanced_Parse "advanced_mcp_prompt" templateContent with
  | Err err =>
      Ret (fallbackAdvancedPrompt fallbackNow structure userRequirement err)
  | Ok tmpl =>
      match advanced_Execute tmpl data with
      | Err err =>
          Ret (fallbackAdvancedPrompt fallbackNow structure userRequirement err)
      | Ok buf => Ret buf
      end
  end).

(** The configuration that [AdvancedMCPPrompt] builds; the time stamp of
    [DefaultAdvancedConfig] is overwritten with [currentTime]. *)
Definition advancedConfigFor (currentTime : string) (taskType : string)
    (includeStandardModules : bool) : AdvancedPromptConfig :=
  let config := DefaultAdvancedConfig currentTime in
  {| A_Language := A_Language config;
     A_DetailLevel := A_DetailLevel config;
     FewShotExamples := FewShotExamples config;
     A_MaxSampleRows := A_MaxSampleRows config;
     TaskType := taskType;
     A_TargetExcelVersion := A_TargetExcelVersion config;
     User := {| Username := "Corphon"; Timestamp := currentTime;
                SessionID := SessionID (User config);
                Preferences := Preferences (User config) |};
     HighlightColumns := HighlightColumns config;
     IncludeRelationships := IncludeRelationships config;
     A_TemplateVariables := A_TemplateVariables config;
     A_IncludeModules :=
       if includeStandardModules
       then ["SQLUtils"; "DataTools"; "UIHelpers"]
       else A_IncludeModules config;
     CustomModules := CustomModules config;
     EnableChainOfThought := EnableChainOfThought config;
     IncludeErrorScenarios := IncludeErrorScenarios config;
     OptimizationLevel := OptimizationLevel config |}.

(** [AdvancedMCPPrompt]. The requirement is classified twice, here for the
    task type of the configuration and again in [GenerateAdvancedPrompt] for
    the template data: [o1] and [o2] are the orders the two runs take. *)
Definition AdvancedMCPPrompt (o1 o2 : RangeOrders)
    (currentTime fallbackNow : string) (structure : DataRange)
    (userRequirement : string) (includeStandardModules : bool) : Go string :=
  let taskClassification :=
    classifyUserRequirement o1 userRequirement structure in
  let config :=
    advancedConfigFor currentTime (PrimaryType taskClassification)
      includeStandardModules in
  GenerateAdvancedPrompt o2 fallbackNow structure userRequirement config.
End Generate.

(** Texts to run the code with: each constant is its own name; the
    generic template carries the three sections that the basic detail
    level removes. *)
Definition namedAdvancedTexts : AdvancedTexts := {|
  advancedGenericTemplate :=
    "## TASK" ++ nl
    ++ "## CHAIN OF THOUGHT" ++ nl ++ "{{.ChainOfThought}}" ++ nl ++ nl
    ++ "## ERROR SCENARIOS" ++ nl ++ "{{.ErrorScenarios}}" ++ nl ++ nl
    ++ "## OPTIMIZATION TIPS" ++ nl ++ "{{.OptimizationTips}}" ++ nl ++ nl
    ++ "## END";
  advancedReportingTemplate := "advancedReportingTemplate";
  advancedDataProcessingTemplate := "advancedDataProcessingTemplate";
  advancedUserInterfaceTemplate := "advancedUserInterfaceTemplate";
  advancedAutomationTemplate := "advancedAutomationTemplate";
  advancedDataValidationTemplate := "advancedDataValidationTemplate";
  automationExample := "automationExample";
  dataValidationExample := "dataValidationExample";
  errorHandlingExample := "errorHandlingExample";
  sqlUtilsText := "sqlUtilsText";
  dataToolsText := "dataToolsText";
  uiHelpersText := "uiHelpersText";
  thoughtReporting := "thoughtReporting";
  thoughtDataProcessing := "thoughtDataProcessing";
  thoughtUserInterface := "thoughtUserInterface";
  thoughtAutomation := "thoughtAutomation";
  thoughtDataValidation := "thoughtDataValidation";
  thoughtGeneric := "thoughtGeneric";
  errorsBasic := "errorsBasic";
  errorsReporting := "errorsReporting";
  errorsDataProcessing := "errorsDataProcessing";
  errorsUserInterface := "errorsUserInterface";
  errorsAutomation := "errorsAutomation";
  errorsDataValidation := "errorsDataValidation";
  tipsBasic := "tipsBasic";
  tipsAdvanced := "tipsAdvanced"
|}.

(** An engine whose parser refuses every template. *)
Definition refusingAdvancedEngine : AdvancedEngine := {|
  AdvancedTemplate := unit;
  advanced_Parse := fun _ _ => Err "template: unexpected end";
  advanced_Execute := fun _ _ => Ok ""
|}.

End AdvancedGenerator.

(** ** [backend/main.go]: the methods on the current analysis *)

Module Frontend.
Import GoStrings PromptGenerator Advanced AdvancedGenerator Backend.

(** [validator.ValidationResult], by the fields that [main.go] reads; the
    warnings and the suggestions are taken as texts. *)
Record ValidationResult := {
  IsValid : bool;
  Warnings : list string;
  SafetyScore : Z;
  Suggestions : list string
}.

(** [excel.VBAErrorInfo], by the fields that [main.go] reads. *)
Record VBAErrorInfo := {
  ErrorMessage : string;
  ErrorNumber : Z;
  ProcedureName : string;
  LineNumber : Z
}.

(** The values other than nil that are passed as [details] to
    [wrapError]: the map literal of [PreviewRegion] and the error
    information of [ExecuteVBA]. *)
Inductive Details :=
| RegionDetails (index regionCount : Z) (hasAnalysis : bool)
| ErrorInfoDetails (errorInfo : VBAErrorInfo).

(** What a method sends out, in order: the events for the front end
    ([runtime.EventsEmit]) and the requests to the services. *)
Inductive Signal :=
| Sent (e : Event)
| Notification (kind title message : string) (details : list string)
| PreviewAsked (filePath sheetName rangeAddress : string) (hasHeaders : bool)
    (maxRows : Z)
| QueryAsked (filePath sqlQuery : string)
| RunAsked (filePath vbaCode : string)
| GenerateAsked (prompt : string)
| ValidateAsked (vbaCode : string)
| ImproveAsked (vbaCode : string) (validationResult : ValidationResult).

(** What the methods run against, besides the [Environment] of
    [AnalyzeExcelFile]: the functions of the packages [excel], [llm] and
    [validator] (whose sources are not part of this development), acting
    on the outside world [W], and [json.Marshal] on an error response
    that carries details. The functions are taken to return; a nil slice
    is the empty list. [a.llmClient] has been set by [startup]. *)
Class Services (W : Type) := {
  environment :: Environment W;
  json_MarshalDetails : ErrorResponse -> Details -> result string;
  GetRegionPreviewData :
    string -> string -> string -> bool -> Z -> W ->
    W * (list (list string) * option error);
  excel_TestSQLQuery : string -> string -> W -> W * (string * option error);
  ExecuteVBAWithErrorAnalysis :
    string -> string -> W -> W * (option VBAErrorInfo * option error);
  llm_Generate : string -> W -> W * (string * option error);
  ValidateVBACode : string -> W -> W * ValidationResult;
  SuggestCodeImprovements :
    string -> ValidationResult -> W -> W * (string * option error)
}.

Section Methods.
Context {W : Type} `{Services W}.
Context `{Lowering} `{PromptTexts} `{AdvancedTexts}.
Context `{TemplateEngine} `{AdvancedEngine}.

(** The state threaded through a method. *)
Record Session := {
  outside : W;
  current : App;
  sent : list Signal
}.

(** State passing with panics. *)
Definition Op (A : Type) : Type := Session -> Session * Go A.

Definition op_ret {A} (a : A) : Op A := fun s => (s, Ret a).

Definition op_panic {A} (msg : string) : Op A := fun s => (s, Panic msg).

Definition op_bind {A B} (m : Op A) (k : A -> Op B) : Op B :=
  fun s =>
    match m s with
    | (s', Ret a) => k a s'
    | (s', Panic msg) => (s', Panic msg)
    end.

(** A call into the prompt layer: it touches neither the receiver nor the
    world, and its panic is the panic of the method. *)
Definition lift {A} (g : Go A) : Op A := fun s => (s, g).

Definition get_current : Op App := fun s => (s, Ret (current s)).

Definition set_current (a : App) : Op unit :=
  fun s => ({| outside := outside s; current := a; sent := sent s |}, Ret tt).

Definition signal (x : Signal) (s : Session) : Session :=
  {| outside := outside s; current := current s; sent := app (sent s) [x] |}.

(** [runtime.EventsEmit(a.ctx, name, task)]. *)
Definition emit_task (name : string) (task : Task) : Op unit :=
  fun s => (signal (Sent (TaskEvent name task)) s, Ret tt).

(** [runtime.EventsEmit(a.ctx, "app:notification", ...)]. *)
Definition notify (kind title message : string) (details : list string)
  : Op unit :=
  fun s => (signal (Notification kind title message details) s, Ret tt).

(** A request to a service: it is recorded, then the service acts on the
    world. *)
Definition ask {A} (x : Signal) (f : W -> W * A) : Op A :=
  fun s =>
    let (w', r) := f (outside s) in
    ({| outside := w'; current := current s; sent := app (sent s) [x] |},
     Ret r).

(** [defer a.recoverPanic(methodName)] around a body whose results are
    unnamed: a panic is reported to the front end and the method returns
    the zero values. *)
Definition recover {A} (methodName : string) (zero : A) (body : Op A)
  : Session -> Session * A :=
  fun s =>
    match body s with
    | (s', Ret a) => (s', a)
    | (s', Panic msg) =>
        (signal (Sent (ErrorEvent "app:error" "INTERNAL_ERROR"
                         ("内部错误: " ++ msg))) s', zero)
    end.

(** [wrapError code err details] with details that are not nil. *)
Definition wrapErrorWith (code : string) (err : error) (details : Details)
  : error :=
  let errResp := {| Code := code; Message := err |} in
  match json_MarshalDetails errResp details with
  | Err jsonErr => "错误(" ++ code ++ "): " ++ err
  | Ok jsonBytes => jsonBytes
  end.

Notation "'let*' x ':=' m 'in' k" := (op_bind m (fun x => k))
  (at level 10, x name, m at level 100, k at level 200, only parsing).

Definition nilDereference : string :=
  "runtime error: invalid memory address or nil pointer dereference".

(** The index expression [a.excelAnalysis.AllRanges[index]]. *)
Definition region_at (analysis : ExcelStructureAnalysis) (index : Z)
  : Op DataRange :=
  if (index <? 0) || (Z.of_nat (length (AllRanges analysis)) <=? index)
  then op_panic ("runtime error: index out of range [" ++ Itoa index
                   ++ "] with length "
                   ++ Itoa (Z.of_nat (length (AllRanges analysis))))
  else
    match AllRanges analysis !! Z.to_nat index with
    | Some region => op_ret region
    | None => op_panic "runtime error: index out of range"
    end.

(** [a.currentRegion = index]. *)
Definition withCurrentRegion (a : App) (index : Z) : App :=
  {| config := config a; excelAnalysis := excelAnalysis a;
     currentRegion := index; filePath := filePath a |}.

(** The condition
    [a.excelAnalysis == nil || index < 0 || index >= len(a.excelAnalysis.AllRanges)]. *)
Definition invalidRegion (a : App) (index : Z) : bool :=
  match excelAnalysis a with
  | None => true
  | Some analysis =>
      (index <? 0) || (Z.of_nat (length (AllRanges analysis)) <=? index)
  end.

(** [SetCurrentRegion]. *)
Definition SetCurrentRegion (index : Z) : Session -> Session * bool :=
  recover "SetCurrentRegion" false
    (let* a := get_current in
     if invalidRegion a index then op_ret false
     else
       let* _ := set_current (withCurrentRegion a index) in
       match excelAnalysis a with
       | None => op_panic nilDereference
       | Some analysis =>
           let* region := region_at analysis index in
           op_ret true
       end).

(** [PreviewRegion]. The details of the error of the guard are built
    before [wrapError] is called, and [len(a.excelAnalysis.AllRanges)]
    dereferences [a.excelAnalysis]. *)
Definition PreviewRegion (index : Z)
  : Session -> Session * (list (list string) * option error) :=
  recover "PreviewRegion" ([], None)
    (let* a := get_current in
     if invalidRegion a index then
       match excelAnalysis a with
       | None => op_panic nilDereference
       | Some analysis =>
           op_ret ([], Some (wrapErrorWith "INVALID_REGION" "无效的区域索引"
                               (RegionDetails index
                                  (Z.of_nat (length (AllRanges analysis)))
                                  true)))
       end
     else
       match excelAnalysis a with
       | None => op_panic nilDereference
       | Some analysis =>
           let* region := region_at analysis index in
           let* r :=
             ask (PreviewAsked (filePath a) (SheetName region)
                    (RangeAddress region) (HasHeaders region) 10)
               (GetRegionPreviewData (filePath a) (SheetName region)
                  (RangeAddress region) (HasHeaders region) 10) in
           match snd r with
           | Some err => op_ret ([], Some (wrapError "PREVIEW_FAILED" err))
           | None => op_ret (fst r, None)
           end
       end).

(** [TestSQLQuery]. *)
Definition TestSQLQuery (filePath sqlQuery : string)
  : Session -> Session * (string * option error) :=
  recover "TestSQLQuery" ("", None)
    (if String.eqb filePath ""
     then op_ret ("", Some (wrapError "NO_FILE" "未指定Excel文件"))
     else if String.eqb sqlQuery ""
     then op_ret ("", Some (wrapError "EMPTY_QUERY" "SQL查询为空"))
     else
       let* r := ask (QueryAsked filePath sqlQuery)
                   (excel_TestSQLQuery filePath sqlQuery) in
       match snd r with
       | Some err => op_ret ("", Some (wrapError "SQL_QUERY_FAILED" err))
       | None => op_ret (fst r, None)
       end).

Definition pendingTask (type : string) : Task :=
  {| Task_Type := type; Task_Status := "pending"; Task_Error := None |}.

Definition failedTask (task : Task) (err : error) : Task :=
  {| Task_Type := Task_Type task; Task_Status := "failed";
     Task_Error := Some err |}.

Definition completedTask (task : Task) : Task :=
  {| Task_Type := Task_Type task; Task_Status := "completed";
     Task_Error := Task_Error task |}.

(** [ExecuteVBA]. *)
Definition ExecuteVBA (vbaCode : string)
  : Session -> Session * (string * option error) :=
  recover "ExecuteVBA" ("", None)
    (let* a := get_current in
     if String.eqb (filePath a) ""
     then op_ret ("", Some (wrapError "NO_FILE" "未选择Excel文件"))
     else
       let task := pendingTask "vba_execution" in
       let* _ := emit_task "task:start" task in
       let* r := ask (RunAsked (filePath a) vbaCode)
                   (ExecuteVBAWithErrorAnalysis (filePath a) vbaCode) in
       match snd r with
       | Some err =>
           let task := failedTask task err in
           let* _ := emit_task "task:update" task in
           match fst r with
           | Some errorInfo =>
               op_ret ("", Some (wrapErrorWith "VBA_EXECUTION_ERROR" err
                                   (ErrorInfoDetails errorInfo)))
           | None => op_ret ("", Some (wrapError "VBA_EXECUTION_ERROR" err))
           end
       | None =>
           let task := completedTask task in
           let* _ := emit_task "task:update" task in
           op_ret ("VBA代码执行成功", None)
       end).

(** What [GenerateVBAScript] reads besides its argument: the orders that
    the two classifications of [AdvancedMCPPrompt] take over their maps,
    and the readings of the clock in the prompt layer. *)
Record Readings := {
  firstOrders : RangeOrders;
  secondOrders : RangeOrders;
  promptTime : string;
  fallbackTime : string
}.

(** The prompt for a region, [mcp.AdvancedMCPPrompt(region, description, true)]
    or [mcp.GenerateMCPPrompt(region, description, true)]. *)
Definition promptFor (rd : Readings) (useAdvanced : bool) (region : DataRange)
    (description : string) : Go string :=
  if useAdvanced
  then AdvancedMCPPrompt (firstOrders rd) (secondOrders rd) (promptTime rd)
         (fallbackTime rd) region description true
  else GenerateMCPPrompt (promptTime rd) region description true.

(** The part of [GenerateVBAScript] after a successful answer of the
    model: validation, improvement, and the notification. *)
Definition reviewCode (vbaCode : string) : Op string :=
  let* validationResult := ask (ValidateAsked vbaCode)
                             (ValidateVBACode vbaCode) in
  if negb (IsValid validationResult) then
    let* improved := ask (ImproveAsked vbaCode validationResult)
                       (SuggestCodeImprovements vbaCode validationResult) in
    let vbaCode :=
      match snd improved with
      | None => fst improved
      | Some fixErr => vbaCode
      end in
    let* _ := notify "warning" "请检查生成的代码"
                "代码验证发现潜在问题，请仔细检查。"
                (Warnings validationResult) in
    op_ret vbaCode
  else op_ret vbaCode.

(** [GenerateVBAScript]. *)
Definition GenerateVBAScript (rd : Readings) (description : string)
  : Session -> Session * (string * option error) :=
  recover "GenerateVBAScript" ("", None)
    (let* a := get_current in
     match excelAnalysis a with
     | None => op_ret ("", Some (wrapError "NO_EXCEL_DATA" "请先导入Excel文件"))
     | Some analysis =>
         if (currentRegion a <? 0)
            || (Z.of_nat (length (AllRanges analysis)) <=? currentRegion a)
         then op_ret ("", Some (wrapError "NO_REGION_SELECTED"
                                  "请先选择数据区域"))
         else
           let* region := region_at analysis (currentRegion a) in
           let task := pendingTask "vba_generation" in
           let* _ := emit_task "task:start" task in
           let* prompt :=
             lift (promptFor rd (Excel_UseAdvanced (Excel (config a)))
                     region description) in
           let* r := ask (GenerateAsked prompt) (llm_Generate prompt) in
           match snd r with
           | Some err =>
               let task := failedTask task err in
               let* _ := emit_task "task:update" task in
               op_ret ("", Some (wrapError "LLM_API_ERROR" err))
           | None =>
               let* vbaCode := reviewCode (fst r) in
               let task := completedTask task in
               let* _ := emit_task "task:update" task in
               op_ret (vbaCode, None)
           end
     end).

End Methods.

(** A session that starts with nothing sent. *)
Definition sessionOf {W} (a : App) (w : W) : Session :=
  {| outside := w; current := a; sent := [] |}.

(** An application that holds an analysis, with a region selected and a
    file path. *)
Definition appWith (useAdvanced : bool)
    (analysis : option ExcelStructureAnalysis) (region : Z) (path : string)
  : App :=
  {| config := cachingConfig (limits 20 5000 5 useAdvanced);
     excelAnalysis := analysis; currentRegion := region; filePath := path |}.

(** An analysis of one sheet with the region of the example. *)
Definition exampleAnalysis : ExcelStructureAnalysis :=
  {| SheetNames := ["Sheet1"]; AllRanges := [exampleRange] |}.

(** The packages [excel], [llm] and [validator] are not among the
    sources. Stand-ins of the same types, to run the methods on concrete
    inputs: the preview is one row that names the sheet and the range, a
    query other than "SELECT" fails, the model answers with a fixed
    procedure, the validator rejects code that contains "Kill", and
    running such code fails. The general statements quantify over every
    [Services]. *)
#[export] Instance deskServices : Services Disk := {|
  environment := diskEnvironment;
  json_MarshalDetails := fun e _ => Ok (Code e ++ ": " ++ Message e ++ " (details)");
  GetRegionPreviewData := fun filePath sheetName rangeAddress hasHeaders maxRows d =>
    (d, ([[sheetName; rangeAddress]], None));
  excel_TestSQLQuery := fun filePath sqlQuery d =>
    if String.eqb sqlQuery "SELECT" then (d, ("rows", None))
    else (d, ("", Some "syntax error"));
  ExecuteVBAWithErrorAnalysis := fun filePath vbaCode d =>
    if Contains vbaCode "Kill"
    then (d, (Some {| ErrorMessage := "Permission denied"; ErrorNumber := 70;
                      ProcedureName := "Main"; LineNumber := 2 |},
              Some "run-time error 70"))
    else (d, (None, None));
  llm_Generate := fun prompt d => (d, ("Sub Main()", None));
  ValidateVBACode := fun vbaCode d =>
    (d, {| IsValid := negb (Contains vbaCode "Kill"); Warnings := [];
           SafetyScore := 100; Suggestions := [] |});
  SuggestCodeImprovements := fun vbaCode validationResult d =>
    (d, (vbaCode, None))
|}.

End Frontend.

(** ** The application shell: the [main] package with [safeExecute] *)

Module Shell.

(** The lines handed to [a.logger], in order; the logger puts its prefix,
    the date and the source position in front of each. *)
Definition Log : Type := list string.

(** [safeExecute] with its [defer a.handlePanic()]. The operation [fn]
    may write to the log, return an error, or panic; the result of
    [safeExecute] is unnamed, so after a recovered panic it is the zero
    value, nil. [%w] and [%v] print the message of the error and of the
    panic. *)
Definition safeExecute (operation : string)
    (fn : Log -> Log * Go (option error)) (log : Log) : Log * option error :=
  let log := app log ["Executing operation: " ++ operation] in
  match fn log with
  | (log', Ret (Some err)) =>
      (app log' ["Operation " ++ operation ++ " failed: " ++ err],
       Some ("operation " ++ operation ++ " failed: " ++ err))
  | (log', Ret None) =>
      (app log' ["Operation " ++ operation ++ " completed successfully"], None)
  | (log', Panic msg) => (app log' ["PANIC RECOVERED: " ++ msg], None)
  end.

(** An operation that divides by its argument: it panics on 0, fails on
    a negative number and succeeds otherwise. *)
Definition divideBy (n : Z) (log : Log) : Log * Go (option error) :=
  if n =? 0 then (log, Panic "runtime error: integer divide by zero")
  else if n <? 0 then (app log ["negative"], Ret (Some "negative divisor"))
  else (log, Ret None).

End Shell.

(** ** Reading aids for the prompt layer

    What one line of [formatHeaders] looks like, and small stand-ins for
    the template texts and the template engine, to run the generators. *)

Module PromptReading.
Import GoStrings PromptGenerator ColumnLetters.

(** The data type shown for a header: the entry of the map, or "Unknown"
    when the entry is missing or empty. *)
Definition shownType (dataTypes : gmap string string) (header : string)
  : string :=
  match dataTypes !! header with
  | Some "" => "Unknown"
  | Some dataType => dataType
  | None => "Unknown"
  end.

(** The line for the header at position [i] (from 0), with the column name
    of the spreadsheet convention. *)
Definition headerLine (dataTypes : gmap string string) (i : nat)
    (header : string) : string :=
  "[header:" ++ header ++ "] (Column " ++ excelColumnName i
    ++ ", Type: " ++ shownType dataTypes header ++ ")" ++ nl.

(** Strings laid end to end. *)
Definition lines (l : list string) : string := foldr String.append "" l.

(** The keys that the map literal of [GenerateExaMCPPromptWithConfig]
    sets. *)
Definition builtinKeys : list string :=
  ["CurrentDateTime"; "Structure"; "UserRequirement"; "Config";
   "HeadersFormatted"; "SampleDataLimited"; "RelationshipDescriptions";
   "ModuleDescriptions"; "Examples"; "ColumnLetters"].

(** Texts to run the code with: each constant is its own name. *)
Definition namedTexts : PromptTexts := {|
  basicTemplate := "basicTemplate";
  advancedTemplate := "advancedTemplate";
  reportingTemplate := "reportingTemplate";
  dataProcessingTemplate := "dataProcessingTemplate";
  userInterfaceTemplate := "userInterfaceTemplate";
  basicExample := "basicExample";
  sqlExample := "sqlExample";
  reportingExample := "reportingExample";
  dataProcessingExample := "dataProcessingExample";
  userInterfaceExample := "userInterfaceExample";
  moduleDescriptions :=
    <["SQLUtils" := "SQLUtils description"]>
    (<["DataTools" := "DataTools description"]>
    (<["UIHelpers" := "UIHelpers description"]> ∅))
|}.

(** An engine whose parser refuses every template. *)
Definition refusingEngine : TemplateEngine := {|
  Template := unit;
  template_Parse := fun _ _ => Err "template: unexpected end";
  template_Execute := fun _ _ => Ok ""
|}.

(** An engine that accepts every template and prints the user
    requirement, failing when that entry is not a string. *)
Definition requirementEngine : TemplateEngine := {|
  Template := string;
  template_Parse := fun _ text => Ok text;
  template_Execute := fun text data =>
    match data !! "UserRequirement" with
    | Some (VString requirement) => Ok (text ++ ": " ++ requirement)
    | _ => Err "template: UserRequirement is not a string"
    end
|}.

End PromptReading.

(** ** Reading aids for the classification *)

Module ClassificationReading.
Import GoStrings Advanced.

(** The summed counts of a list of patterns in [req]. *)
Definition patternsScore (req : string) (patterns : list string) : Z :=
  foldr (fun pattern acc => Count req pattern + acc) 0 patterns.

(** The score of a task type: the summed counts of its patterns, 0 for a
    name that is no task type. *)
Definition typeScore (req : string) (taskType : string) : Z :=
  match taskPatterns !! taskType with
  | Some patterns => patternsScore req patterns
  | None => 0
  end.

(** The entry of a task type in the score map: present when the score is
    positive. *)
Definition scoreEntry (req : string) (taskType : string) : option Z :=
  if 0 <? typeScore req taskType then Some (typeScore req taskType) else None.

(** Whether the pattern of a feature matches [req]. *)
Definition featureMatches (req : string) (feature : string) : bool :=
  match featurePatterns !! feature with
  | Some pattern => regexp_MatchString pattern req
  | None => false
  end.

End ClassificationReading.

(** ** Reading aids for the advanced generator *)

Module AdvancedReading.
Import GoStrings PromptGenerator ColumnLetters AdvancedGenerator PromptReading.

(** The line of a highlighted header at position [i] (from 0). *)
Definition keyHeaderLine (dataTypes : gmap string string) (i : nat)
    (header : string) : string :=
  "[header:" ++ header ++ "] (Column " ++ excelColumnName i
    ++ ", Type: " ++ shownType dataTypes header ++ ") *KEY COLUMN*" ++ nl.

(** The line of the sample row at position [i] (from 0) in the fallback
    prompt. *)
Definition rowLine (i : nat) (row : list string) : string :=
  "Row " ++ Itoa (Z.of_nat i + 1) ++ ": " ++ Join row ", " ++ nl.

(** [structure] with other sample rows. *)
Definition withSampleData (structure : DataRange) (rows : list (list string))
  : DataRange := {|
  RangeAddress := RangeAddress structure;
  Headers := Headers structure;
  DataRows := DataRows structure;
  DataTypes := DataTypes structure;
  SampleData := rows;
  Description := Description structure;
  HasHeaders := HasHeaders structure;
  SheetName := SheetName structure;
  Relationships := Relationships structure
|}.

(** The keys that the map literal of [GenerateAdvancedPrompt] sets. *)
Definition advancedBuiltinKeys : list string :=
  ["User"; "Timestamp"; "Structure"; "UserRequirement"; "Config";
   "TaskClassification"; "HeadersFormatted"; "SampleData";
   "RelationshipInfo"; "ModulesInfo"; "Examples"; "ChainOfThought";
   "ErrorScenarios"; "OptimizationTips"].

(** [config.MaxSampleRows = n] on an advanced configuration. *)
Definition withAdvancedMaxSampleRows (config : AdvancedPromptConfig) (n : Z)
  : AdvancedPromptConfig := {|
  A_Language := A_Language config;
  A_DetailLevel := A_DetailLevel config;
  FewShotExamples := FewShotExamples config;
  A_MaxSampleRows := n;
  TaskType := TaskType config;
  A_TargetExcelVersion := A_TargetExcelVersion config;
  User := User config;
  HighlightColumns := HighlightColumns config;
  IncludeRelationships := IncludeRelationships config;
  A_TemplateVariables := A_TemplateVariables config;
  A_IncludeModules := A_IncludeModules config;
  CustomModules := CustomModules config;
  EnableChainOfThought := EnableChainOfThought config;
  IncludeErrorScenarios := IncludeErrorScenarios config;
  OptimizationLevel := OptimizationLevel config
|}.

Section Examples.
Context `{PromptTexts} `{AdvancedTexts}.

(** The example of a task type, the first one that
    [selectExamplesForTask] lists. *)
Definition taskExample (taskType : string) : string :=
  if String.eqb taskType "Reporting" then reportingExample
  else if String.eqb taskType "DataProcessing" then dataProcessingExample
  else if String.eqb taskType "UserInterface" then userInterfaceExample
  else if String.eqb taskType "Automation" then automationExample
  else if String.eqb taskType "DataValidation" then dataValidationExample
  else basicExample.

(** The template of a task type before the detail level is looked at. *)
Definition taskTemplate (taskType : string) : string :=
  if String.eqb taskType "Reporting" then advancedReportingTemplate
  else if String.eqb taskType "DataProcessing"
  then advancedDataProcessingTemplate
  else if String.eqb taskType "UserInterface"
  then advancedUserInterfaceTemplate
  else if String.eqb taskType "Automation" then advancedAutomationTemplate
  else if String.eqb taskType "DataValidation"
  then advancedDataValidationTemplate
  else advancedGenericTemplate.
End Examples.

(** An engine that accepts every template and prints the task type of
    the classification it is given. *)
Definition classificationEngine : AdvancedEngine := {|
  AdvancedTemplate := string;
  advanced_Parse := fun _ text => Ok text;
  advanced_Execute := fun text data =>
    match data !! "TaskClassification" with
    | Some (AClassification c) => Ok (text ++ ": " ++ Advanced.PrimaryType c)
    | _ => Err "template: TaskClassification is not a classification"
    end
|}.

End AdvancedReading.

(** * Properties *)

Import GoStrings PromptGenerator ColumnLetters.

(** ** Strings *)

Lemma append_cons (c : ascii) (s t : string) :
  (String c s ++ t)%string = String c (s ++ t).
Proof. reflexivity. Qed.

Lemma append_nil (s : string) : ("" ++ s)%string = s.
Proof. reflexivity. Qed.

Lemma string_app_assoc (s t u : string) : ((s ++ t) ++ u = s ++ (t ++ u))%string.
Proof.
  induction s as [|c s IH]; [reflexivity|].
  rewrite !append_cons, IH. reflexivity.
Qed.

Lemma string_app_empty (s : string) : (s ++ "")%string = s.
Proof.
  induction s as [|c s IH]; [reflexivity|].
  rewrite append_cons, IH. reflexivity.
Qed.

Lemma list_ascii_app (s t : string) :
  list_ascii_of_string (s ++ t)
  = app (list_ascii_of_string s) (list_ascii_of_string t).
Proof.
  induction s as [|c s IH]; [reflexivity|].
  rewrite append_cons. simpl. rewrite IH. reflexivity.
Qed.

(** ** Sample rows *)

Lemma slice_to_take {A} (s : list A) (hi : Z) :
  0 <= hi <= Z.of_nat (length s) ->
  slice_to s hi = Ret (take (Z.to_nat hi) s).
Proof.
  intros [Hlo Hhi]. unfold slice_to.
  destruct (Z.ltb_spec hi 0); [lia|].
  destruct (Z.ltb_spec (Z.of_nat (length s)) hi); [lia|].
  reflexivity.
Qed.

Lemma limitSampleData_eq (sampleData : list (list string)) (cap : Z) :
  0 <= cap ->
  limitSampleData sampleData cap
  = Ret (take (Z.to_nat (Z.min cap (Z.of_nat (length sampleData)))) sampleData).
Proof.
  intros Hcap. unfold limitSampleData.
  destruct (Z.leb_spec (Z.of_nat (length sampleData)) cap) as [Hle|Hlt].
  - rewrite Z.min_r by lia. rewrite Nat2Z.id, firstn_all. reflexivity.
  - rewrite Z.min_l by lia. apply slice_to_take. lia.
Qed.

(** C6. For every sample matrix and every non-negative row cap,
    [limitSampleData] returns the first min(cap, number of rows) rows of its
    input in their order: the whole input when it has at most [cap] rows,
    exactly the first [cap] rows otherwise; the result is a prefix of the
    input, never longer than the cap and never longer than the input. *)
Theorem limitSampleData_bounded_prefix
    (sampleData : list (list string)) (cap : Z) :
  0 <= cap ->
  exists rows,
    limitSampleData sampleData cap = Ret rows /\
    rows = take (Z.to_nat (Z.min cap (Z.of_nat (length sampleData)))) sampleData /\
    (Z.of_nat (length sampleData) <= cap -> rows = sampleData) /\
    (cap < Z.of_nat (length sampleData) ->
       rows = take (Z.to_nat cap) sampleData /\ Z.of_nat (length rows) = cap) /\
    (exists rest, sampleData = app rows rest) /\
    (forall i row, rows !! i = Some row -> sampleData !! i = Some row) /\
    Z.of_nat (length rows) = Z.min cap (Z.of_nat (length sampleData)).
Proof.
  intros Hcap.
  eexists. split; [apply limitSampleData_eq; assumption|].
  split; [reflexivity|].
  set (n := Z.to_nat (Z.min cap (Z.of_nat (length sampleData)))).
  assert (Hlen : length (take n sampleData) = n).
  { rewrite length_take. subst n. lia. }
  repeat split.
  - intros Hle. subst n. rewrite Z.min_r by lia.
    rewrite Nat2Z.id. apply firstn_all.
  - subst n. rewrite Z.min_l by lia. reflexivity.
  - rewrite Hlen. subst n. lia.
  - exists (drop n sampleData). symmetry. apply take_drop.
  - intros i row Hi. rewrite lookup_take_Some in Hi. tauto.
  - rewrite Hlen. subst n. lia.
Qed.

Lemma limitSampleData_bounded_prefix_witness :
  exists rows,
    limitSampleData [["a"]; ["b"]; ["c"]] 2 = Ret rows /\ rows = [["a"]; ["b"]].
Proof.
  destruct (limitSampleData_bounded_prefix [["a"]; ["b"]; ["c"]] 2 ltac:(lia))
    as (rows & Hrun & Hrows & _).
  exists rows. split; [exact Hrun|]. rewrite Hrows. reflexivity.
Defined.

(** ** Column letters *)

Lemma columnLetterFromIndex_loop_neg (index : Z) (result : string) :
  index < 0 -> columnLetterFromIndex_loop index result = result.
Proof.
  intros Hneg. simp columnLetterFromIndex_loop.
  destruct (Z_le_gt_dec 0 index); [lia|]. reflexivity.
Qed.

Lemma columnLetterFromIndex_loop_step (index : Z) (result : string) :
  0 <= index ->
  columnLetterFromIndex_loop index result
  = columnLetterFromIndex_loop (Z.quot index 26 - 1)
      (String (letter (Z.rem index 26)) result).
Proof.
  intros Hpos. rewrite columnLetterFromIndex_loop_equation_1.
  destruct (Z_le_gt_dec 0 index); [|lia]. reflexivity.
Qed.

Section BijectiveBase26.

Lemma num_snoc (l : list ascii) (c : ascii) :
  foldl (fun acc c => acc * 26 + digit c) 0 (app l [c])
  = foldl (fun acc c => acc * 26 + digit c) 0 l * 26 + digit c.
Proof. rewrite foldl_app. reflexivity. Qed.

Lemma num_nonneg (l : list ascii) :
  Forall is_letter l -> 0 <= lettersValue l.
Proof.
  induction l as [|c l IH] using rev_ind; intros Hl.
  - unfold lettersValue in *. simpl. lia.
  - apply Forall_app in Hl as [Hl Hc]. apply Forall_inv in Hc.
    unfold lettersValue in *. rewrite num_snoc.
    unfold is_letter in Hc. specialize (IH Hl). lia.
Qed.

Lemma num_positive (l : list ascii) :
  Forall is_letter l -> l <> [] -> 1 <= lettersValue l.
Proof.
  destruct l as [|c l _] using rev_ind; intros Hl Hne; [congruence|].
  apply Forall_app in Hl as [Hl Hc]. apply Forall_inv in Hc.
  pose proof (num_nonneg l Hl) as Hpos.
  unfold lettersValue in *. rewrite num_snoc.
  unfold is_letter in Hc. lia.
Qed.

Lemma num_injective (l1 l2 : list ascii) :
  Forall is_letter l1 -> Forall is_letter l2 -> lettersValue l1 = lettersValue l2 -> l1 = l2.
Proof.
  revert l2. induction l1 as [|c1 l1 IH] using rev_ind; intros l2 H1 H2 Heq.
  - destruct l2 as [|c l2]; [reflexivity|].
    pose proof (num_positive (c :: l2) H2 ltac:(discriminate)) as Hp.
    unfold lettersValue in *. simpl in *. lia.
  - destruct l2 as [|c2 l2 _] using rev_ind.
    + pose proof (num_positive (app l1 [c1]) H1) as Hp.
      assert (app l1 [c1] <> []) as Hne by (destruct l1; discriminate).
      specialize (Hp Hne). unfold lettersValue in *. simpl in *. lia.
    + apply Forall_app in H1 as [H1 Hc1]. apply Forall_inv in Hc1.
      apply Forall_app in H2 as [H2 Hc2]. apply Forall_inv in Hc2.
      unfold lettersValue in *. rewrite !num_snoc in Heq.
      unfold is_letter in Hc1, Hc2.
      assert (digit c1 = digit c2) as Hd by lia.
      assert (l1 = l2) as -> by (apply IH; [assumption..|lia]).
      f_equal. f_equal.
      unfold digit in Hd.
      assert (N_of_ascii c1 = N_of_ascii c2) as Hn by lia.
      rewrite <- (ascii_N_embedding c1), <- (ascii_N_embedding c2).
      congruence.
Qed.

Lemma num_rev (l : list ascii) : lettersValue (rev l) = lettersValueLE l.
Proof.
  induction l as [|c l IH]; [reflexivity|].
  unfold lettersValue, lettersValueLE in *. simpl rev. rewrite num_snoc, IH.
  simpl. lia.
Qed.

Lemma digit_succ (c : ascii) :
  is_letter c -> Ascii.eqb c "Z" = false ->
  digit (ascii_of_N (N_of_ascii c + 1)) = digit c + 1 /\ digit c <= 25.
Proof.
  intros Hc Hz. unfold is_letter, digit in *.
  assert (N_of_ascii c <> 90%N) as Hne.
  { intros Hn. apply Ascii.eqb_neq in Hz. apply Hz.
    rewrite <- (ascii_N_embedding c), Hn. reflexivity. }
  rewrite N_ascii_embedding by lia. lia.
Qed.

Lemma next_rev_letters (l : list ascii) :
  Forall is_letter l -> Forall is_letter (next_rev l).
Proof.
  induction l as [|c l IH]; intros Hl; simpl.
  - repeat constructor; unfold is_letter, digit; simpl; lia.
  - apply Forall_cons in Hl as [Hc Hl].
    destruct (Ascii.eqb c "Z") eqn:Hz.
    + constructor; [unfold is_letter, digit; simpl; lia | auto].
    + destruct (digit_succ c Hc Hz) as [Hd Hle].
      constructor; [|assumption].
      unfold is_letter in *. lia.
Qed.

Lemma next_rev_value (l : list ascii) :
  Forall is_letter l -> lettersValueLE (next_rev l) = lettersValueLE l + 1.
Proof.
  induction l as [|c l IH]; intros Hl; simpl.
  - reflexivity.
  - apply Forall_cons in Hl as [Hc Hl].
    destruct (Ascii.eqb c "Z") eqn:Hz.
    + apply Ascii.eqb_eq in Hz. subst c.
      unfold lettersValueLE in *. simpl. rewrite (IH Hl).
      unfold digit. simpl. lia.
    + destruct (digit_succ c Hc Hz) as [Hd _].
      unfold lettersValueLE in *. simpl. lia.
Qed.

Lemma next_rev_nonempty (l : list ascii) : next_rev l <> [].
Proof. destruct l as [|c l]; simpl; [|destruct (Ascii.eqb c "Z")]; discriminate. Qed.

Lemma isColumnName_list (s : string) :
  isColumnName s <->
  list_ascii_of_string s <> [] /\ Forall is_letter (list_ascii_of_string s).
Proof.
  unfold isColumnName. destruct s; simpl; split; intros [Hne Hl]; split;
    try assumption; congruence.
Qed.

Lemma nextColumn_spec (s : string) :
  isColumnName s ->
  isColumnName (nextColumn s) /\ columnNumber (nextColumn s) = columnNumber s + 1.
Proof.
  intros [Hne Hl]. unfold nextColumn, columnNumber.
  set (l := list_ascii_of_string s) in *.
  assert (Forall is_letter (next_rev (rev l))) as Hn
    by (apply next_rev_letters, Forall_rev, Hl).
  split.
  - apply isColumnName_list. rewrite list_ascii_of_string_of_list_ascii.
    split.
    + intros Hnil. apply (f_equal (@rev ascii)) in Hnil.
      rewrite rev_involutive in Hnil. simpl in Hnil.
      exact (next_rev_nonempty _ Hnil).
    + apply Forall_rev, Hn.
  - rewrite list_ascii_of_string_of_list_ascii.
    change (lettersValue (rev (next_rev (rev l))) = lettersValue l + 1).
    rewrite num_rev, next_rev_value by (apply Forall_rev, Hl).
    rewrite <- num_rev, rev_involutive. reflexivity.
Qed.

Lemma excelColumnName_spec (i : nat) :
  isColumnName (excelColumnName i) /\
  columnNumber (excelColumnName i) = Z.of_nat i + 1.
Proof.
  induction i as [|i [IHn IHv]].
  - split; [|reflexivity].
    split; [discriminate|].
    repeat constructor; unfold is_letter, digit; simpl; lia.
  - change (excelColumnName (S i)) with (nextColumn (excelColumnName i)).
    destruct (nextColumn_spec _ IHn) as [Hn Hv].
    split; [assumption|]. rewrite Hv, IHv. lia.
Qed.

Lemma columnNumber_injective (s t : string) :
  isColumnName s -> isColumnName t -> columnNumber s = columnNumber t -> s = t.
Proof.
  intros [_ Hs] [_ Ht] Heq.
  rewrite <- (string_of_list_ascii_of_string s),
          <- (string_of_list_ascii_of_string t).
  f_equal. apply num_injective; assumption.
Qed.

Lemma digit_letter (r : Z) : 0 <= r < 26 -> digit (letter r) = r + 1.
Proof.
  intros Hr. unfold digit, letter. rewrite N_ascii_embedding by lia. lia.
Qed.

(** The loop prepends to [result] the name whose value is [index + 1]. *)
Lemma columnLetterFromIndex_loop_spec (index : Z) :
  0 <= index ->
  forall result, exists s,
    columnLetterFromIndex_loop index result = (s ++ result)%string /\
    isColumnName s /\ columnNumber s = index + 1.
Proof.
  intros Hpos. pattern index. apply Zlt_0_ind; [|exact Hpos]. clear index Hpos.
  intros index IH Hpos result.
  rewrite columnLetterFromIndex_loop_step by assumption.
  pose proof (Z.quot_rem' index 26) as Hqr.
  pose proof (Z.rem_bound_pos index 26 Hpos ltac:(lia)) as Hr.
  pose proof (Z.quot_pos index 26 Hpos ltac:(lia)) as Hq.
  set (r := Z.rem index 26) in *. set (q := Z.quot index 26) in *.
  destruct (Z.eq_dec q 0) as [Hq0|Hq0].
  - rewrite columnLetterFromIndex_loop_neg by lia.
    exists (String (letter r) ""). split; [reflexivity|]. split.
    + split; [discriminate|]. constructor; [|constructor].
      unfold is_letter. rewrite digit_letter by lia. lia.
    + unfold columnNumber, lettersValue. simpl.
      rewrite digit_letter by lia. lia.
  - destruct (IH (q - 1) ltac:(lia) (String (letter r) result))
      as (s & Hrun & [Hne Hl] & Hv).
    exists (s ++ String (letter r) "")%string. split; [|split].
    + rewrite Hrun, string_app_assoc. reflexivity.
    + split; [destruct s; discriminate|].
      rewrite list_ascii_app. apply Forall_app. split; [assumption|].
      constructor; [|constructor].
      unfold is_letter. rewrite digit_letter by lia. lia.
    + unfold columnNumber, lettersValue in *.
      rewrite list_ascii_app. simpl app.
      rewrite num_snoc, Hv, digit_letter by lia. lia.
Qed.

Lemma columnLetterFromIndex_spec (index : Z) :
  0 <= index ->
  isColumnName (columnLetterFromIndex index) /\
  columnNumber (columnLetterFromIndex index) = index + 1.
Proof.
  intros Hpos. unfold columnLetterFromIndex.
  destruct (columnLetterFromIndex_loop_spec index Hpos "") as (s & Hrun & Hn & Hv).
  rewrite Hrun, string_app_empty. split; assumption.
Qed.

Lemma columnLetterFromIndex_enumerates (i : nat) :
  columnLetterFromIndex (Z.of_nat i) = excelColumnName i.
Proof.
  destruct (columnLetterFromIndex_spec (Z.of_nat i) ltac:(lia)) as [Hn Hv].
  destruct (excelColumnName_spec i) as [Hn' Hv'].
  apply columnNumber_injective; [assumption..|]. lia.
Qed.

End BijectiveBase26.

(** The loop of [generateColumnLetters] fills the slots from [k] on and
    leaves the earlier ones as they are. *)
Lemma generateColumnLetters_loop_spec (todo k : nat) (letters : list string) :
  length letters = (k + todo)%nat ->
  generateColumnLetters_loop todo (Z.of_nat k) letters
  = app (take k letters)
        (map (fun j => columnLetterFromIndex (Z.of_nat j)) (seq k todo)).
Proof.
  revert k letters. induction todo as [|todo IH]; intros k letters Hlen.
  - simpl. rewrite app_nil_r, firstn_all2 by lia. reflexivity.
  - simpl. rewrite Nat2Z.id.
    replace (Z.of_nat k + 1) with (Z.of_nat (S k)) by lia.
    rewrite IH by (rewrite length_insert; lia).
    assert (k < length letters)%nat as Hk by lia.
    rewrite (take_S_r _ _ (columnLetterFromIndex (Z.of_nat k)))
      by (apply list_lookup_insert_eq; assumption).
    rewrite take_insert_ge by lia.
    rewrite <- app_assoc. reflexivity.
Qed.

Lemma generateColumnLetters_eq (count : nat) :
  generateColumnLetters (Z.of_nat count)
  = Ret (map (fun j => columnLetterFromIndex (Z.of_nat j)) (seq 0 count)).
Proof.
  unfold generateColumnLetters.
  destruct (Z.ltb_spec (Z.of_nat count) 0); [lia|].
  rewrite Nat2Z.id.
  rewrite (generateColumnLetters_loop_spec count 0)
    by (rewrite length_replicate; lia).
  reflexivity.
Qed.

(** C7. For every index i >= 0, [columnLetterFromIndex] maps i to the i-th
    name of the enumeration A, B, ..., Z, AA, AB, ...: a non-empty string of
    letters A..Z whose bijective base-26 value is i + 1, and the only such
    string; in particular 0, 1, 25, 26, 27 go to A, B, Z, AA, AB. For a
    count n >= 0, [generateColumnLetters] returns the first n names in
    order. *)
Theorem columnLetters_follow_convention (i : Z) :
  0 <= i ->
  columnLetterFromIndex i = excelColumnName (Z.to_nat i) /\
  isColumnName (columnLetterFromIndex i) /\
  columnNumber (columnLetterFromIndex i) = i + 1 /\
  (forall s, isColumnName s -> columnNumber s = i + 1 ->
             s = columnLetterFromIndex i) /\
  (columnLetterFromIndex 0 = "A" /\ columnLetterFromIndex 1 = "B" /\
   columnLetterFromIndex 25 = "Z" /\ columnLetterFromIndex 26 = "AA" /\
   columnLetterFromIndex 27 = "AB") /\
  generateColumnLetters i = Ret (map excelColumnName (seq 0 (Z.to_nat i))) /\
  (forall names, generateColumnLetters i = Ret names ->
     length names = Z.to_nat i /\
     forall j, (j < Z.to_nat i)%nat ->
       names !! j = Some (columnLetterFromIndex (Z.of_nat j))).
Proof.
  intros Hpos.
  destruct (columnLetterFromIndex_spec i Hpos) as [Hn Hv].
  assert (Hgen : generateColumnLetters i
                 = Ret (map excelColumnName (seq 0 (Z.to_nat i)))).
  { rewrite <- (Z2Nat.id i) at 1 by assumption.
    rewrite generateColumnLetters_eq. f_equal.
    apply map_ext. intros j. apply columnLetterFromIndex_enumerates. }
  split; [|split; [|split; [|split; [|split; [|split]]]]].
  - rewrite <- (Z2Nat.id i) at 1 by assumption.
    apply columnLetterFromIndex_enumerates.
  - exact Hn.
  - exact Hv.
  - intros s Hs Hsv. apply columnNumber_injective; [assumption..|lia].
  - repeat split; reflexivity.
  - exact Hgen.
  - intros names Hnames. rewrite Hgen in Hnames.
    injection Hnames as <-. split.
    + rewrite length_map, length_seq. reflexivity.
    + intros j Hj. rewrite list_lookup_fmap.
      rewrite lookup_seq_lt by assumption. simpl.
      rewrite columnLetterFromIndex_enumerates. reflexivity.
Qed.

Lemma columnLetters_follow_convention_witness :
  columnLetterFromIndex 701 = excelColumnName 701 /\
  columnNumber (columnLetterFromIndex 701) = 702 /\
  generateColumnLetters 3 = Ret ["A"; "B"; "C"].
Proof.
  split; [|split].
  - exact (proj1 (columnLetters_follow_convention 701 ltac:(lia))).
  - exact (proj1 (proj2 (proj2 (columnLetters_follow_convention 701 ltac:(lia))))).
  - exact (proj1 (proj2 (proj2 (proj2 (proj2 (proj2
             (columnLetters_follow_convention 3 ltac:(lia)))))))).
Defined.

(** ** Substrings *)

Lemma HasPrefix_spec (s prefix : string) :
  HasPrefix s prefix = true <-> exists post, s = (prefix ++ post)%string.
Proof.
  revert s. induction prefix as [|p prefix IH]; intros s.
  - destruct s; simpl; split; eauto.
  - destruct s as [|c s]; simpl.
    + split; [discriminate|]. intros [post Hpost]. discriminate.
    + destruct (Ascii.eqb_spec p c) as [->|Hne].
      * rewrite IH. split; intros [post Hpost]; exists post.
        -- rewrite append_cons. congruence.
        -- rewrite append_cons in Hpost. congruence.
      * split; [discriminate|]. intros [post Hpost].
        rewrite append_cons in Hpost. congruence.
Qed.

Lemma Contains_spec (s substr : string) :
  Contains s substr = true <-> substring_of substr s.
Proof.
  unfold substring_of. induction s as [|c s IH].
  - cbn [Contains]. rewrite orb_false_r, HasPrefix_spec. split.
    + intros [post Hpost]. exists "", post. exact Hpost.
    + intros (pre & post & Heq). destruct pre; [eauto|discriminate].
  - cbn [Contains]. rewrite orb_true_iff, HasPrefix_spec, IH. split.
    + intros [[post Hpost]|(pre & post & Heq)].
      * exists "", post. exact Hpost.
      * exists (String c pre), post. rewrite append_cons. congruence.
    + intros (pre & post & Heq). destruct pre as [|c' pre].
      * left. exists post. exact Heq.
      * right. rewrite append_cons in Heq. injection Heq as _ Heq.
        eauto.
Qed.

(** ** Keywords *)

Import Advanced.

Lemma extractKeywords_dedup_spec (keywords uniqueKeywords : list string)
    (seen : gmap string bool) :
  NoDup uniqueKeywords ->
  (forall kw, default false (seen !! kw) = true <-> kw ∈ uniqueKeywords) ->
  NoDup (extractKeywords_dedup keywords uniqueKeywords seen) /\
  (forall kw, kw ∈ extractKeywords_dedup keywords uniqueKeywords seen ->
              kw ∈ uniqueKeywords \/ kw ∈ keywords).
Proof.
  revert uniqueKeywords seen.
  induction keywords as [|kw rest IH]; intros uniqueKeywords seen Hnd Hseen.
  - simpl. split; [assumption|]. auto.
  - simpl. destruct (default false (seen !! kw)) eqn:Hkw; simpl.
    + destruct (IH uniqueKeywords seen Hnd Hseen) as [Hnd' Hin].
      split; [assumption|]. intros k Hk.
      destruct (Hin k Hk); [left|right; right]; assumption.
    + assert (kw ∉ uniqueKeywords) as Hnew.
      { intros Hin. apply Hseen in Hin. congruence. }
      destruct (IH (app uniqueKeywords [kw]) (<[kw := true]> seen)) as [Hnd' Hin].
      * apply NoDup_app. repeat split; [assumption| |apply NoDup_singleton].
        intros k Hk Hk'. apply list_elem_of_singleton in Hk'. subst k. auto.
      * intros k. rewrite elem_of_app, list_elem_of_singleton.
        destruct (decide (kw = k)) as [->|Hne].
        -- rewrite lookup_insert_eq. simpl. tauto.
        -- rewrite lookup_insert_ne by assumption. rewrite Hseen.
           split; [tauto|]. intros [?|?]; [assumption|congruence].
      * split; [assumption|]. intros k Hk.
        destruct (Hin k Hk) as [Hk'|Hk']; [|right; right; assumption].
        apply elem_of_app in Hk' as [?|Hk']; [left; assumption|].
        apply list_elem_of_singleton in Hk'. subst k. right; left.
Qed.

Section Keywords.
Context `{Lowering}.

(** C10. For every requirement string, [extractKeywords] returns at most
    10 keywords, without duplicates, and every returned keyword is one of
    the technical terms and occurs as a substring of the lower-cased
    requirement. *)
Theorem extractKeywords_bounded_faithful (requirement : string) :
  (length (extractKeywords requirement) <= 10)%nat /\
  NoDup (extractKeywords requirement) /\
  (forall kw, kw ∈ extractKeywords requirement ->
     kw ∈ technicalTerms /\ substring_of kw (ToLower requirement)).
Proof.
  unfold extractKeywords.
  set (lowerReq := ToLower requirement).
  set (keywords := filter _ technicalTerms).
  destruct (extractKeywords_dedup_spec keywords [] ∅) as [Hnd Hin].
  { constructor. }
  { intros kw. rewrite lookup_empty. simpl. split; [discriminate|].
    intros Hkw. inversion Hkw. }
  assert (forall kw, kw ∈ extractKeywords_dedup keywords [] ∅ ->
            kw ∈ technicalTerms /\ substring_of kw lowerReq) as Hall.
  { intros kw Hkw. destruct (Hin kw Hkw) as [Hkw'|Hkw']; [inversion Hkw'|].
    subst keywords. apply list_elem_of_filter in Hkw' as [Hc Ht].
    split; [assumption|]. apply Contains_spec, Is_true_true, Hc. }
  destruct (Z.ltb_spec 10 (Z.of_nat (length (extractKeywords_dedup keywords [] ∅))))
    as [Hlong|Hshort].
  - split; [rewrite length_take; lia|]. split.
    + eapply sublist_NoDup; [exact Hnd|apply sublist_take].
    + intros kw Hkw. apply Hall.
      apply elem_of_take in Hkw as (i & Hi & _).
      eapply list_elem_of_lookup_2, Hi.
  - split; [lia|]. split; assumption.
Qed.
End Keywords.

(** ** Classification *)

Lemma possible_orders_source : possible_orders sourceOrder.
Proof. repeat split; reflexivity. Qed.

Lemma possible_orders_reverse : possible_orders reverseOrder.
Proof. repeat split; symmetry; apply Permutation_rev. Qed.

(** C9 (the code departs from the claim). On the requirement "sort and
    chart the sum" the task types Reporting and DataProcessing both score 1
    and the features Charts and Calculations both match. Under two orders
    that Go's map iteration may take, [classifyUserRequirement] returns
    different primary types, different secondary types and the features in
    different orders. *)
Theorem classifyUserRequirement_depends_on_range_order :
  possible_orders sourceOrder /\ possible_orders reverseOrder /\
  @classifyUserRequirement asciiLowering sourceOrder
     "sort and chart the sum" exampleRange
  = {| PrimaryType := "Reporting"; SecondaryType := "DataProcessing";
       Features := ["Charts"; "Calculations"]; Complexity := "Moderate";
       Keywords := ["sort"; "chart"; "sum"] |} /\
  @classifyUserRequirement asciiLowering reverseOrder
     "sort and chart the sum" exampleRange
  = {| PrimaryType := "DataProcessing"; SecondaryType := "Reporting";
       Features := ["Calculations"; "Charts"]; Complexity := "Moderate";
       Keywords := ["sort"; "chart"; "sum"] |}.
Proof.
  split; [exact possible_orders_source|].
  split; [exact possible_orders_reverse|].
  split; vm_compute; reflexivity.
Qed.

Lemma classifyUserRequirement_keywords_fixed `{Lowering}
    (o1 o2 : RangeOrders) (requirement : string) (structure : DataRange) :
  Keywords (classifyUserRequirement o1 requirement structure)
  = Keywords (classifyUserRequirement o2 requirement structure).
Proof. reflexivity. Qed.

(** ** Prompt generation *)

Lemma substring_of_intro (pre t post : string) :
  substring_of t (pre ++ t ++ post)%string.
Proof. exists pre, post. reflexivity. Qed.

Lemma substring_of_append_l (t s pre : string) :
  substring_of t s -> substring_of t (pre ++ s)%string.
Proof.
  intros (p & q & ->). exists (pre ++ p)%string, q.
  rewrite string_app_assoc. reflexivity.
Qed.

Lemma substring_of_append_r (t s post : string) :
  substring_of t s -> substring_of t (s ++ post)%string.
Proof.
  intros (p & q & ->). exists p, (q ++ post)%string.
  rewrite !string_app_assoc. reflexivity.
Qed.

(** The fallback prompt carries the sheet name, the range address, the
    joined header names and the requirement. *)
Lemma fallbackPrompt_contents (structure : DataRange) (userRequirement : string)
    (config : PromptConfig) (err : error) :
  substring_of ("- Sheet: " ++ SheetName structure ++ nl)
    (fallbackPrompt structure userRequirement config err) /\
  substring_of ("- Range: " ++ RangeAddress structure ++ nl)
    (fallbackPrompt structure userRequirement config err) /\
  substring_of ("- Headers: " ++ Join (Headers structure) ", " ++ nl)
    (fallbackPrompt structure userRequirement config err) /\
  substring_of ("## USER REQUIREMENT" ++ nl ++ userRequirement ++ nl)
    (fallbackPrompt structure userRequirement config err).
Proof.
  unfold fallbackPrompt. repeat split.
  - do 3 apply substring_of_append_l. apply substring_of_intro with (pre := "").
  - do 4 apply substring_of_append_l. apply substring_of_intro with (pre := "").
  - do 5 apply substring_of_append_l. apply substring_of_intro with (pre := "").
  - do 7 apply substring_of_append_l.
    rewrite !string_app_assoc.
    eexists "", _. rewrite append_nil, !string_app_assoc. reflexivity.
Qed.

Section Generation.
Context `{PromptTexts} `{TemplateEngine}.

(** With a non-negative sample cap the template data is built and the
    generator returns: the output of the template, or the fallback prompt
    when parsing or execution fails. *)
Lemma GenerateExaMCPPromptWithConfig_returns (now : string)
    (structure : DataRange) (userRequirement : string) (config : PromptConfig) :
  0 <= MaxSampleRows config ->
  exists data,
    templateData now structure userRequirement config = Ret data /\
    GenerateExaMCPPromptWithConfig now structure userRequirement config
    = Ret match template_Parse "mcp_prompt" (getPromptTemplate config) with
          | Err err => fallbackPrompt structure userRequirement config err
          | Ok tmpl =>
              match template_Execute tmpl data with
              | Err err => fallbackPrompt structure userRequirement config err
              | Ok buf => buf
              end
          end.
Proof.
  intros Hcap. unfold GenerateExaMCPPromptWithConfig, templateData.
  rewrite limitSampleData_eq by assumption. cbn [go_bind].
  rewrite generateColumnLetters_eq. cbn [go_bind].
  eexists. split; [reflexivity|].
  destruct (template_Parse _ _) as [tmpl|err]; [|reflexivity].
  destruct (template_Execute _ _); reflexivity.
Qed.

(** With a negative sample cap the slice expression of [limitSampleData]
    panics before the template is parsed. *)
Lemma GenerateExaMCPPromptWithConfig_panics (now : string)
    (structure : DataRange) (userRequirement : string) (config : PromptConfig) :
  MaxSampleRows config < 0 ->
  GenerateExaMCPPromptWithConfig now structure userRequirement config
  = Panic ("runtime error: slice bounds out of range [:"
           ++ Itoa (MaxSampleRows config) ++ "]").
Proof.
  intros Hcap. unfold GenerateExaMCPPromptWithConfig, templateData.
  unfold limitSampleData, slice_to.
  destruct (Z.leb_spec (Z.of_nat (length (SampleData structure)))
              (MaxSampleRows config)); [lia|].
  destruct (Z.ltb_spec (MaxSampleRows config) 0); [|lia].
  reflexivity.
Qed.

(** C8 (the code departs from the claim). With [MaxSampleRows] set to -1
    in the default configuration, [GenerateExaMCPPromptWithConfig] on the
    example region does not return a prompt: it panics, whatever the
    template texts and the template engine are. *)
Theorem GenerateExaMCPPromptWithConfig_negative_cap (now : string) :
  GenerateExaMCPPromptWithConfig now exampleRange "Sum the ages"
    (withMaxSampleRows DefaultPromptConfig (-1))
  = Panic "runtime error: slice bounds out of range [:-1]".
Proof.
  rewrite GenerateExaMCPPromptWithConfig_panics by (simpl; lia).
  reflexivity.
Qed.

End Generation.

(** ** The analysis entry point *)

Import Backend.

Section EntryPoint.
Context {W : Type} {env : Environment W}.

(** The tail of the method returns [handBack r]; it leaves the world, the
    recorded calls and the configuration as they are. *)
Lemma settle_recovered (filePath : string) (task : Task)
    (r : option ExcelStructureAnalysis * option error) (s : St) :
  exists s',
    recoverPanic "AnalyzeExcelFile" (None, None) (settle filePath task r) s
    = (s', handBack r) /\
    world s' = world s /\ calls s' = calls s /\
    config (receiver s') = config (receiver s) /\
    (forall analysis, r = (Some analysis, None) ->
       excelAnalysis (receiver s') = Some analysis /\
       Backend.filePath (receiver s') = filePath).
Proof.
  destruct r as [[analysis|] [e|]]; eexists;
    (split; [reflexivity|]); simpl; repeat split; try congruence;
    intros a Ha; injection Ha as <-; reflexivity.
Qed.

(** The part that settles [analysis] and [err] never panics. *)
Lemma obtainAnalysis_returns (filePath : string) (s : St) :
  exists s' r, obtainAnalysis filePath s = (s', Ret r) /\
               config (receiver s') = config (receiver s).
Proof.
  unfold obtainAnalysis, bind, get_app, call, run_call, ret.
  destruct (CacheEnabled _).
  - destruct (LoadAnalysisFromCache _ _) as [w1 [a1 [e1|]]]; simpl.
    + destruct (excel_AnalyzeExcelFile _ _ _) as [w2 [[a2|] [e2|]]]; simpl;
        eauto.
    + eauto.
  - destruct (excel_AnalyzeExcelFile _ _ _) as [w2 r]; simpl. eauto.
Qed.

(** [AnalyzeExcelFile] in two halves. *)
Lemma AnalyzeExcelFile_unfold (filePath : string) (s s1 : St)
    (r : option ExcelStructureAnalysis * option error) :
  obtainAnalysis filePath (emit (TaskEvent "task:start" startTask) s)
  = (s1, Ret r) ->
  AnalyzeExcelFile filePath s
  = recoverPanic "AnalyzeExcelFile" (None, None)
      (settle filePath startTask r) s1.
Proof.
  intros Hobtain.
  unfold AnalyzeExcelFile, AnalyzeExcelFile_body, recoverPanic, bind, EventsEmit.
  rewrite Hobtain. reflexivity.
Qed.

(** On a hit, [obtainAnalysis] is the load alone. *)
Lemma obtainAnalysis_hit (filePath : string) (s : St) (w' : W)
    (cached : option ExcelStructureAnalysis) :
  CacheEnabled (System (config (receiver s))) = true ->
  LoadAnalysisFromCache (cacheFileOf (config (receiver s)) filePath) (world s)
  = (w', (cached, None)) ->
  obtainAnalysis filePath s
  = ({| world := w'; receiver := receiver s; emitted := emitted s;
        calls := app (calls s)
                   [CallLoad (cacheFileOf (config (receiver s)) filePath)
                      (cached, None)] |},
     Ret (cached, None)).
Proof.
  intros Hon Hload.
  unfold obtainAnalysis, bind, get_app, call, run_call, ret.
  rewrite Hon, Hload. reflexivity.
Qed.

(** C5. With caching enabled, whenever [LoadAnalysisFromCache] succeeds
    for the cache file of the request, [AnalyzeExcelFile] returns exactly
    the loaded analysis and no error; the only call into package [excel]
    is that load (the analysis is not computed and nothing is saved), the
    world is as the load left it, and the loaded analysis is what the
    receiver records. *)
Theorem cache_hit_returns_cached (filePath : string) (s : St) (w' : W)
    (cached : option ExcelStructureAnalysis) :
  CacheEnabled (System (config (receiver s))) = true ->
  LoadAnalysisFromCache (cacheFileOf (config (receiver s)) filePath) (world s)
  = (w', (cached, None)) ->
  snd (AnalyzeExcelFile filePath s) = (cached, None) /\
  calls (fst (AnalyzeExcelFile filePath s))
  = app (calls s)
      [CallLoad (cacheFileOf (config (receiver s)) filePath) (cached, None)] /\
  count_calls is_analyze (fst (AnalyzeExcelFile filePath s))
  = count_calls is_analyze s /\
  world (fst (AnalyzeExcelFile filePath s)) = w' /\
  (forall analysis, cached = Some analysis ->
     excelAnalysis (receiver (fst (AnalyzeExcelFile filePath s)))
     = Some analysis).
Proof.
  intros Hon Hload.
  pose proof (obtainAnalysis_hit filePath
                (emit (TaskEvent "task:start" startTask) s) w' cached Hon Hload)
    as Hobtain.
  rewrite (AnalyzeExcelFile_unfold _ _ _ _ Hobtain).
  destruct (settle_recovered filePath startTask (cached, None)
              {| world := w';
                 receiver := receiver (emit (TaskEvent "task:start" startTask) s);
                 emitted := emitted (emit (TaskEvent "task:start" startTask) s);
                 calls := app (calls (emit (TaskEvent "task:start" startTask) s))
                   [CallLoad (cacheFileOf
                      (config (receiver (emit (TaskEvent "task:start" startTask) s)))
                      filePath) (cached, None)] |})
    as (s' & -> & Hw & Hc & _ & Hrec).
  simpl in *. repeat split.
  - exact Hc.
  - unfold count_calls. rewrite Hc, List.filter_app. simpl.
    rewrite length_app. simpl. lia.
  - exact Hw.
  - intros analysis ->. apply (Hrec analysis). reflexivity.
Qed.

Lemma obtainAnalysis_miss (filePath : string) (s : St) (w1 w2 : W)
    (x : option ExcelStructureAnalysis) (e : error)
    (r : option ExcelStructureAnalysis * option error) :
  CacheEnabled (System (config (receiver s))) = true ->
  LoadAnalysisFromCache (cacheFileOf (config (receiver s)) filePath) (world s)
  = (w1, (x, Some e)) ->
  excel_AnalyzeExcelFile filePath (optionsOf (config (receiver s))) w1
  = (w2, r) ->
  let cacheFile := cacheFileOf (config (receiver s)) filePath in
  let loaded := CallLoad cacheFile (x, Some e) in
  let analyzed := CallAnalyze filePath (optionsOf (config (receiver s))) r in
  obtainAnalysis filePath s
  = match r with
    | (Some analysis, None) =>
        ({| world := SaveAnalysisToCache analysis cacheFile w2;
            receiver := receiver s; emitted := emitted s;
            calls := app (app (app (calls s) [loaded]) [analyzed])
                       [CallSave analysis cacheFile] |}, Ret r)
    | _ =>
        ({| world := w2; receiver := receiver s; emitted := emitted s;
            calls := app (app (calls s) [loaded]) [analyzed] |}, Ret r)
    end.
Proof.
  intros Hon Hload Hfresh. simpl.
  unfold obtainAnalysis, bind, get_app, call, run_call, ret.
  rewrite Hon, Hload. simpl. rewrite Hfresh.
  destruct r as [[analysis|] [e'|]]; reflexivity.
Qed.

(** With caching enabled the first call of a request is the load of its
    cache file. *)
Lemma first_call_is_load (filePath : string) (s : St) :
  CacheEnabled (System (config (receiver s))) = true ->
  exists r rest,
    calls (fst (AnalyzeExcelFile filePath s))
    = app (calls s)
        (CallLoad (cacheFileOf (config (receiver s)) filePath) r :: rest).
Proof.
  intros Hon.
  set (s0 := emit (TaskEvent "task:start" startTask) s).
  destruct (LoadAnalysisFromCache (cacheFileOf (config (receiver s0)) filePath)
              (world s0)) as [w1 [x [e|]]] eqn:Hload.
  - destruct (excel_AnalyzeExcelFile filePath (optionsOf (config (receiver s0))) w1)
      as [w2 r] eqn:Hfresh.
    pose proof (obtainAnalysis_miss filePath s0 w1 w2 x e r Hon Hload Hfresh)
      as Hobtain. simpl in Hobtain.
    exists (x, Some e).
    destruct r as [[analysis|] [e'|]];
      rewrite (AnalyzeExcelFile_unfold _ _ _ _ Hobtain);
      match goal with
      | |- context [recoverPanic _ _ (settle ?f ?t ?r) ?st] =>
          destruct (settle_recovered f t r st) as (s' & -> & _ & Hc & _)
      end; simpl in *; rewrite Hc, <- !app_assoc; simpl; eauto.
  - pose proof (obtainAnalysis_hit filePath s0 w1 x Hon Hload) as Hobtain.
    rewrite (AnalyzeExcelFile_unfold _ _ _ _ Hobtain).
    match goal with
    | |- context [recoverPanic _ _ (settle ?f ?t ?r) ?st] =>
        destruct (settle_recovered f t r st) as (s' & -> & _ & Hc & _)
    end. simpl in *. rewrite Hc. eauto.
Qed.

(** A failed load followed by the analysis: what the method returns and
    where it leaves the world. *)
Lemma AnalyzeExcelFile_miss (filePath : string) (s : St) (w1 w2 : W)
    (x : option ExcelStructureAnalysis) (e : error)
    (r : option ExcelStructureAnalysis * option error) :
  CacheEnabled (System (config (receiver s))) = true ->
  LoadAnalysisFromCache (cacheFileOf (config (receiver s)) filePath) (world s)
  = (w1, (x, Some e)) ->
  excel_AnalyzeExcelFile filePath (optionsOf (config (receiver s))) w1
  = (w2, r) ->
  snd (AnalyzeExcelFile filePath s) = handBack r /\
  world (fst (AnalyzeExcelFile filePath s))
  = match r with
    | (Some analysis, None) =>
        SaveAnalysisToCache analysis
          (cacheFileOf (config (receiver s)) filePath) w2
    | _ => w2
    end /\
  calls (fst (AnalyzeExcelFile filePath s))
  = app (calls s)
      (CallLoad (cacheFileOf (config (receiver s)) filePath) (x, Some e)
       :: CallAnalyze filePath (optionsOf (config (receiver s))) r
       :: match r with
          | (Some analysis, None) =>
              [CallSave analysis (cacheFileOf (config (receiver s)) filePath)]
          | _ => []
          end).
Proof.
  intros Hon Hload Hfresh.
  set (s0 := emit (TaskEvent "task:start" startTask) s).
  pose proof (obtainAnalysis_miss filePath s0 w1 w2 x e r Hon Hload Hfresh)
    as Hobtain. simpl in Hobtain.
  destruct r as [[analysis|] [e'|]];
    rewrite (AnalyzeExcelFile_unfold _ _ _ _ Hobtain);
    match goal with
    | |- context [recoverPanic _ _ (settle ?f ?t ?r) ?st] =>
        destruct (settle_recovered f t r st) as (s' & -> & Hw & Hc & _)
    end; simpl in *; rewrite Hw, Hc, <- !app_assoc; auto.
Qed.

(** Without the cache the method is the analysis alone. *)
Lemma AnalyzeExcelFile_uncached (filePath : string) (s : St) :
  CacheEnabled (System (config (receiver s))) = false ->
  snd (AnalyzeExcelFile filePath s)
  = handBack (snd (excel_AnalyzeExcelFile filePath
                     (optionsOf (config (receiver s))) (world s))).
Proof.
  intros Hoff.
  unfold AnalyzeExcelFile, AnalyzeExcelFile_body, recoverPanic,
    obtainAnalysis, EventsEmit, bind, get_app, call, run_call, ret.
  simpl. rewrite Hoff.
  destruct (excel_AnalyzeExcelFile _ _ _) as [w2 [[analysis|] [e|]]];
    reflexivity.
Qed.

(** Another [SaveAnalysisToCache] changes nothing in what is returned. *)
Lemma save_does_not_matter (filePath : string) (s : St)
    (save : ExcelStructureAnalysis -> string -> W -> W) :
  snd (@AnalyzeExcelFile W (withSave env save) filePath s)
  = snd (AnalyzeExcelFile filePath s).
Proof.
  unfold AnalyzeExcelFile, AnalyzeExcelFile_body, recoverPanic,
    obtainAnalysis, EventsEmit, bind, get_app, call, run_call, ret.
  simpl. destruct (CacheEnabled _).
  - unfold cacheFileOf. simpl.
    destruct (LoadAnalysisFromCache _ _) as [w1 [[a1|] [e1|]]]; simpl;
      try reflexivity;
      destruct (excel_AnalyzeExcelFile _ _ _) as [w2 [[a2|] [e2|]]];
      reflexivity.
  - destruct (excel_AnalyzeExcelFile _ _ _) as [w2 [[a2|] [e2|]]];
      reflexivity.
Qed.

(** C4. With caching enabled, when [LoadAnalysisFromCache] fails (with
    any error), [AnalyzeExcelFile] goes on to the analysis and returns
    what the analysis gives: the fresh analysis when it succeeds,
    otherwise the wrapped error of the analysis, exactly as a run without
    the cache would from the same world; an error returned by the method
    is the wrapped analysis error, never the error of the load; and the
    result does not depend on what [SaveAnalysisToCache] does. *)
Theorem cache_failures_not_fatal (filePath : string) (s : St) (w1 : W)
    (x : option ExcelStructureAnalysis) (e : error) :
  CacheEnabled (System (config (receiver s))) = true ->
  LoadAnalysisFromCache (cacheFileOf (config (receiver s)) filePath) (world s)
  = (w1, (x, Some e)) ->
  let fresh :=
    snd (excel_AnalyzeExcelFile filePath (optionsOf (config (receiver s))) w1) in
  snd (AnalyzeExcelFile filePath s) = handBack fresh /\
  snd (AnalyzeExcelFile filePath
         (between (withoutCache (config (receiver s))) (fun _ => w1) s))
  = handBack fresh /\
  (forall analysis, fresh = (analysis, None) ->
     snd (AnalyzeExcelFile filePath s) = (analysis, None)) /\
  (forall err, snd (snd (AnalyzeExcelFile filePath s)) = Some err ->
     exists e', snd fresh = Some e' /\
                err = wrapError "EXCEL_ANALYSIS_FAILED" e') /\
  (forall save,
     snd (@AnalyzeExcelFile W (withSave env save) filePath s)
     = snd (AnalyzeExcelFile filePath s)).
Proof.
  intros Hon Hload fresh.
  destruct (excel_AnalyzeExcelFile filePath (optionsOf (config (receiver s))) w1)
    as [w2 r] eqn:Hfresh.
  destruct (AnalyzeExcelFile_miss filePath s w1 w2 x e r Hon Hload Hfresh)
    as (Hres & _).
  assert (fresh = r) as Hr by (subst fresh; reflexivity).
  rewrite Hr. split; [exact Hres|]. split; [|split; [|split]].
  - rewrite AnalyzeExcelFile_uncached by reflexivity.
    simpl. change (optionsOf (withoutCache (config (receiver s))))
      with (optionsOf (config (receiver s))).
    rewrite Hfresh. reflexivity.
  - intros analysis ->. exact Hres.
  - intros err Herr. rewrite Hres in Herr.
    destruct r as [a [e'|]]; simpl in Herr; [|discriminate].
    injection Herr as <-. eauto.
  - intros save. apply save_does_not_matter.
Qed.

(** C1 (amended). The cache file of a request is computed from the cache
    directory and the file path alone: for every pair of limit settings
    the requests for one path use the same cache file, and an analysis
    that the load finds under it is returned whatever the limits of the
    request are. *)
Theorem cache_key_ignores_limits (sys : SystemSection)
    (l1 l2 : ExcelSection) (filePath : string) :
  cacheFileOf {| Excel := l1; System := sys |} filePath
  = cacheFileOf {| Excel := l2; System := sys |} filePath /\
  cacheFileOf {| Excel := l1; System := sys |} filePath
  = filepath_Join (CacheDir sys) (Sprintf_x (HashFilePath filePath) ++ ".json") /\
  (forall (s : St) (w' : W) (cached : option ExcelStructureAnalysis),
     config (receiver s) = {| Excel := l2; System := sys |} ->
     CacheEnabled sys = true ->
     LoadAnalysisFromCache
       (cacheFileOf {| Excel := l1; System := sys |} filePath) (world s)
     = (w', (cached, None)) ->
     snd (AnalyzeExcelFile filePath s) = (cached, None)).
Proof.
  split; [reflexivity|]. split; [reflexivity|].
  intros s w' cached Hcfg Hon Hload.
  apply (cache_hit_returns_cached filePath s w' cached).
  - rewrite Hcfg. exact Hon.
  - rewrite Hcfg. exact Hload.
Qed.

(** C2. The cache file is computed from the path and not from the content
    of the file: with caching enabled, whatever the worlds of two requests
    for the same path hold, the first call of each is the load of the same
    cache file. So, for a cache that keeps what was saved and a
    modification of the workbook that leaves the cache file alone: after a
    request that missed the cache, computed [a1] and saved it, a second
    request for the same path returns [a1] again without computing
    anything. *)
Theorem stale_analysis_after_modification (cfg : Config) (filePath : string)
    (w0 w1 w2 : W) (outside : W -> W)
    (x : option ExcelStructureAnalysis) (e : error)
    (a1 : ExcelStructureAnalysis) :
  CacheEnabled (System cfg) = true ->
  LoadAnalysisFromCache (cacheFileOf cfg filePath) w0 = (w1, (x, Some e)) ->
  excel_AnalyzeExcelFile filePath (optionsOf cfg) w1 = (w2, (Some a1, None)) ->
  (forall w, snd (LoadAnalysisFromCache (cacheFileOf cfg filePath)
                    (SaveAnalysisToCache a1 (cacheFileOf cfg filePath) w))
             = (Some a1, None)) ->
  (forall w, snd (LoadAnalysisFromCache (cacheFileOf cfg filePath) (outside w))
             = snd (LoadAnalysisFromCache (cacheFileOf cfg filePath) w)) ->
  let first := AnalyzeExcelFile filePath (startState cfg w0) in
  let second := AnalyzeExcelFile filePath (between cfg outside (fst first)) in
  (forall s s' : St,
     config (receiver s) = cfg -> config (receiver s') = cfg ->
     exists r r' rest rest',
       calls (fst (AnalyzeExcelFile filePath s))
       = app (calls s) (CallLoad (cacheFileOf cfg filePath) r :: rest) /\
       calls (fst (AnalyzeExcelFile filePath s'))
       = app (calls s') (CallLoad (cacheFileOf cfg filePath) r' :: rest')) /\
  snd first = (Some a1, None) /\
  snd second = (Some a1, None) /\
  count_calls is_analyze (fst second) = count_calls is_analyze (fst first).
Proof.
  intros Hon Hload Hfresh Hkeep Hframe first second.
  split.
  { intros s s' Hs Hs'.
    destruct (first_call_is_load filePath s) as (r & rest & Hr);
      [rewrite Hs; exact Hon|].
    destruct (first_call_is_load filePath s') as (r' & rest' & Hr');
      [rewrite Hs'; exact Hon|].
    rewrite Hs in Hr. rewrite Hs' in Hr'. eauto 6. }
  destruct (AnalyzeExcelFile_miss filePath (startState cfg w0) w1 w2 x e
              (Some a1, None) Hon Hload Hfresh) as (Hres & Hworld & _).
  fold first in Hres, Hworld. simpl in Hres, Hworld.
  split; [exact Hres|].
  assert (Hcfg : config (receiver (fst first)) = cfg).
  { subst first.
    set (s0 := emit (TaskEvent "task:start" startTask) (startState cfg w0)).
    destruct (obtainAnalysis_returns filePath s0) as (s1 & r & Hobtain & Hc).
    rewrite (AnalyzeExcelFile_unfold _ _ _ _ Hobtain).
    destruct (settle_recovered filePath startTask r s1) as (s' & -> & _ & _ & Hc' & _).
    simpl. rewrite Hc', Hc. reflexivity. }
  destruct (LoadAnalysisFromCache (cacheFileOf cfg filePath)
              (outside (world (fst first)))) as [w3 r3] eqn:Hload2.
  assert (r3 = (Some a1, None)) as ->.
  { pose proof (Hframe (world (fst first))) as Hf.
    rewrite Hload2, Hworld, Hkeep in Hf. exact Hf. }
  destruct (cache_hit_returns_cached filePath
              (between cfg outside (fst first)) w3 (Some a1))
    as (Hres2 & _ & Hcount & _); [exact Hon|exact Hload2|].
  fold second in Hres2, Hcount.
  split; [exact Hres2|]. rewrite Hcount. reflexivity.
Qed.

End EntryPoint.

(** ** The entry point on a concrete disk *)

Lemma cache_hit_returns_cached_witness :
  snd (AnalyzeExcelFile "book.xlsx"
         (startState (cachingConfig threeSheetLimits)
            (cachedBook threeSheets (analysisOf ["old"]))))
  = (Some (analysisOf ["old"]), None) /\
  count_calls is_analyze
    (fst (AnalyzeExcelFile "book.xlsx"
            (startState (cachingConfig threeSheetLimits)
               (cachedBook threeSheets (analysisOf ["old"])))))
  = 0%nat.
Proof.
  destruct (cache_hit_returns_cached (env := diskEnvironment) "book.xlsx"
              (startState (cachingConfig threeSheetLimits)
                 (cachedBook threeSheets (analysisOf ["old"])))
              (cachedBook threeSheets (analysisOf ["old"]))
              (Some (analysisOf ["old"])) eq_refl eq_refl)
    as (Hres & _ & Hcount & _).
  split; [exact Hres|exact Hcount].
Defined.

Lemma cache_failures_not_fatal_witness :
  snd (AnalyzeExcelFile "book.xlsx"
         (startState (cachingConfig threeSheetLimits) (oneBook threeSheets)))
  = (Some (analysisOf threeSheets), None).
Proof.
  exact (proj1 (cache_failures_not_fatal (env := diskEnvironment) "book.xlsx"
                  (startState (cachingConfig threeSheetLimits) (oneBook threeSheets))
                  (oneBook threeSheets) None "cache file not found"
                  eq_refl eq_refl)).
Defined.

(** C1 (as stated, refuted). Two requests for "book.xlsx" whose limits
    differ in [maxSheets] (1 and 3) use the same cache file; the second one
    is answered with the one-sheet analysis cached by the first, while an
    analysis under its own limits has three sheets. *)
Lemma distinct_limits_share_cache_file :
  oneSheetLimits <> threeSheetLimits /\
  @cacheFileOf Disk diskEnvironment (cachingConfig oneSheetLimits) "book.xlsx"
  = @cacheFileOf Disk diskEnvironment (cachingConfig threeSheetLimits) "book.xlsx" /\
  snd (AnalyzeExcelFile "book.xlsx"
         (startState (cachingConfig oneSheetLimits) (oneBook threeSheets)))
  = (Some (analysisOf ["a"]), None) /\
  snd (AnalyzeExcelFile "book.xlsx"
         (between (cachingConfig threeSheetLimits) (fun d => d)
            (fst (AnalyzeExcelFile "book.xlsx"
                    (startState (cachingConfig oneSheetLimits)
                       (oneBook threeSheets))))))
  = (Some (analysisOf ["a"]), None) /\
  snd (excel_AnalyzeExcelFile "book.xlsx"
         (optionsOf (cachingConfig threeSheetLimits)) (oneBook threeSheets))
  = (Some (analysisOf ["a"; "b"; "c"]), None).
Proof.
  split; [discriminate|].
  split; [reflexivity|].
  split; [vm_compute; reflexivity|].
  split; vm_compute; reflexivity.
Qed.

Lemma cache_key_ignores_limits_witness :
  snd (AnalyzeExcelFile "book.xlsx"
         (startState (cachingConfig threeSheetLimits)
            (cachedBook threeSheets (analysisOf ["a"]))))
  = (Some (analysisOf ["a"]), None).
Proof.
  exact (proj2 (proj2 (cache_key_ignores_limits (env := diskEnvironment)
                         (System (cachingConfig threeSheetLimits))
                         oneSheetLimits threeSheetLimits "book.xlsx"))
           (startState (cachingConfig threeSheetLimits)
              (cachedBook threeSheets (analysisOf ["a"])))
           (cachedBook threeSheets (analysisOf ["a"]))
           (Some (analysisOf ["a"])) eq_refl eq_refl eq_refl).
Defined.

Lemma stale_analysis_after_modification_witness :
  snd (AnalyzeExcelFile "book.xlsx"
         (between (cachingConfig threeSheetLimits)
            (rewriteBook "book.xlsx" ["x"; "y"])
            (fst (AnalyzeExcelFile "book.xlsx"
                    (startState (cachingConfig threeSheetLimits)
                       (oneBook threeSheets))))))
  = (Some (analysisOf threeSheets), None) /\
  snd (excel_AnalyzeExcelFile "book.xlsx"
         (optionsOf (cachingConfig threeSheetLimits))
         (rewriteBook "book.xlsx" ["x"; "y"] (oneBook threeSheets)))
  = (Some (analysisOf ["x"; "y"]), None).
Proof.
  split; [|vm_compute; reflexivity].
  refine (proj1 (proj2 (proj2
    (stale_analysis_after_modification (env := diskEnvironment)
       (cachingConfig threeSheetLimits) "book.xlsx"
       (oneBook threeSheets) (oneBook threeSheets) (oneBook threeSheets)
       (rewriteBook "book.xlsx" ["x"; "y"])
       None "cache file not found" (analysisOf threeSheets)
       eq_refl eq_refl eq_refl _ _)))).
  - intros w. simpl. rewrite lookup_insert_eq. reflexivity.
  - intros w. simpl. destruct (cacheFiles w !! _); reflexivity.
Defined.

(** ** Requests side by side *)

Section SideBySide.
Context {W : Type} {env : Environment W}.

(** A request that runs alone goes through its five steps and ends where
    the method ends. *)
Lemma run_thread_alone (filePath : string) (s : St (W:=W)) :
  run_thread 5 (AtStart filePath) s
  = (fst (AnalyzeExcelFile filePath s),
     Returned (snd (AnalyzeExcelFile filePath s))).
Proof.
  unfold AnalyzeExcelFile, AnalyzeExcelFile_body, recoverPanic,
    obtainAnalysis, EventsEmit, bind, get_app, call, ret.
  unfold run_thread, thread_step, recoverPanic, run_call. simpl.
  destruct (CacheEnabled _); simpl.
  - destruct (LoadAnalysisFromCache _ _) as [w1 [[a1|] [e1|]]]; simpl;
      try reflexivity;
      destruct (excel_AnalyzeExcelFile _ _ _) as [w2 [[a2|] [e2|]]];
      reflexivity.
  - destruct (excel_AnalyzeExcelFile _ _ _) as [w2 [[a2|] [e2|]]];
      reflexivity.
Qed.

Lemma count_calls_snoc (p : Call -> bool) (s s' : St (W:=W)) (c : Call) :
  calls s' = app (calls s) [c] ->
  count_calls p s' = (count_calls p s + if p c then 1 else 0)%nat.
Proof.
  intros Hc. unfold count_calls. rewrite Hc, List.filter_app, length_app.
  simpl. destruct (p c); reflexivity.
Qed.

Lemma count_calls_same (p : Call -> bool) (s s' : St (W:=W)) :
  calls s' = calls s -> count_calls p s' = count_calls p s.
Proof. intros Hc. unfold count_calls. rewrite Hc. reflexivity. Qed.

Lemma failed_loads_are_loads (s : St (W:=W)) :
  (count_calls is_failed_load s <= count_calls is_load s)%nat.
Proof.
  unfold count_calls. induction (calls s) as [|c l IH]; simpl; [lia|].
  destruct c as [k [a [e|]]| |]; simpl; lia.
Qed.

(** One step of one request, in the counters. *)
Lemma thread_step_counts (t : Thread) (s : St (W:=W)) :
  CacheEnabled (System (config (receiver s))) = true ->
  on_cache_path t = true ->
  CacheEnabled (System (config (receiver (fst (thread_step t s))))) = true /\
  on_cache_path (snd (thread_step t s)) = true /\
  (count_calls is_failed_load (fst (thread_step t s))
   + count_calls is_analyze s + pending t
   = count_calls is_failed_load s
     + count_calls is_analyze (fst (thread_step t s))
     + pending (snd (thread_step t s)))%nat /\
  (count_calls is_load (fst (thread_step t s)) + started t
   = count_calls is_load s + started (snd (thread_step t s)))%nat.
Proof.
  intros Hon Hpath.
  destruct t as [fp|fp|fp [|]|fp a|fp r|r]; try discriminate.
  - (* the start *)
    cbn [thread_step]. rewrite Hon. simpl.
    repeat split; try assumption;
      rewrite !(count_calls_same _ s (emit _ s)) by reflexivity; lia.
  - (* the load *)
    cbn [thread_step]. unfold run_call.
    destruct (LoadAnalysisFromCache _ _) as [w1 [a1 [e1|]]]; simpl;
      (split; [assumption|]); (split; [reflexivity|]);
      unfold count_calls; simpl; rewrite !List.filter_app, !length_app;
      simpl; lia.
  - (* the analysis *)
    cbn [thread_step]. unfold run_call.
    destruct (excel_AnalyzeExcelFile _ _ _) as [w2 [[a2|] [e2|]]]; simpl;
      (split; [assumption|]); (split; [reflexivity|]);
      unfold count_calls; simpl; rewrite !List.filter_app, !length_app;
      simpl; lia.
  - (* the save *)
    cbn [thread_step]. unfold run_call. simpl.
    (split; [assumption|]); (split; [reflexivity|]).
    unfold count_calls; simpl; rewrite !List.filter_app, !length_app;
      simpl; lia.
  - (* the tail *)
    cbn [thread_step].
    destruct (settle_recovered fp startTask r s) as (s' & -> & _ & Hc & Hcfg & _).
    simpl. rewrite Hcfg.
    rewrite !(count_calls_same _ s s') by assumption.
    repeat split; try assumption; lia.
  - simpl. repeat split; try assumption; lia.
Qed.

Lemma total_insert (f : Thread -> nat) (l : list Thread) (i : nat)
    (t t' : Thread) :
  l !! i = Some t ->
  (total f (<[i := t']> l) + f t = total f l + f t')%nat.
Proof.
  revert i. induction l as [|u l IH]; intros i Hi; [discriminate|].
  destruct i as [|i]; simpl in *.
  - injection Hi as ->. lia.
  - specialize (IH i Hi). lia.
Qed.

Lemma total_le_length (f : Thread -> nat) (l : list Thread) :
  (forall t, f t <= 1)%nat -> (total f l <= length l)%nat.
Proof.
  intros Hf. induction l as [|t l IH]; simpl; [lia|].
  specialize (Hf t). lia.
Qed.

Lemma total_returned (l : list Thread) :
  forallb is_returned l = true ->
  total pending l = 0%nat /\ total started l = length l.
Proof.
  induction l as [|t l IH]; simpl; [auto|].
  intros Hall. apply andb_true_iff in Hall as [Ht Hl].
  destruct (IH Hl) as [Hp Hs]. destruct t; try discriminate.
  simpl. lia.
Qed.

Lemma forallb_insert (f : Thread -> bool) (l : list Thread) (i : nat)
    (t : Thread) :
  forallb f l = true -> f t = true -> forallb f (<[i := t]> l) = true.
Proof.
  revert i. induction l as [|u l IH]; intros i Hl Ht; [reflexivity|].
  simpl in Hl. apply andb_true_iff in Hl as [Hu Hl].
  destruct i as [|i]; simpl.
  - rewrite Ht, Hl. reflexivity.
  - rewrite Hu, IH by assumption. reflexivity.
Qed.

Lemma forallb_lookup (f : Thread -> bool) (l : list Thread) (i : nat)
    (t : Thread) :
  forallb f l = true -> l !! i = Some t -> f t = true.
Proof.
  revert i. induction l as [|u l IH]; intros i Hl Hi; [discriminate|].
  simpl in Hl. apply andb_true_iff in Hl as [Hu Hl].
  destruct i as [|i]; simpl in Hi.
  - injection Hi as <-. assumption.
  - eapply IH; eassumption.
Qed.

Lemma sys_step_balanced (sys : Sys) (i : nat) :
  balanced sys ->
  balanced (sys_step sys i) /\
  length (pool (sys_step sys i)) = length (pool sys).
Proof.
  intros (Hon & Hpath & Hmiss & Hload). unfold sys_step.
  destruct (pool sys !! i) as [t|] eqn:Hi; [|repeat split; assumption].
  pose proof (forallb_lookup _ _ _ _ Hpath Hi) as Ht.
  destruct (thread_step_counts t (shared sys) Hon Ht)
    as (Hon' & Ht' & Hmiss' & Hload').
  destruct (thread_step t (shared sys)) as [s' t'] eqn:Hstep.
  simpl in *.
  pose proof (total_insert pending _ _ _ t' Hi) as Hp.
  pose proof (total_insert started _ _ _ t' Hi) as Hs.
  split; [|apply length_insert].
  repeat split; simpl.
  - exact Hon'.
  - apply forallb_insert; assumption.
  - lia.
  - lia.
Qed.

Lemma run_schedule_balanced (schedule : list nat) (sys : Sys) :
  balanced sys ->
  balanced (run_schedule schedule sys) /\
  length (pool (run_schedule schedule sys)) = length (pool sys).
Proof.
  revert sys. induction schedule as [|i schedule IH]; intros sys Hsys.
  - split; [assumption|reflexivity].
  - destruct (sys_step_balanced sys i Hsys) as [Hstep Hlen].
    destruct (IH _ Hstep) as [Hrun Hlen'].
    change (run_schedule (i :: schedule) sys)
      with (run_schedule schedule (sys_step sys i)).
    split; [assumption|]. rewrite Hlen'. exact Hlen.
Qed.

Lemma requests_balanced (n : nat) (filePath : string) (s : St (W:=W)) :
  CacheEnabled (System (config (receiver s))) = true ->
  calls s = [] ->
  balanced (requests n filePath s).
Proof.
  intros Hon Hcalls. unfold balanced, requests, count_calls. simpl.
  rewrite Hcalls. simpl. split; [assumption|].
  induction n as [|n IH]; simpl; [auto|].
  destruct IH as (Hp & Hm & Hl). repeat split; assumption.
Qed.

(** C3 (amended). [AnalyzeExcelFile] records nothing as in flight and no
    request waits for another. When n requests for the same file run side
    by side with caching enabled, under every schedule: the cache is read
    at most n times, the analysis is computed at most as often as a read
    has failed, and once all requests have returned the number of
    computations equals the number of failed reads, while the number of
    reads is n. *)
Theorem computations_follow_failed_loads (n : nat) (filePath : string)
    (s : St (W:=W)) (schedule : list nat) :
  CacheEnabled (System (config (receiver s))) = true ->
  calls s = [] ->
  let sys := run_schedule schedule (requests n filePath s) in
  (count_calls is_analyze (shared sys)
   <= count_calls is_failed_load (shared sys))%nat /\
  (count_calls is_failed_load (shared sys)
   <= count_calls is_load (shared sys))%nat /\
  (count_calls is_load (shared sys) <= n)%nat /\
  (all_returned sys = true ->
     count_calls is_analyze (shared sys)
     = count_calls is_failed_load (shared sys) /\
     count_calls is_load (shared sys) = n).
Proof.
  intros Hon Hcalls sys.
  destruct (run_schedule_balanced schedule (requests n filePath s)
              (requests_balanced n filePath s Hon Hcalls))
    as [(_ & _ & Hmiss & Hload) Hlen].
  fold sys in Hmiss, Hload, Hlen.
  assert (length (pool sys) = n) as Hn.
  { rewrite Hlen. simpl. apply length_replicate. }
  pose proof (total_le_length started (pool sys)) as Hs.
  split; [lia|]. split; [apply failed_loads_are_loads|]. split.
  - rewrite Hload, <- Hn. apply Hs. intros t; destruct t; simpl; lia.
  - intros Hall. destruct (total_returned (pool sys) Hall) as [Hp Hst]. lia.
Qed.

End SideBySide.

(** C3 (as stated, refuted). Two requests for "book.xlsx" with caching
    enabled and an empty cache, taking their steps in turn: both read the
    cache before either has saved, both reads fail, and the analysis is
    computed twice (each request also saves its own result). *)
Lemma two_requests_two_computations :
  all_returned
    (run_schedule [0; 1; 0; 1; 0; 1; 0; 1; 0; 1]%nat
       (requests 2 "book.xlsx"
          (startState (cachingConfig threeSheetLimits) (oneBook threeSheets))))
  = true /\
  count_calls is_analyze
    (shared
       (run_schedule [0; 1; 0; 1; 0; 1; 0; 1; 0; 1]%nat
          (requests 2 "book.xlsx"
             (startState (cachingConfig threeSheetLimits) (oneBook threeSheets)))))
  = 2%nat /\
  results
    (run_schedule [0; 1; 0; 1; 0; 1; 0; 1; 0; 1]%nat
       (requests 2 "book.xlsx"
          (startState (cachingConfig threeSheetLimits) (oneBook threeSheets))))
  = [(Some (analysisOf threeSheets), None);
     (Some (analysisOf threeSheets), None)].
Proof. repeat split; vm_compute; reflexivity. Qed.

Lemma computations_follow_failed_loads_witness :
  count_calls is_analyze
    (shared
       (run_schedule [0; 1; 0; 1; 0; 1; 0; 1; 0; 1]%nat
          (requests 2 "book.xlsx"
             (startState (cachingConfig threeSheetLimits) (oneBook threeSheets)))))
  = count_calls is_failed_load
      (shared
         (run_schedule [0; 1; 0; 1; 0; 1; 0; 1; 0; 1]%nat
            (requests 2 "book.xlsx"
               (startState (cachingConfig threeSheetLimits)
                  (oneBook threeSheets))))).
Proof.
  exact (proj1 (proj2 (proj2 (proj2
    (computations_follow_failed_loads (env := diskEnvironment) 2 "book.xlsx"
       (startState (cachingConfig threeSheetLimits) (oneBook threeSheets))
       [0; 1; 0; 1; 0; 1; 0; 1; 0; 1]%nat eq_refl eq_refl))) eq_refl)).
Defined.

(** * Further properties of the prompt layer *)

Import PromptReading.

(** X1. Limiting twice is limiting once by the smaller cap: for
    non-negative caps [a] and [b], [limitSampleData] with cap [b] applied to
    the result of [limitSampleData] with cap [a] gives what
    [limitSampleData] gives with cap [min a b]; in particular limiting
    again with the same cap changes nothing. *)
Theorem limitSampleData_twice (sampleData : list (list string)) (a b : Z) :
  0 <= a -> 0 <= b ->
  go_bind (limitSampleData sampleData a) (fun rows => limitSampleData rows b)
  = limitSampleData sampleData (Z.min a b) /\
  go_bind (limitSampleData sampleData a) (fun rows => limitSampleData rows a)
  = limitSampleData sampleData a.
Proof.
  intros Ha Hb.
  assert (Hgen : forall c, 0 <= c ->
    go_bind (limitSampleData sampleData a) (fun rows => limitSampleData rows c)
    = limitSampleData sampleData (Z.min a c)).
  { intros c Hc. rewrite (limitSampleData_eq sampleData a Ha). cbn [go_bind].
    rewrite limitSampleData_eq by assumption.
    rewrite limitSampleData_eq by lia. f_equal.
    rewrite length_take, take_take. f_equal. lia. }
  split; [apply Hgen; assumption|].
  rewrite Hgen by assumption. rewrite Z.min_id. reflexivity.
Qed.

Lemma limitSampleData_twice_witness :
  go_bind (limitSampleData [["a"]; ["b"]; ["c"]] 2)
    (fun rows => limitSampleData rows 1)
  = Ret [["a"]].
Proof.
  rewrite (proj1 (limitSampleData_twice [["a"]; ["b"]; ["c"]] 2 1
                    ltac:(lia) ltac:(lia))).
  reflexivity.
Defined.

(** X2. A negative cap makes [limitSampleData] panic on every input, the
    empty sample matrix included: the length is never at most the cap, and
    the slice expression with a negative bound fails. *)
Theorem limitSampleData_negative_cap (sampleData : list (list string))
    (cap : Z) :
  cap < 0 ->
  limitSampleData sampleData cap
  = Panic ("runtime error: slice bounds out of range [:" ++ Itoa cap ++ "]").
Proof.
  intros Hcap. unfold limitSampleData, slice_to.
  destruct (Z.leb_spec (Z.of_nat (length sampleData)) cap); [lia|].
  destruct (Z.ltb_spec cap 0); [reflexivity|lia].
Qed.

Lemma limitSampleData_negative_cap_witness :
  limitSampleData [] (-1)
  = Panic "runtime error: slice bounds out of range [:-1]".
Proof.
  rewrite (limitSampleData_negative_cap [] (-1) ltac:(lia)). reflexivity.
Defined.

(** X3. Column labels do not collide: two different non-negative indices
    get different labels, and the label of a non-negative index is never
    empty; every negative index gets the empty label. *)
Theorem columnLetterFromIndex_injective (i j : Z) :
  (0 <= i -> 0 <= j ->
   columnLetterFromIndex i = columnLetterFromIndex j -> i = j) /\
  (0 <= i -> columnLetterFromIndex i <> "") /\
  (i < 0 -> columnLetterFromIndex i = "").
Proof.
  split; [|split].
  - intros Hi Hj Heq.
    destruct (columnLetterFromIndex_spec i Hi) as [_ Hvi].
    destruct (columnLetterFromIndex_spec j Hj) as [_ Hvj].
    rewrite Heq in Hvi. lia.
  - intros Hi. destruct (columnLetterFromIndex_spec i Hi) as [[Hne _] _].
    exact Hne.
  - intros Hi. unfold columnLetterFromIndex.
    apply columnLetterFromIndex_loop_neg. exact Hi.
Qed.

Lemma columnLetterFromIndex_injective_witness :
  columnLetterFromIndex 25 <> columnLetterFromIndex 26 /\
  columnLetterFromIndex (-3) = "".
Proof.
  split.
  - intros Heq.
    pose proof (proj1 (columnLetterFromIndex_injective 25 26)
                  ltac:(lia) ltac:(lia) Heq) as Habs.
    discriminate Habs.
  - exact (proj2 (proj2 (columnLetterFromIndex_injective (-3) 0)) ltac:(lia)).
Defined.

Lemma shownType_default (dataTypes : gmap string string) (header : string) :
  (if String.eqb (default "" (dataTypes !! header)) ""
   then "Unknown" else default "" (dataTypes !! header))
  = shownType dataTypes header.
Proof.
  unfold shownType. destruct (dataTypes !! header) as [t|]; simpl; [|reflexivity].
  destruct t; reflexivity.
Qed.

Lemma formatHeaders_loop_lines (n : nat) (headers : list string)
    (dataTypes : gmap string string) :
  formatHeaders_loop (Z.of_nat n) headers dataTypes
  = lines (imap (fun i header => headerLine dataTypes (n + i) header) headers).
Proof.
  revert n. induction headers as [|header rest IH]; intros n; [reflexivity|].
  cbn [formatHeaders_loop]. rewrite imap_cons. cbn [lines foldr].
  replace (Z.of_nat n + 1) with (Z.of_nat (S n)) by lia.
  rewrite IH, shownType_default, columnLetterFromIndex_enumerates.
  unfold headerLine at 2. rewrite Nat.add_0_r.
  f_equal. unfold lines. f_equal. apply imap_ext.
  intros i h _. simpl. f_equal. lia.
Qed.

Lemma lines_contains (l : list string) (i : nat) (x : string) :
  l !! i = Some x -> substring_of x (lines l).
Proof.
  revert i. induction l as [|y l IH]; intros i Hi; [discriminate|].
  destruct i as [|i]; simpl in Hi.
  - injection Hi as ->. exists "", (lines l). reflexivity.
  - cbn [lines foldr]. apply substring_of_append_l. exact (IH i Hi).
Qed.

(** X4. [formatHeaders] writes one line per header, in the order of the
    headers: the line of the header at position i names the i-th column of
    the spreadsheet convention and the data type recorded for the header,
    or "Unknown" when the map has no entry for it or an empty one. No
    headers give the empty text. *)
Theorem formatHeaders_lines (headers : list string)
    (dataTypes : gmap string string) :
  formatHeaders headers dataTypes
  = lines (imap (headerLine dataTypes) headers) /\
  (forall i header, headers !! i = Some header ->
     substring_of (headerLine dataTypes i header)
       (formatHeaders headers dataTypes)) /\
  (headers = [] -> formatHeaders headers dataTypes = "").
Proof.
  assert (Heq : formatHeaders headers dataTypes
                = lines (imap (headerLine dataTypes) headers)).
  { unfold formatHeaders. apply (formatHeaders_loop_lines 0). }
  split; [exact Heq|]. split.
  - intros i header Hi. rewrite Heq. apply (lines_contains _ i).
    rewrite list_lookup_imap, Hi. reflexivity.
  - intros ->. reflexivity.
Qed.

Lemma formatHeaders_lines_witness :
  formatHeaders ["Name"; "Age"; "City"] (<["Name" := "Text"]> (<["City" := ""]> ∅))
  = lines ["[header:Name] (Column A, Type: Text)" ++ nl;
           "[header:Age] (Column B, Type: Unknown)" ++ nl;
           "[header:City] (Column C, Type: Unknown)" ++ nl].
Proof.
  rewrite (proj1 (formatHeaders_lines ["Name"; "Age"; "City"]
                    (<["Name" := "Text"]> (<["City" := ""]> ∅)))).
  vm_compute. reflexivity.
Defined.

Section ModuleTexts.
Context `{PromptTexts}.

Lemma getModuleDescriptions_loop_eq (modules : list string) :
  getModuleDescriptions modules = getModuleDescriptions_loop modules.
Proof. destruct modules; reflexivity. Qed.

Lemma getModuleDescriptions_loop_lines (modules : list string) :
  getModuleDescriptions_loop modules
  = lines (omap (fun module =>
                   desc ← moduleDescriptions !! module;
                   Some ("## " ++ module ++ " Module" ++ nl ++ desc ++ nl ++ nl))
                modules).
Proof.
  induction modules as [|module rest IH]; [reflexivity|].
  cbn [getModuleDescriptions_loop omap list_omap].
  destruct (moduleDescriptions !! module) as [desc|]; simpl.
  - rewrite IH. reflexivity.
  - exact IH.
Qed.

(** X5. [getModuleDescriptions] passes over module names that have no
    entry in its table: the text is the same as for the list of the known
    names alone, in their order, and it is empty when no name is known. *)
Theorem getModuleDescriptions_known_only (modules : list string) :
  getModuleDescriptions modules
  = getModuleDescriptions
      (filter (fun module => is_Some (moduleDescriptions !! module)) modules) /\
  getModuleDescriptions modules
  = lines (omap (fun module =>
                   desc ← moduleDescriptions !! module;
                   Some ("## " ++ module ++ " Module" ++ nl ++ desc ++ nl ++ nl))
                modules) /\
  (Forall (fun module => moduleDescriptions !! module = None) modules ->
   getModuleDescriptions modules = "").
Proof.
  rewrite !getModuleDescriptions_loop_eq.
  split; [|split].
  - induction modules as [|module rest IH]; [reflexivity|].
    rewrite filter_cons. cbn [getModuleDescriptions_loop].
    destruct (decide (is_Some (moduleDescriptions !! module))) as [[desc Hd]|Hn].
    + cbn [getModuleDescriptions_loop]. rewrite Hd, IH. reflexivity.
    + destruct (moduleDescriptions !! module) as [desc|] eqn:Hd.
      * exfalso. apply Hn. eauto.
      * exact IH.
  - apply getModuleDescriptions_loop_lines.
  - intros Hall. induction Hall as [|module rest Hm _ IH]; [reflexivity|].
    cbn [getModuleDescriptions_loop]. rewrite Hm. exact IH.
Qed.
End ModuleTexts.

Lemma getModuleDescriptions_known_only_witness :
  @getModuleDescriptions namedTexts ["Charts"; "SQLUtils"]
  = @getModuleDescriptions namedTexts ["SQLUtils"] /\
  @getModuleDescriptions namedTexts ["Charts"; "Pivot"] = "".
Proof.
  split.
  - exact (proj1 (@getModuleDescriptions_known_only namedTexts
                    ["Charts"; "SQLUtils"])).
  - apply (proj2 (proj2 (@getModuleDescriptions_known_only namedTexts
                           ["Charts"; "Pivot"]))).
    repeat constructor.
Defined.

Lemma contains_spec (slice : list string) (value : string) :
  contains slice value = true <-> value ∈ slice.
Proof.
  induction slice as [|item rest IH]; simpl.
  - split; [discriminate|]. intros Hin. inversion Hin.
  - destruct (String.eqb_spec item value) as [->|Hne].
    + split; [intros _; left|reflexivity].
    + rewrite IH. split; [intros Hin; right; exact Hin|].
      intros Hin. apply elem_of_cons in Hin as [Heq|Hin]; [congruence|exact Hin].
Qed.

Section ExampleTexts.
Context `{PromptTexts}.

(** X6. [getExamples] gives no text when examples are switched off.
    Otherwise the text is Example 1, the example of the output type
    (reporting, data processing, user interface, or else the basic one),
    followed by the SQL example as Example 2 exactly when "SQLUtils" is
    among the included modules; the advanced-context flag plays no
    part. *)
Theorem getExamples_numbered (config : PromptConfig) :
  (IncludeExamples config = false -> getExamples config = "") /\
  (IncludeExamples config = true ->
   getExamples config
   = ("### Example 1" ++ nl
        ++ (if String.eqb (OutputType config) "Reporting"
            then reportingExample
            else if String.eqb (OutputType config) "DataProcessing"
            then dataProcessingExample
            else if String.eqb (OutputType config) "UserInterface"
            then userInterfaceExample
            else basicExample) ++ nl ++ nl)
     ++ (if decide ("SQLUtils" ∈ IncludeModules config)
         then "### Example 2" ++ nl ++ sqlExample ++ nl ++ nl
         else "")).
Proof.
  unfold getExamples. split; intros ->; [reflexivity|]. cbn [negb].
  destruct (decide ("SQLUtils" ∈ IncludeModules config)) as [Hin|Hout].
  - apply contains_spec in Hin. rewrite Hin.
    destruct (String.eqb _ "Reporting");
      [|destruct (String.eqb _ "DataProcessing");
        [|destruct (String.eqb _ "UserInterface")]];
      cbn [getExamples_loop app]; rewrite string_app_empty; reflexivity.
  - destruct (contains (IncludeModules config) "SQLUtils") eqn:Hc.
    { apply contains_spec in Hc. contradiction. }
    destruct (String.eqb _ "Reporting"); [reflexivity|].
    destruct (String.eqb _ "DataProcessing"); [reflexivity|].
    destruct (String.eqb _ "UserInterface"); reflexivity.
Qed.
End ExampleTexts.

Lemma getExamples_numbered_witness :
  @getExamples namedTexts
    {| Language := "en"; IncludeExamples := true; UseAdvancedContext := true;
       MaxSampleRows := 3; HighlightKeyColumns := []; TemplateVariables := ∅;
       OutputType := "Reporting"; DetailLevel := "Basic";
       IncludeModules := ["DataTools"; "SQLUtils"];
       TargetExcelVersion := "Excel 2016+" |}
  = ("### Example 1" ++ nl ++ "reportingExample" ++ nl ++ nl)
    ++ "### Example 2" ++ nl ++ "sqlExample" ++ nl ++ nl.
Proof.
  exact (proj2 (@getExamples_numbered namedTexts
    {| Language := "en"; IncludeExamples := true; UseAdvancedContext := true;
       MaxSampleRows := 3; HighlightKeyColumns := []; TemplateVariables := ∅;
       OutputType := "Reporting"; DetailLevel := "Basic";
       IncludeModules := ["DataTools"; "SQLUtils"];
       TargetExcelVersion := "Excel 2016+" |}) eq_refl).
Defined.

Section TemplateData.
Context `{PromptTexts}.

(** X7. For a non-negative sample cap the template data is built, and
    the custom template variables take precedence: every custom variable
    is in the data as a string, also under the name of a built-in entry,
    which it replaces. A built-in entry that no custom variable shadows
    holds what the generator computed: the sample rows are the first
    min(cap, number of rows) rows, the column letters are one label per
    header in the spreadsheet convention, and the requirement is the
    caller's text. The data holds nothing else. *)
Theorem templateData_entries (now : string) (structure : DataRange)
    (userRequirement : string) (config : PromptConfig) :
  0 <= MaxSampleRows config ->
  exists data,
    templateData now structure userRequirement config = Ret data /\
    (forall key value,
       TemplateVariables config !! key = Some value ->
       data !! key = Some (VString value)) /\
    (TemplateVariables config !! "SampleDataLimited" = None ->
     data !! "SampleDataLimited"
     = Some (VRows (take (Z.to_nat (Z.min (MaxSampleRows config)
                                      (Z.of_nat (length (SampleData structure)))))
                      (SampleData structure)))) /\
    (TemplateVariables config !! "ColumnLetters" = None ->
     data !! "ColumnLetters"
     = Some (VStrings (map excelColumnName
                         (seq 0 (length (Headers structure)))))) /\
    (TemplateVariables config !! "UserRequirement" = None ->
     data !! "UserRequirement" = Some (VString userRequirement)) /\
    (TemplateVariables config !! "Structure" = None ->
     data !! "Structure" = Some (VStructure structure)) /\
    (forall key, data !! key = None <->
       TemplateVariables config !! key = None /\ key ∉ builtinKeys).
Proof.
  intros Hcap. unfold templateData.
  rewrite limitSampleData_eq by assumption. cbn [go_bind].
  rewrite generateColumnLetters_eq. cbn [go_bind].
  eexists. split; [reflexivity|].
  split; [|split; [|split; [|split; [|split]]]].
  - intros key value Hkv. apply lookup_union_Some_l.
    rewrite lookup_fmap, Hkv. reflexivity.
  - intros Hnone. rewrite lookup_union_r by (rewrite lookup_fmap, Hnone; reflexivity).
    repeat (rewrite lookup_insert_ne by discriminate).
    rewrite lookup_insert_eq. reflexivity.
  - intros Hnone. rewrite lookup_union_r by (rewrite lookup_fmap, Hnone; reflexivity).
    rewrite lookup_insert_eq. do 2 f_equal.
    apply map_ext. intros j. apply columnLetterFromIndex_enumerates.
  - intros Hnone. rewrite lookup_union_r by (rewrite lookup_fmap, Hnone; reflexivity).
    repeat (rewrite lookup_insert_ne by discriminate).
    rewrite lookup_insert_eq. reflexivity.
  - intros Hnone. rewrite lookup_union_r by (rewrite lookup_fmap, Hnone; reflexivity).
    repeat (rewrite lookup_insert_ne by discriminate).
    rewrite lookup_insert_eq. reflexivity.
  - intros key. rewrite lookup_union_None, lookup_fmap, fmap_None.
    apply and_iff_compat_l.
    unfold builtinKeys.
    rewrite !lookup_insert_None, lookup_empty, !not_elem_of_cons.
    pose proof (not_elem_of_nil key) as Hnil.
    intuition congruence.
Qed.
End TemplateData.

Lemma templateData_entries_witness :
  exists data,
    @templateData namedTexts "2024-01-01 00:00:00" exampleRange "Sum the ages"
      {| Language := "en"; IncludeExamples := true; UseAdvancedContext := false;
         MaxSampleRows := 2; HighlightKeyColumns := [];
         TemplateVariables := {[ "Structure" := "mine" ]};
         OutputType := "Generic"; DetailLevel := "Basic";
         IncludeModules := []; TargetExcelVersion := "Excel 2016+" |}
    = Ret data /\
    data !! "Structure" = Some (VString "mine") /\
    data !! "SampleDataLimited"
    = Some (VRows [["Alice"; "30"]; ["Bob"; "25"]]).
Proof.
  destruct (@templateData_entries namedTexts "2024-01-01 00:00:00" exampleRange
              "Sum the ages"
              {| Language := "en"; IncludeExamples := true;
                 UseAdvancedContext := false;
                 MaxSampleRows := 2; HighlightKeyColumns := [];
                 TemplateVariables := {[ "Structure" := "mine" ]};
                 OutputType := "Generic"; DetailLevel := "Basic";
                 IncludeModules := []; TargetExcelVersion := "Excel 2016+" |}
              ltac:(simpl; lia))
    as (data & Hrun & Hcustom & Hrows & _).
  exists data. split; [exact Hrun|]. split.
  - apply Hcustom. reflexivity.
  - rewrite Hrows by reflexivity. reflexivity.
Defined.

Section Fallback.
Context `{PromptTexts} `{TemplateEngine}.

Lemma templateData_sample_rows (now : string) (structure : DataRange)
    (userRequirement : string) (config : PromptConfig)
    (data : gmap string TemplateValue) :
  0 <= MaxSampleRows config ->
  templateData now structure userRequirement config = Ret data ->
  TemplateVariables config !! "SampleDataLimited" = None ->
  data !! "SampleDataLimited"
  = Some (VRows (take (Z.to_nat (Z.min (MaxSampleRows config)
                                   (Z.of_nat (length (SampleData structure)))))
                   (SampleData structure))).
Proof.
  intros Hcap Hdata Hnone. unfold templateData in Hdata.
  rewrite limitSampleData_eq in Hdata by assumption. cbn [go_bind] in Hdata.
  rewrite generateColumnLetters_eq in Hdata. cbn [go_bind] in Hdata.
  injection Hdata as <-.
  rewrite lookup_union_r by (rewrite lookup_fmap, Hnone; reflexivity).
  repeat (rewrite lookup_insert_ne by discriminate).
  rewrite lookup_insert_eq. reflexivity.
Qed.

(** X8. With a non-negative sample cap, a template that fails to parse
    or to execute makes [GenerateExaMCPPromptWithConfig] return the
    fallback prompt built from the error, and that prompt carries the
    error message, the sheet name, the range address, the joined header
    names and the requirement; when both steps succeed the output of the
    template is returned as it is. *)
Theorem fallback_on_template_failure (now : string) (structure : DataRange)
    (userRequirement : string) (config : PromptConfig) :
  0 <= MaxSampleRows config ->
  (forall err,
     template_Parse "mcp_prompt" (getPromptTemplate config) = Err err ->
     GenerateExaMCPPromptWithConfig now structure userRequirement config
     = Ret (fallbackPrompt structure userRequirement config err)) /\
  (forall tmpl data err,
     template_Parse "mcp_prompt" (getPromptTemplate config) = Ok tmpl ->
     templateData now structure userRequirement config = Ret data ->
     template_Execute tmpl data = Err err ->
     GenerateExaMCPPromptWithConfig now structure userRequirement config
     = Ret (fallbackPrompt structure userRequirement config err)) /\
  (forall tmpl data buf,
     template_Parse "mcp_prompt" (getPromptTemplate config) = Ok tmpl ->
     templateData now structure userRequirement config = Ret data ->
     template_Execute tmpl data = Ok buf ->
     GenerateExaMCPPromptWithConfig now structure userRequirement config
     = Ret buf) /\
  (forall err,
     substring_of ("ERROR: Template processing failed: " ++ err
                     ++ ". Using fallback prompt.")
       (fallbackPrompt structure userRequirement config err) /\
     substring_of ("- Sheet: " ++ SheetName structure ++ nl)
       (fallbackPrompt structure userRequirement config err) /\
     substring_of ("- Range: " ++ RangeAddress structure ++ nl)
       (fallbackPrompt structure userRequirement config err) /\
     substring_of ("- Headers: " ++ Join (Headers structure) ", " ++ nl)
       (fallbackPrompt structure userRequirement config err) /\
     substring_of ("## USER REQUIREMENT" ++ nl ++ userRequirement ++ nl)
       (fallbackPrompt structure userRequirement config err)).
Proof.
  intros Hcap.
  destruct (GenerateExaMCPPromptWithConfig_returns now structure
              userRequirement config Hcap) as (data0 & Hdata & Hrun).
  split; [|split; [|split]].
  - intros err Hparse. rewrite Hrun, Hparse. reflexivity.
  - intros tmpl data err Hparse Hd Hexec. rewrite Hrun, Hparse.
    rewrite Hdata in Hd. injection Hd as <-. rewrite Hexec. reflexivity.
  - intros tmpl data buf Hparse Hd Hexec. rewrite Hrun, Hparse.
    rewrite Hdata in Hd. injection Hd as <-. rewrite Hexec. reflexivity.
  - intros err. split; [|apply fallbackPrompt_contents].
    unfold fallbackPrompt. apply substring_of_append_l.
    rewrite !string_app_assoc.
    eexists "", _. rewrite append_nil, !string_app_assoc. reflexivity.
Qed.

(** X9. [GenerateMCPPrompt] returns a prompt for every structure,
    requirement and module flag (its configuration is the default one,
    whose sample cap is 3): it never panics. The template it uses is the
    basic one; the prompt is the output of that template or, when the
    template fails, the fallback prompt; and at most three sample rows go
    into the template data. *)
Theorem GenerateMCPPrompt_returns (now : string) (structure : DataRange)
    (userRequirement : string) (includeStandardModules : bool) :
  exists data config,
    config = {|
      Language := "en"; IncludeExamples := true; UseAdvancedContext := false;
      MaxSampleRows := 3; HighlightKeyColumns := [];
      TemplateVariables := ∅; OutputType := "Generic";
      DetailLevel := "Intermediate";
      IncludeModules :=
        if includeStandardModules
        then ["SQLUtils"; "DataTools"; "UIHelpers"] else [];
      TargetExcelVersion := "Excel 2016+" |} /\
    templateData now structure userRequirement config = Ret data /\
    data !! "SampleDataLimited"
    = Some (VRows (take 3 (SampleData structure))) /\
    GenerateMCPPrompt now structure userRequirement includeStandardModules
    = Ret match template_Parse "mcp_prompt" basicTemplate with
          | Err err => fallbackPrompt structure userRequirement config err
          | Ok tmpl =>
              match template_Execute tmpl data with
              | Err err => fallbackPrompt structure userRequirement config err
              | Ok buf => buf
              end
          end.
Proof.
  unfold GenerateMCPPrompt.
  set (config := {| Language := _ |}).
  assert (Hcap : 0 <= MaxSampleRows config) by (simpl; lia).
  destruct (GenerateExaMCPPromptWithConfig_returns now structure
              userRequirement config Hcap) as (data & Hdata & Hrun).
  pose proof (templateData_sample_rows now structure userRequirement config
                data Hcap Hdata) as Hrows.
  exists data, config. split.
  { subst config. unfold getModuleList. simpl.
    destruct includeStandardModules; reflexivity. }
  split; [exact Hdata|]. split.
  - rewrite Hrows by reflexivity. do 2 f_equal. simpl MaxSampleRows.
    destruct (Z.le_ge_cases 3 (Z.of_nat (length (SampleData structure)))).
    + rewrite Z.min_l by lia. reflexivity.
    + rewrite Z.min_r by lia. rewrite Nat2Z.id.
      rewrite !firstn_all2 by lia. reflexivity.
  - exact Hrun.
Qed.
End Fallback.

Lemma fallback_on_template_failure_witness :
  @GenerateExaMCPPromptWithConfig namedTexts refusingEngine
    "2024-01-01 00:00:00" exampleRange "Sum the ages" DefaultPromptConfig
  = Ret (fallbackPrompt exampleRange "Sum the ages" DefaultPromptConfig
           "template: unexpected end").
Proof.
  exact (proj1 (@fallback_on_template_failure namedTexts refusingEngine
                  "2024-01-01 00:00:00" exampleRange "Sum the ages"
                  DefaultPromptConfig ltac:(simpl; lia))
           "template: unexpected end" eq_refl).
Defined.

(** * Further properties of the classification *)

Import ClassificationReading.

Lemma count_from_nonneg (skip : nat) (s substr : string) :
  0 <= count_from skip s substr.
Proof.
  revert skip. induction s as [|c s IH]; intros skip; cbn [count_from]; [lia|].
  destruct skip as [|k]; [|apply IH].
  destruct (HasPrefix (String c s) substr); [|apply IH].
  specialize (IH (String.length substr - 1)%nat). lia.
Qed.

Lemma Count_nonneg (s substr : string) : 0 <= Count s substr.
Proof.
  unfold Count. destruct substr; [lia|]. apply count_from_nonneg.
Qed.

Lemma patternsScore_nonneg (req : string) (patterns : list string) :
  0 <= patternsScore req patterns.
Proof.
  induction patterns as [|p rest IH]; simpl; [lia|].
  pose proof (Count_nonneg req p). lia.
Qed.

(** The inner loop of the scoring adds the summed counts to the entry of
    its task type, and leaves the map alone when the sum is zero. *)
Lemma score_patterns (req taskType : string) (patterns : list string)
    (primaryScore : gmap string Z) :
  foldl (fun primaryScore pattern =>
           let count := Count req pattern in
           if 0 <? count
           then <[taskType := default 0 (primaryScore !! taskType) + count]>
                  primaryScore
           else primaryScore)
        primaryScore patterns
  = if 0 <? patternsScore req patterns
    then <[taskType := default 0 (primaryScore !! taskType)
                       + patternsScore req patterns]> primaryScore
    else primaryScore.
Proof.
  revert primaryScore. induction patterns as [|p rest IH]; intros ps.
  - reflexivity.
  - cbn [foldl patternsScore foldr]. cbv zeta.
    fold (patternsScore req rest).
    pose proof (Count_nonneg req p) as Hc.
    pose proof (patternsScore_nonneg req rest) as Hr.
    rewrite IH.
    set (d := default 0 (ps !! taskType)).
    destruct (Z.ltb_spec 0 (Count req p)) as [Hpos|Hzero].
    + rewrite lookup_insert_eq. change (default 0 (Some (d + Count req p)))
        with (d + Count req p).
      destruct (Z.ltb_spec 0 (patternsScore req rest)) as [Hpos'|Hzero'].
      * destruct (Z.ltb_spec 0 (Count req p + patternsScore req rest)); [|lia].
        rewrite insert_insert_eq. f_equal. lia.
      * destruct (Z.ltb_spec 0 (Count req p + patternsScore req rest)); [|lia].
        f_equal. lia.
    + fold d. assert (Count req p = 0) as -> by lia.
      rewrite Z.add_0_l. reflexivity.
Qed.

Lemma range_cons {V S : Type} (k : string) (order : list string)
    (m : gmap string V) (body : string -> V -> S -> S) (s : S) :
  range (k :: order) m body s
  = range order m body
      (match m !! k with Some v => body k v s | None => s end).
Proof. reflexivity. Qed.

(** The scoring loop over the task types, from a map that has no entry yet
    for the types still to be visited. *)
Lemma range_scores (req : string) (order : list string) (acc : gmap string Z) :
  NoDup order ->
  (forall k, k ∈ order -> acc !! k = None) ->
  forall k,
    range order taskPatterns
      (fun taskType patterns primaryScore =>
         foldl (fun primaryScore pattern =>
                  let count := Count req pattern in
                  if 0 <? count
                  then <[taskType :=
                           default 0 (primaryScore !! taskType) + count]>
                         primaryScore
                  else primaryScore)
               primaryScore patterns)
      acc !! k
    = if decide (k ∈ order) then scoreEntry req k else acc !! k.
Proof.
  revert acc. induction order as [|x rest IH]; intros acc Hnd Hfresh k.
  - destruct (decide (k ∈ [])) as [Hin|_]; [inversion Hin|reflexivity].
  - apply NoDup_cons in Hnd as [Hx Hnd]. rewrite range_cons.
    set (acc' := match taskPatterns !! x with
                 | Some patterns => _
                 | None => acc
                 end).
    assert (Hacc' : forall j, acc' !! j
                    = if decide (j = x) then scoreEntry req x else acc !! j).
    { intros j. subst acc'. unfold scoreEntry, typeScore.
      destruct (taskPatterns !! x) as [patterns|] eqn:Hp.
      - rewrite score_patterns.
        rewrite (Hfresh x) by left. cbn [default]. rewrite Z.add_0_l.
        destruct (Z.ltb_spec 0 (patternsScore req patterns)).
        + destruct (decide (j = x)) as [->|Hne].
          * apply lookup_insert_eq.
          * apply lookup_insert_ne. congruence.
        + destruct (decide (j = x)) as [->|Hne]; [|reflexivity].
          apply Hfresh. left.
      - simpl. destruct (decide (j = x)) as [->|Hne]; [|reflexivity].
        apply Hfresh. left. }
    rewrite IH; [|exact Hnd|].
    + rewrite Hacc'.
      destruct (decide (k ∈ rest)) as [Hin|Hout].
      * rewrite decide_True by (right; exact Hin). reflexivity.
      * destruct (decide (k = x)) as [->|Hne].
        -- rewrite decide_True by left. reflexivity.
        -- rewrite decide_False; [reflexivity|].
           intros Hin. apply elem_of_cons in Hin as [?|?]; contradiction.
    + intros j Hj. rewrite Hacc'.
      destruct (decide (j = x)) as [->|Hne]; [contradiction|].
      apply Hfresh. right. exact Hj.
Qed.

Lemma taskTypes_NoDup : NoDup taskTypes.
Proof. apply NoDup_ListNoDup. repeat constructor; simpl; intuition discriminate. Qed.

Lemma featureNames_NoDup : NoDup featureNames.
Proof. apply NoDup_ListNoDup. repeat constructor; simpl; intuition discriminate. Qed.

Lemma primaryScores_lookup (order : list string) (req : string) (k : string) :
  order ≡ₚ taskTypes ->
  primaryScores order req !! k
  = if decide (k ∈ taskTypes) then scoreEntry req k else None.
Proof.
  intros Hperm. unfold primaryScores.
  rewrite range_scores.
  - rewrite lookup_empty.
    destruct (decide (k ∈ order)) as [Hin|Hout].
    + rewrite decide_True by (rewrite <- Hperm; exact Hin). reflexivity.
    + rewrite decide_False by (rewrite <- Hperm; exact Hout). reflexivity.
  - rewrite Hperm. apply taskTypes_NoDup.
  - intros j _. apply lookup_empty.
Qed.

(** The entries of the score map, for any order of the loop. *)
Lemma primaryScores_entries (order : list string) (req : string)
    (taskType : string) (score : Z) :
  order ≡ₚ taskTypes ->
  primaryScores order req !! taskType = Some score <->
  taskType ∈ taskTypes /\ score = typeScore req taskType /\ 0 < score.
Proof.
  intros Hperm. rewrite primaryScores_lookup by assumption.
  unfold scoreEntry.
  destruct (decide (taskType ∈ taskTypes)) as [Hin|Hout].
  - destruct (Z.ltb_spec 0 (typeScore req taskType)); split.
    + intros [= <-]. auto.
    + intros (_ & -> & _). reflexivity.
    + discriminate.
    + intros (_ & -> & ?). lia.
  - split; [discriminate|]. intros (? & _). contradiction.
Qed.

(** X10. The scores do not depend on the order in which Go visits the
    task types: for every order the loop may take, the score map is the
    one of the source order; a task type has an entry exactly when some
    of its patterns occurs in the requirement, and the entry is the sum of
    the occurrence counts of its patterns. *)
Theorem primaryScores_order_free (order : list string) (req : string) :
  order ≡ₚ taskTypes ->
  primaryScores order req = primaryScores taskTypes req /\
  (forall taskType score,
     primaryScores order req !! taskType = Some score <->
     taskType ∈ taskTypes /\ score = typeScore req taskType /\ 0 < score).
Proof.
  intros Hperm. split.
  - apply map_eq. intros k.
    rewrite !primaryScores_lookup by (assumption || reflexivity).
    reflexivity.
  - intros taskType score. apply primaryScores_entries. exact Hperm.
Qed.

Lemma primaryScores_order_free_witness :
  primaryScores (rev taskTypes) "sort the chart and the report"
  = primaryScores taskTypes "sort the chart and the report" /\
  primaryScores (rev taskTypes) "sort the chart and the report"
    !! "Reporting" = Some 2.
Proof.
  destruct (primaryScores_order_free (rev taskTypes)
              "sort the chart and the report"
              ltac:(symmetry; apply Permutation_rev)) as [Heq Hlook].
  split; [exact Heq|].
  apply Hlook. split; [|split].
  - apply list_elem_of_In. simpl. auto.
  - vm_compute. reflexivity.
  - lia.
Defined.

Lemma typeScore_nonneg (req taskType : string) : 0 <= typeScore req taskType.
Proof.
  unfold typeScore. destruct (taskPatterns !! taskType); [|lia].
  apply patternsScore_nonneg.
Qed.

(** The loop that looks for the highest score, from any state: the score
    kept never decreases, it bounds every score visited, and the type kept
    changes only to a visited type that holds the score kept. *)
Lemma highest_from (order : list string) (scores : gmap string Z)
    (st0 : Z * string) :
  let st :=
    range order scores
      (fun taskType score st =>
         if fst st <? score then (score, taskType) else st) st0 in
  fst st0 <= fst st /\
  (forall k v, k ∈ order -> scores !! k = Some v -> v <= fst st) /\
  (st = st0 \/
   (snd st ∈ order /\ scores !! snd st = Some (fst st) /\ fst st0 < fst st)).
Proof.
  revert st0. induction order as [|x rest IH]; intros st0.
  - simpl. split; [lia|]. split; [|left; reflexivity].
    intros k v Hin. inversion Hin.
  - cbv zeta. rewrite range_cons.
    set (st1 := match scores !! x with
                | Some v => if fst st0 <? v then (v, x) else st0
                | None => st0
                end).
    destruct (IH st1) as (Hmono & Hbound & Hkept).
    assert (Hst1 : fst st0 <= fst st1 /\
                   (forall v, scores !! x = Some v -> v <= fst st1) /\
                   (st1 = st0 \/
                    (st1 = (fst st1, x) /\ scores !! x = Some (fst st1)
                     /\ fst st0 < fst st1))).
    { subst st1. destruct (scores !! x) as [v|].
      - destruct (Z.ltb_spec (fst st0) v); simpl.
        + split; [lia|]. split; [intros ? [= <-]; lia|]. right. auto.
        + split; [lia|]. split; [intros ? [= <-]; lia|]. left. reflexivity.
      - split; [lia|]. split; [discriminate|]. left. reflexivity. }
    destruct Hst1 as (Hmono1 & Hbound1 & Hkept1).
    split; [lia|]. split.
    + intros k v Hin Hk. apply elem_of_cons in Hin as [->|Hin].
      * specialize (Hbound1 v Hk). lia.
      * exact (Hbound k v Hin Hk).
    + destruct Hkept as [Heq|(Hin & Hs & Hlt)].
      * rewrite Heq. destruct Hkept1 as [Heq1|(Heq1 & Hs1 & Hlt1)].
        -- left. exact Heq1.
        -- right. rewrite Heq1. simpl. split; [left|]. split; [exact Hs1|exact Hlt1].
      * right. split; [right; exact Hin|]. split; [exact Hs|lia].
Qed.

Lemma highest_spec (order : list string) (scores : gmap string Z)
    (init : string) :
  0 <= fst (highest order scores init) /\
  (forall k v, k ∈ order -> scores !! k = Some v ->
               v <= fst (highest order scores init)) /\
  (highest order scores init = (0, init) \/
   (snd (highest order scores init) ∈ order /\
    scores !! snd (highest order scores init)
    = Some (fst (highest order scores init)) /\
    0 < fst (highest order scores init))).
Proof. exact (highest_from order scores (0, init)). Qed.

Lemma Generic_no_task_type : ("Generic" ∉ taskTypes) /\ ("" ∉ taskTypes).
Proof.
  split; intros Hin; apply list_elem_of_In in Hin; simpl in Hin;
    intuition discriminate.
Qed.

Lemma typeScore_outside (req taskType : string) :
  taskType ∉ taskTypes -> typeScore req taskType = 0.
Proof.
  intros Hout. unfold typeScore.
  destruct (taskPatterns !! taskType) as [patterns|] eqn:Hp; [|reflexivity].
  exfalso. apply Hout.
  unfold taskPatterns in Hp.
  repeat (apply lookup_insert_Some in Hp as [[<- _]|[_ Hp]];
          [apply list_elem_of_In; simpl; tauto|]).
  rewrite lookup_empty in Hp. discriminate.
Qed.

(** The primary type found by the loop, for any order of the two loops
    involved. *)
Lemma primaryType_spec (order1 order2 : list string) (req : string) :
  order1 ≡ₚ taskTypes -> order2 ≡ₚ taskTypes ->
  let primaryType :=
    snd (highest order2 (primaryScores order1 req) "Generic") in
  (primaryType = "Generic" \/ primaryType ∈ taskTypes) /\
  (forall t, typeScore req t <= typeScore req primaryType) /\
  (primaryType = "Generic" <-> forall t, typeScore req t = 0).
Proof.
  intros H1 H2 primaryType.
  destruct (highest_spec order2 (primaryScores order1 req) "Generic")
    as (Hpos & Hbound & Hkept).
  destruct Generic_no_task_type as [HG _].
  assert (Hentry : forall t v, primaryScores order1 req !! t = Some v <->
                     t ∈ taskTypes /\ v = typeScore req t /\ 0 < v)
    by (intros t v; apply primaryScores_entries; exact H1).
  assert (Hle : forall t, typeScore req t
                          <= fst (highest order2 (primaryScores order1 req) "Generic")).
  { intros t. destruct (decide (t ∈ taskTypes)) as [Hin|Hout].
    - destruct (Z.ltb_spec 0 (typeScore req t)) as [Hp|Hz]; [|lia].
      apply (Hbound t); [rewrite H2; exact Hin|].
      apply Hentry. auto.
    - rewrite typeScore_outside by assumption. exact Hpos. }
  destruct Hkept as [Heq|(Hin & Hs & Hlt)].
  - assert (primaryType = "Generic") as Hp by (subst primaryType; rewrite Heq; reflexivity).
    assert (Hzero : forall t, typeScore req t = 0).
    { intros t. specialize (Hle t). rewrite Heq in Hle. simpl in Hle.
      pose proof (typeScore_nonneg req t). lia. }
    split; [left; exact Hp|]. split.
    + intros t. rewrite !Hzero. lia.
    + split; [intros _; exact Hzero|intros _; exact Hp].
  - fold primaryType in Hin, Hs.
    apply Hentry in Hs as (Hin' & Hv & Hpos').
    split; [right; exact Hin'|]. split.
    + intros t. specialize (Hle t). lia.
    + split.
      * intros Hg. rewrite Hg in Hin'. contradiction.
      * intros Hzero. specialize (Hzero primaryType). lia.
Qed.

Section PrimaryType.
Context `{Lowering}.

(** X11. Whatever order Go takes over its maps, the primary type that
    [classifyUserRequirement] returns is "Generic" or one of the five task
    types, no task type scores higher than it on the lower-cased
    requirement, and it is "Generic" exactly when no pattern of any task
    type occurs in the requirement. Ties are the only freedom the order
    has. *)
Theorem primaryType_has_highest_score (o : RangeOrders)
    (requirement : string) (structure : DataRange) :
  possible_orders o ->
  let c := classifyUserRequirement o requirement structure in
  (PrimaryType c = "Generic" \/ PrimaryType c ∈ taskTypes) /\
  (forall t, typeScore (ToLower requirement) t
             <= typeScore (ToLower requirement) (PrimaryType c)) /\
  (PrimaryType c = "Generic" <->
   forall t, typeScore (ToLower requirement) t = 0).
Proof.
  intros (H1 & H2 & _) c.
  exact (primaryType_spec (order_taskPatterns o) (order_primaryScore o)
           (ToLower requirement) H1 H2).
Qed.
End PrimaryType.

Lemma primaryType_has_highest_score_witness :
  typeScore "sort and chart the sum" "DataProcessing"
  <= typeScore "sort and chart the sum"
       (PrimaryType (@classifyUserRequirement asciiLowering reverseOrder
                       "Sort and chart the sum" exampleRange)).
Proof.
  exact (proj1 (proj2 (@primaryType_has_highest_score asciiLowering reverseOrder
                         "Sort and chart the sum" exampleRange
                         possible_orders_reverse)) "DataProcessing").
Defined.

(** The loop that collects the scores of the other types. *)
Lemma range_secondary (primaryType : string) (scores : gmap string Z)
    (order : list string) (acc : gmap string Z) :
  NoDup order ->
  (forall k, k ∈ order -> acc !! k = None) ->
  forall k,
    range order scores
      (fun taskType score secondaryScore =>
         if negb (String.eqb taskType primaryType) && (0 <? score)
         then <[taskType := score]> secondaryScore
         else secondaryScore)
      acc !! k
    = if decide (k ∈ order)
      then match scores !! k with
           | Some v =>
               if negb (String.eqb k primaryType) && (0 <? v)
               then Some v else None
           | None => None
           end
      else acc !! k.
Proof.
  revert acc. induction order as [|x rest IH]; intros acc Hnd Hfresh k.
  - destruct (decide (k ∈ [])) as [Hin|_]; [inversion Hin|reflexivity].
  - apply NoDup_cons in Hnd as [Hx Hnd]. rewrite range_cons.
    set (acc' := match scores !! x with
                 | Some v => _
                 | None => acc
                 end).
    assert (Hacc' : forall j, acc' !! j
              = if decide (j = x)
                then match scores !! x with
                     | Some v =>
                         if negb (String.eqb x primaryType) && (0 <? v)
                         then Some v else None
                     | None => None
                     end
                else acc !! j).
    { intros j. subst acc'. destruct (scores !! x) as [v|].
      - destruct (negb (String.eqb x primaryType) && (0 <? v)).
        + destruct (decide (j = x)) as [->|Hne].
          * apply lookup_insert_eq.
          * apply lookup_insert_ne. congruence.
        + destruct (decide (j = x)) as [->|Hne]; [|reflexivity].
          apply Hfresh. left.
      - destruct (decide (j = x)) as [->|Hne]; [|reflexivity].
        apply Hfresh. left. }
    rewrite IH; [|exact Hnd|].
    + rewrite Hacc'.
      destruct (decide (k ∈ rest)) as [Hin|Hout].
      * rewrite decide_True by (right; exact Hin). reflexivity.
      * destruct (decide (k = x)) as [->|Hne].
        -- rewrite decide_True by left. reflexivity.
        -- rewrite decide_False; [reflexivity|].
           intros Hin. apply elem_of_cons in Hin as [?|?]; contradiction.
    + intros j Hj. rewrite Hacc'.
      destruct (decide (j = x)) as [->|Hne]; [contradiction|].
      apply Hfresh. right. exact Hj.
Qed.

(** The secondary type found by the loops, for any orders. *)
Lemma secondaryType_spec (order1 order3 order4 : list string)
    (req primaryType : string) :
  order1 ≡ₚ taskTypes -> order3 ≡ₚ taskTypes -> order4 ≡ₚ taskTypes ->
  let secondaryType :=
    snd (highest order4
           (range order3 (primaryScores order1 req)
              (fun taskType score secondaryScore =>
                 if negb (String.eqb taskType primaryType) && (0 <? score)
                 then <[taskType := score]> secondaryScore
                 else secondaryScore) ∅) "") in
  (secondaryType = "" <->
   forall t, t <> primaryType -> typeScore req t = 0) /\
  (secondaryType <> "" ->
   secondaryType ∈ taskTypes /\ secondaryType <> primaryType /\
   0 < typeScore req secondaryType /\
   forall t, t <> primaryType ->
             typeScore req t <= typeScore req secondaryType).
Proof.
  intros H1 H3 H4. cbv zeta.
  set (secondaryScore := range order3 _ _ ∅).
  assert (Hentry : forall t v, secondaryScore !! t = Some v <->
            t ∈ taskTypes /\ t <> primaryType /\ v = typeScore req t /\ 0 < v).
  { intros t v. subst secondaryScore.
    rewrite range_secondary;
      [|rewrite H3; apply taskTypes_NoDup|intros; apply lookup_empty].
    rewrite lookup_empty, primaryScores_lookup by exact H1.
    destruct (decide (t ∈ order3)) as [Hin|Hout].
    - rewrite H3 in Hin. rewrite decide_True by exact Hin.
      unfold scoreEntry.
      destruct (Z.ltb_spec 0 (typeScore req t)) as [Hp|Hz].
      + destruct (String.eqb_spec t primaryType) as [->|Hne]; simpl.
        * split; [discriminate|]. intros (_ & ? & _). congruence.
        * destruct (Z.ltb_spec 0 (typeScore req t)); [|lia].
          split; [intros [= <-]; auto|]. intros (_ & _ & -> & _). reflexivity.
      + split; [discriminate|]. intros (_ & _ & -> & ?). lia.
    - rewrite H3 in Hout. split; [discriminate|]. intros (? & _). contradiction.
  }
  destruct (highest_spec order4 secondaryScore "") as (Hpos & Hbound & Hkept).
  destruct Generic_no_task_type as [_ HE].
  assert (Hle : forall t, t <> primaryType ->
            typeScore req t <= fst (highest order4 secondaryScore "")).
  { intros t Hne. destruct (decide (t ∈ taskTypes)) as [Hin|Hout].
    - destruct (Z.ltb_spec 0 (typeScore req t)) as [Hp|Hz]; [|lia].
      apply (Hbound t); [rewrite H4; exact Hin|]. apply Hentry. auto.
    - rewrite typeScore_outside by assumption. exact Hpos. }
  destruct Hkept as [Heq|(Hin & Hs & Hlt)].
  - rewrite Heq in *. simpl in *. split.
    + split; [|reflexivity]. intros _ t Hne. specialize (Hle t Hne).
      pose proof (typeScore_nonneg req t). lia.
    + congruence.
  - apply Hentry in Hs as (Hin' & Hne & Hv & Hp).
    split.
    + split.
      * intros Hempty. rewrite Hempty in Hin'. contradiction.
      * intros Hzero. specialize (Hzero _ Hne). lia.
    + intros _. split; [exact Hin'|]. split; [exact Hne|]. split; [lia|].
      intros t Ht. specialize (Hle t Ht). lia.
Qed.

Section SecondaryType.
Context `{Lowering}.

(** X12. Whatever order Go takes over its maps, the secondary type is
    empty exactly when no task type other than the primary one has a
    pattern in the requirement; when it is not empty it is a task type
    different from the primary type, with a positive score that no task
    type other than the primary one exceeds, and that the primary type
    does not fall below. *)
Theorem secondaryType_is_runner_up (o : RangeOrders)
    (requirement : string) (structure : DataRange) :
  possible_orders o ->
  let c := classifyUserRequirement o requirement structure in
  let score := typeScore (ToLower requirement) in
  (SecondaryType c = "" <->
   forall t, t <> PrimaryType c -> score t = 0) /\
  (SecondaryType c <> "" ->
   SecondaryType c ∈ taskTypes /\ SecondaryType c <> PrimaryType c /\
   0 < score (SecondaryType c) /\
   score (SecondaryType c) <= score (PrimaryType c) /\
   forall t, t <> PrimaryType c -> score t <= score (SecondaryType c)).
Proof.
  intros Hpossible c score.
  pose proof Hpossible as (H1 & H2 & H3 & H4 & _).
  destruct (secondaryType_spec (order_taskPatterns o) (order_primaryScore2 o)
              (order_secondaryScore o) (ToLower requirement) (PrimaryType c)
              H1 H3 H4) as [Hempty Hfull].
  pose proof (primaryType_spec (order_taskPatterns o) (order_primaryScore o)
                (ToLower requirement) H1 H2) as Hprimary.
  cbv zeta in Hprimary. destruct Hprimary as (_ & Hmax & _).
  split; [exact Hempty|].
  intros Hne. destruct (Hfull Hne) as (Hin & Hdiff & Hpos & Hbound).
  repeat split; try assumption. apply Hmax.
Qed.
End SecondaryType.

Lemma secondaryType_is_runner_up_witness :
  SecondaryType (@classifyUserRequirement asciiLowering reverseOrder
                   "sort and chart the sum" exampleRange)
  ∈ taskTypes.
Proof.
  refine (proj1 (proj2 (@secondaryType_is_runner_up asciiLowering reverseOrder
                          "sort and chart the sum" exampleRange
                          possible_orders_reverse) _)).
  vm_compute. discriminate.
Defined.

(** The loop that collects the features appends the matching ones in the
    order in which it visits them. *)
Lemma range_features (req : string) (order acc : list string) :
  range order featurePatterns
    (fun feature pattern features =>
       if regexp_MatchString pattern req
       then app features [feature] else features)
    acc
  = app acc (filter (fun feature => Is_true (featureMatches req feature)) order).
Proof.
  revert acc. induction order as [|x rest IH]; intros acc.
  - rewrite app_nil_r. reflexivity.
  - rewrite range_cons, IH, filter_cons.
    destruct (decide (Is_true (featureMatches req x))) as [Hm|Hm];
      unfold featureMatches in Hm;
      destruct (featurePatterns !! x) as [pattern|];
      try destruct (regexp_MatchString pattern req);
      simpl in Hm; try contradiction; try (exfalso; apply Hm; exact I);
      try reflexivity.
    rewrite <- app_assoc. reflexivity.
Qed.

Section Features.
Context `{Lowering}.

Lemma Features_eq (o : RangeOrders) (requirement : string)
    (structure : DataRange) :
  Features (classifyUserRequirement o requirement structure)
  = filter (fun feature =>
              Is_true (featureMatches (ToLower requirement) feature))
      (order_featurePatterns o).
Proof.
  unfold classifyUserRequirement. cbn [Features].
  apply (range_features (ToLower requirement) (order_featurePatterns o) []).
Qed.

(** X13. Whatever order Go takes over the feature table, the features
    returned are exactly the feature names whose pattern matches the
    lower-cased requirement, each once; two runs return the same features
    up to their order, which is the order of the visit. *)
Theorem features_are_the_matching_ones (o : RangeOrders)
    (requirement : string) (structure : DataRange) :
  possible_orders o ->
  let c := classifyUserRequirement o requirement structure in
  Features c
  ≡ₚ filter (fun feature =>
               Is_true (featureMatches (ToLower requirement) feature))
       featureNames /\
  NoDup (Features c) /\
  (forall feature,
     feature ∈ Features c <->
     feature ∈ featureNames /\
     featureMatches (ToLower requirement) feature = true) /\
  Features c
  = filter (fun feature =>
              Is_true (featureMatches (ToLower requirement) feature))
      (order_featurePatterns o).
Proof.
  intros (_ & _ & _ & _ & H5) c. subst c. rewrite Features_eq.
  split; [rewrite H5; reflexivity|]. split; [|split; [|reflexivity]].
  - apply NoDup_filter. rewrite H5. apply featureNames_NoDup.
  - intros feature. rewrite list_elem_of_filter, H5.
    rewrite Is_true_true. tauto.
Qed.

(** X14. The complexity and the keywords do not depend on the order Go
    takes over its maps: for every two possible orders
    [classifyUserRequirement] returns the same complexity and the same
    keywords, and equally many features; and the secondary type is empty
    under one order exactly when it is under the other. *)
Theorem complexity_order_free (o1 o2 : RangeOrders)
    (requirement : string) (structure : DataRange) :
  possible_orders o1 -> possible_orders o2 ->
  let c1 := classifyUserRequirement o1 requirement structure in
  let c2 := classifyUserRequirement o2 requirement structure in
  Complexity c1 = Complexity c2 /\
  Keywords c1 = Keywords c2 /\
  length (Features c1) = length (Features c2) /\
  (SecondaryType c1 = "" <-> SecondaryType c2 = "").
Proof.
  intros Hp1 Hp2 c1 c2.
  assert (Hlen : length (Features c1) = length (Features c2)).
  { destruct Hp1 as (_ & _ & _ & _ & Hf1).
    destruct Hp2 as (_ & _ & _ & _ & Hf2).
    subst c1 c2. rewrite !Features_eq.
    apply Permutation_length. rewrite Hf1, Hf2. reflexivity. }
  assert (Hsec : forall o, possible_orders o ->
            (SecondaryType (classifyUserRequirement o requirement structure) = ""
             <-> ~ exists t1 t2, t1 <> t2 /\
                   0 < typeScore (ToLower requirement) t1 /\
                   0 < typeScore (ToLower requirement) t2)).
  { intros o Hp.
    pose proof Hp as (H1 & H2 & H3 & H4 & _).
    destruct (secondaryType_spec (order_taskPatterns o) (order_primaryScore2 o)
                (order_secondaryScore o) (ToLower requirement)
                (PrimaryType (classifyUserRequirement o requirement structure))
                H1 H3 H4) as [Hempty _].
    pose proof (primaryType_spec (order_taskPatterns o) (order_primaryScore o)
                  (ToLower requirement) H1 H2) as Hprimary.
    cbv zeta in Hprimary. destruct Hprimary as (_ & Hmax & _).
    change (forall t, typeScore (ToLower requirement) t
                      <= typeScore (ToLower requirement)
                           (PrimaryType
                              (classifyUserRequirement o requirement structure)))
      in Hmax.
    change (SecondaryType (classifyUserRequirement o requirement structure) = ""
            <-> forall t,
                  t <> PrimaryType
                         (classifyUserRequirement o requirement structure) ->
                  typeScore (ToLower requirement) t = 0) in Hempty.
    rewrite Hempty. split.
    - intros Hzero (t1 & t2 & Hne & Hs1 & Hs2).
      destruct (decide (t1 = PrimaryType
                               (classifyUserRequirement o requirement structure)))
        as [Heq|Hneq].
      + assert (t2 <> PrimaryType
                        (classifyUserRequirement o requirement structure))
          as Hneq2 by congruence.
        specialize (Hzero _ Hneq2). lia.
      + specialize (Hzero _ Hneq). lia.
    - intros Hnone t Hne.
      pose proof (typeScore_nonneg (ToLower requirement) t) as Hnn.
      destruct (Z.eq_dec (typeScore (ToLower requirement) t) 0) as [|Hnz];
        [assumption|].
      exfalso. apply Hnone. exists t, (PrimaryType
        (classifyUserRequirement o requirement structure)).
      split; [exact Hne|]. specialize (Hmax t). lia. }
  assert (Hiff : SecondaryType c1 = "" <-> SecondaryType c2 = "").
  { subst c1 c2. rewrite (Hsec o1 Hp1), (Hsec o2 Hp2). reflexivity. }
  split; [|split; [reflexivity|split; [exact Hlen|exact Hiff]]].
  assert (Heqb : String.eqb (SecondaryType c1) ""
                 = String.eqb (SecondaryType c2) "").
  { destruct (String.eqb_spec (SecondaryType c1) "") as [He1|Hn1];
      destruct (String.eqb_spec (SecondaryType c2) "") as [He2|Hn2];
      try reflexivity; tauto. }
  subst c1 c2. unfold classifyUserRequirement in *.
  cbn [Complexity Features SecondaryType] in *.
  rewrite Hlen, Heqb. reflexivity.
Qed.
End Features.

Lemma features_are_the_matching_ones_witness :
  Features (@classifyUserRequirement asciiLowering reverseOrder
              "sort and chart the sum" exampleRange)
  ≡ₚ ["Charts"; "Calculations"].
Proof.
  exact (proj1 (@features_are_the_matching_ones asciiLowering reverseOrder
                  "sort and chart the sum" exampleRange
                  possible_orders_reverse)).
Defined.

Lemma complexity_order_free_witness :
  Complexity (@classifyUserRequirement asciiLowering sourceOrder
                "sort and chart the sum" exampleRange)
  = Complexity (@classifyUserRequirement asciiLowering reverseOrder
                  "sort and chart the sum" exampleRange).
Proof.
  exact (proj1 (@complexity_order_free asciiLowering sourceOrder reverseOrder
                  "sort and chart the sum" exampleRange
                  possible_orders_source possible_orders_reverse)).
Defined.

(** * Further properties of the analysis entry point *)

Section EntryPointMore.
Context {W : Type} {env : Environment W}.

(** Both halves of the method at once: where it ends and what it
    returns, in terms of what [obtainAnalysis] settled. *)
Lemma AnalyzeExcelFile_halves (filePath : string) (s : St (W:=W)) :
  exists s1 r,
    obtainAnalysis filePath (emit (TaskEvent "task:start" startTask) s)
    = (s1, Ret r) /\
    emitted s1 = app (emitted s) [TaskEvent "task:start" startTask] /\
    receiver s1 = receiver s /\
    AnalyzeExcelFile filePath s
    = recoverPanic "AnalyzeExcelFile" (None, None)
        (settle filePath startTask r) s1.
Proof.
  set (s0 := emit (TaskEvent "task:start" startTask) s).
  assert (Hs : exists s1 r, obtainAnalysis filePath s0 = (s1, Ret r) /\
                 emitted s1 = emitted s0 /\ receiver s1 = receiver s0).
  { unfold obtainAnalysis, bind, get_app, call, run_call, ret.
    destruct (CacheEnabled _).
    - destruct (LoadAnalysisFromCache _ _) as [w1 [a1 [e1|]]]; simpl.
      + destruct (excel_AnalyzeExcelFile _ _ _) as [w2 [[a2|] [e2|]]]; simpl;
          eauto 6.
      + eauto 6.
    - destruct (excel_AnalyzeExcelFile _ _ _) as [w2 r]; simpl. eauto 6. }
  destruct Hs as (s1 & r & Hobtain & He & Hr).
  exists s1, r. split; [exact Hobtain|]. split; [exact He|].
  split; [exact Hr|]. apply AnalyzeExcelFile_unfold. exact Hobtain.
Qed.

(** X15. [AnalyzeExcelFile] replaces the analysis and the file path that
    the receiver holds only when it returns an analysis without error: it
    then records that analysis and the path of the request. In every other
    case (an error is returned, or nil with nil) the receiver is left as
    it was. The selected region index and the configuration are never
    changed, also when a new analysis is recorded. *)
Theorem AnalyzeExcelFile_receiver (filePath : string) (s : St (W:=W)) :
  receiver (fst (AnalyzeExcelFile filePath s))
  = match snd (AnalyzeExcelFile filePath s) with
    | (Some analysis, None) =>
        {| config := config (receiver s);
           excelAnalysis := Some analysis;
           currentRegion := currentRegion (receiver s);
           Backend.filePath := filePath |}
    | _ => receiver s
    end.
Proof.
  destruct (AnalyzeExcelFile_halves filePath s) as (s1 & r & _ & _ & Hr & ->).
  unfold recoverPanic, settle, bind, ret, panic, EventsEmit, get_app, set_app.
  destruct r as [[analysis|] [e|]]; simpl; rewrite ?Hr; reflexivity.
Qed.

(** X16. Every call of [AnalyzeExcelFile] sends exactly two events to the
    front end: "task:start" with the pending task, and then one closing
    event, which is "task:update" with status completed when an analysis
    is returned, "task:update" with status failed and the unwrapped error
    when an error is returned, and "app:error" when nil is returned
    without error. *)
Theorem AnalyzeExcelFile_events (filePath : string) (s : St (W:=W)) :
  exists closing,
    emitted (fst (AnalyzeExcelFile filePath s))
    = app (emitted s) [TaskEvent "task:start" startTask; closing] /\
    match snd (AnalyzeExcelFile filePath s) with
    | (Some _, None) =>
        closing = TaskEvent "task:update"
                    {| Task_Type := "excel_analysis";
                       Task_Status := "completed"; Task_Error := None |}
    | (None, None) =>
        exists msg, closing = ErrorEvent "app:error" "INTERNAL_ERROR" msg
    | (_, Some wrapped) =>
        exists e,
          wrapped = wrapError "EXCEL_ANALYSIS_FAILED" e /\
          closing = TaskEvent "task:update"
                      {| Task_Type := "excel_analysis";
                         Task_Status := "failed"; Task_Error := Some e |}
    end.
Proof.
  destruct (AnalyzeExcelFile_halves filePath s) as (s1 & r & _ & He & _ & ->).
  unfold recoverPanic, settle, bind, ret, panic, EventsEmit, get_app, set_app.
  destruct r as [[analysis|] [e|]]; simpl; rewrite He, <- app_assoc; simpl;
    eexists; (split; [reflexivity|]); eauto.
Qed.

(** X17. With caching disabled [AnalyzeExcelFile] makes exactly one call
    into package [excel], the analysis of the file with the configured
    limits: nothing is loaded from the cache and nothing is saved to it,
    whatever the analysis returns. *)
Theorem AnalyzeExcelFile_without_cache (filePath : string) (s : St (W:=W)) :
  CacheEnabled (System (config (receiver s))) = false ->
  calls (fst (AnalyzeExcelFile filePath s))
  = app (calls s)
      [CallAnalyze filePath (optionsOf (config (receiver s)))
         (snd (excel_AnalyzeExcelFile filePath
                 (optionsOf (config (receiver s))) (world s)))] /\
  world (fst (AnalyzeExcelFile filePath s))
  = fst (excel_AnalyzeExcelFile filePath
           (optionsOf (config (receiver s))) (world s)) /\
  snd (AnalyzeExcelFile filePath s)
  = handBack (snd (excel_AnalyzeExcelFile filePath
                     (optionsOf (config (receiver s))) (world s))).
Proof.
  intros Hoff. split; [|split; [|apply AnalyzeExcelFile_uncached; exact Hoff]].
  - unfold AnalyzeExcelFile, AnalyzeExcelFile_body, recoverPanic,
      obtainAnalysis, EventsEmit, bind, get_app, call, run_call, ret.
    simpl. rewrite Hoff.
    destruct (excel_AnalyzeExcelFile _ _ _) as [w2 [[analysis|] [e|]]];
      reflexivity.
  - unfold AnalyzeExcelFile, AnalyzeExcelFile_body, recoverPanic,
      obtainAnalysis, EventsEmit, bind, get_app, call, run_call, ret.
    simpl. rewrite Hoff.
    destruct (excel_AnalyzeExcelFile _ _ _) as [w2 [[analysis|] [e|]]];
      reflexivity.
Qed.


End EntryPointMore.

Lemma AnalyzeExcelFile_without_cache_witness :
  calls (fst (AnalyzeExcelFile "book.xlsx"
                (startState (withoutCache (cachingConfig threeSheetLimits))
                   (oneBook threeSheets))))
  = [CallAnalyze "book.xlsx" (optionsOf (cachingConfig threeSheetLimits))
       (Some (analysisOf threeSheets), None)].
Proof.
  exact (proj1 (AnalyzeExcelFile_without_cache (env := diskEnvironment)
                  "book.xlsx"
                  (startState (withoutCache (cachingConfig threeSheetLimits))
                     (oneBook threeSheets)) eq_refl)).
Defined.


(** * Further properties of the advanced generator *)

Import AdvancedGenerator AdvancedReading.

Lemma formatHeadersAdvanced_loop_lines (n : nat) (headers : list string)
    (dataTypes : gmap string string) (highlightColumns : list string) :
  formatHeadersAdvanced_loop (Z.of_nat n) headers dataTypes highlightColumns
  = lines (imap (fun i header =>
                   if decide (header ∈ highlightColumns)
                   then keyHeaderLine dataTypes (n + i) header
                   else headerLine dataTypes (n + i) header) headers).
Proof.
  revert n. induction headers as [|header rest IH]; intros n; [reflexivity|].
  cbn [formatHeadersAdvanced_loop]. rewrite imap_cons. cbn [lines foldr].
  replace (Z.of_nat n + 1) with (Z.of_nat (S n)) by lia.
  rewrite IH, shownType_default, columnLetterFromIndex_enumerates.
  rewrite Nat.add_0_r.
  f_equal.
  - destruct (decide (header ∈ highlightColumns)) as [Hin|Hout].
    + apply contains_spec in Hin. rewrite Hin. reflexivity.
    + destruct (contains highlightColumns header) eqn:Hc; [|reflexivity].
      apply contains_spec in Hc. contradiction.
  - unfold lines. f_equal. apply imap_ext.
    intros i h _. simpl. rewrite ?Nat.add_succ_r. reflexivity.
Qed.

(** X19. [formatHeadersAdvanced] writes one line per header, in the order
    of the headers; the line of a header that is among the highlighted
    columns is the line that [formatHeaders] writes for it with the mark
    "*KEY COLUMN*" before the line end, every other line is the line of
    [formatHeaders]. When no header is highlighted (in particular with no
    highlighted columns at all) the text is that of [formatHeaders]. *)
Theorem formatHeadersAdvanced_marks_key_columns (headers : list string)
    (dataTypes : gmap string string) (highlightColumns : list string) :
  formatHeadersAdvanced headers dataTypes highlightColumns
  = lines (imap (fun i header =>
                   if decide (header ∈ highlightColumns)
                   then keyHeaderLine dataTypes i header
                   else headerLine dataTypes i header) headers) /\
  (Forall (fun header => header ∉ highlightColumns) headers ->
   formatHeadersAdvanced headers dataTypes highlightColumns
   = formatHeaders headers dataTypes) /\
  formatHeadersAdvanced headers dataTypes [] = formatHeaders headers dataTypes.
Proof.
  assert (Hplain : forall highlighted,
    Forall (fun header => header ∉ highlighted) headers ->
    formatHeadersAdvanced headers dataTypes highlighted
    = formatHeaders headers dataTypes).
  { intros highlighted Hall. unfold formatHeadersAdvanced.
    rewrite (formatHeadersAdvanced_loop_lines 0).
    unfold formatHeaders. rewrite (formatHeaders_loop_lines 0).
    f_equal. apply imap_ext. intros i header Hi. simpl.
    destruct (decide (header ∈ highlighted)) as [Hin|]; [|reflexivity].
    rewrite Forall_forall in Hall.
    exfalso. apply (Hall header); [|exact Hin].
    exact (list_elem_of_lookup_2 _ _ _ Hi). }
  split; [|split].
  - unfold formatHeadersAdvanced. apply (formatHeadersAdvanced_loop_lines 0).
  - apply Hplain.
  - apply Hplain. apply Forall_forall. intros header _ Hin. inversion Hin.
Qed.

Lemma formatHeadersAdvanced_marks_key_columns_witness :
  formatHeadersAdvanced ["Name"; "Age"] (<["Name" := "Text"]> ∅) ["Region"]
  = formatHeaders ["Name"; "Age"] (<["Name" := "Text"]> ∅) /\
  formatHeadersAdvanced ["Name"; "Age"] (<["Name" := "Text"]> ∅) ["Age"]
  = lines ["[header:Name] (Column A, Type: Text)" ++ nl;
           "[header:Age] (Column B, Type: Unknown) *KEY COLUMN*" ++ nl].
Proof.
  split.
  - apply (proj1 (proj2 (formatHeadersAdvanced_marks_key_columns
                           ["Name"; "Age"] (<["Name" := "Text"]> ∅) ["Region"]))).
    constructor; [|constructor; [|constructor]];
      intros Hin; apply list_elem_of_singleton in Hin; discriminate Hin.
  - rewrite (proj1 (formatHeadersAdvanced_marks_key_columns
                      ["Name"; "Age"] (<["Name" := "Text"]> ∅) ["Age"])).
    vm_compute. reflexivity.
Defined.

Section AdvancedExamples.
Context `{PromptTexts} `{AdvancedTexts}.

Lemma selectExamplesForTask_eq (taskType : string) (numExamples : Z) :
  selectExamplesForTask taskType numExamples
  = Ret (getExamples_loop 0
           (take (Z.to_nat numExamples)
              [taskExample taskType; sqlExample; errorHandlingExample])).
Proof.
  unfold selectExamplesForTask.
  assert (Hfirst :
    (if String.eqb taskType "Reporting" then [reportingExample]
     else if String.eqb taskType "DataProcessing" then [dataProcessingExample]
     else if String.eqb taskType "UserInterface" then [userInterfaceExample]
     else if String.eqb taskType "Automation" then [automationExample]
     else if String.eqb taskType "DataValidation" then [dataValidationExample]
     else [basicExample]) = [taskExample taskType]).
  { unfold taskExample.
    repeat match goal with
           | |- context [String.eqb taskType ?s] =>
               destruct (String.eqb taskType s); [reflexivity|]
           end.
    reflexivity. }
  rewrite Hfirst.
  destruct (Z.leb_spec numExamples 0) as [Hle|Hgt].
  { replace (Z.to_nat numExamples) with 0%nat by lia. reflexivity. }
  destruct (Z.leb_spec 2 numExamples) as [H2|H2].
  - destruct (Z.leb_spec 3 numExamples) as [H3|H3].
    + cbn [app length].
      destruct (Z.ltb_spec numExamples (Z.of_nat 3)) as [Hlt|_]; [lia|].
      cbn [go_bind]. rewrite firstn_all2 by (simpl; lia). reflexivity.
    + assert (numExamples = 2) as -> by lia. reflexivity.
  - assert (numExamples = 1) as -> by lia. reflexivity.
Qed.

(** X20. [selectExamplesForTask] returns for every task type and every
    number of examples, negative numbers included: the slice expression
    that limits the examples is never reached with a bound it rejects.
    The text numbers, from 1, the first [numExamples] of three examples:
    the example of the task type (the basic example for a type that is
    none of the five), the SQL example and the error handling example. It
    is empty for a number below 1, and a number above 3 gives the same
    text as 3. *)
Theorem selectExamplesForTask_first_examples (taskType : string)
    (numExamples : Z) :
  selectExamplesForTask taskType numExamples
  = Ret (getExamples_loop 0
           (take (Z.to_nat numExamples)
              [taskExample taskType; sqlExample; errorHandlingExample])) /\
  (numExamples <= 0 -> selectExamplesForTask taskType numExamples = Ret "") /\
  (3 <= numExamples ->
   selectExamplesForTask taskType numExamples
   = selectExamplesForTask taskType 3).
Proof.
  split; [apply selectExamplesForTask_eq|]. split.
  - intros Hle. rewrite selectExamplesForTask_eq.
    replace (Z.to_nat numExamples) with 0%nat by lia. reflexivity.
  - intros Hge. rewrite !selectExamplesForTask_eq.
    rewrite !firstn_all2 by (simpl; lia). reflexivity.
Qed.
End AdvancedExamples.

Lemma selectExamplesForTask_first_examples_witness :
  @selectExamplesForTask namedTexts namedAdvancedTexts "Reporting" (-2)
  = Ret "" /\
  @selectExamplesForTask namedTexts namedAdvancedTexts "Reporting" 7
  = Ret (("### Example 1" ++ nl ++ "reportingExample" ++ nl ++ nl)
         ++ ("### Example 2" ++ nl ++ "sqlExample" ++ nl ++ nl)
         ++ ("### Example 3" ++ nl ++ "errorHandlingExample" ++ nl ++ nl)).
Proof.
  split.
  - exact (proj1 (proj2 (@selectExamplesForTask_first_examples namedTexts
                           namedAdvancedTexts "Reporting" (-2))) ltac:(lia)).
  - rewrite (proj2 (proj2 (@selectExamplesForTask_first_examples namedTexts
                             namedAdvancedTexts "Reporting" 7)) ltac:(lia)).
    vm_compute. reflexivity.
Defined.

Lemma fallbackRows_loop_lines (n : nat) (rows : list (list string)) :
  (n <= 3)%nat ->
  fallbackRows_loop (Z.of_nat n) rows
  = lines (imap (fun i row => rowLine (n + i) row) (take (3 - n) rows)).
Proof.
  revert n. induction rows as [|row rest IH]; intros n Hn.
  { rewrite take_nil. reflexivity. }
  cbn [fallbackRows_loop].
  destruct (Z.leb_spec 3 (Z.of_nat n)) as [Hge|Hlt].
  { replace (3 - n)%nat with 0%nat by lia. reflexivity. }
  replace (3 - n)%nat with (S (3 - S n))%nat by lia.
  rewrite firstn_cons, imap_cons. cbn [lines foldr].
  replace (Z.of_nat n + 1) with (Z.of_nat (S n)) by lia.
  rewrite IH by lia. unfold rowLine at 2. rewrite Nat.add_0_r.
  replace (Z.of_nat n + 1) with (Z.of_nat (S n)) by lia.
  f_equal. unfold lines. f_equal. apply imap_ext.
  intros i r _. simpl. rewrite ?Nat.add_succ_r. reflexivity.
Qed.

(** X21. The fallback prompt of the advanced generator shows at most
    three sample rows, whatever the sample cap of the configuration (which
    it is not given): it is the same prompt as for the structure cut to its
    first three sample rows, and its sample section lists those rows,
    numbered from 1, between the headers written as [formatHeaders] writes
    them and the requirement. The error message is part of the prompt. *)
Theorem fallbackAdvancedPrompt_three_rows (now : string)
    (structure : DataRange) (userRequirement : string) (err : error) :
  fallbackAdvancedPrompt now structure userRequirement err
  = fallbackAdvancedPrompt now
      (withSampleData structure (take 3 (SampleData structure)))
      userRequirement err /\
  substring_of
    ("## HEADERS" ++ nl
       ++ formatHeaders (Headers structure) (DataTypes structure) ++ nl
       ++ "## SAMPLE DATA" ++ nl
       ++ lines (imap rowLine (take 3 (SampleData structure))) ++ nl
       ++ "## USER REQUIREMENT" ++ nl ++ userRequirement ++ nl)
    (fallbackAdvancedPrompt now structure userRequirement err) /\
  substring_of
    ("ERROR: Advanced template processing failed: " ++ err
       ++ ". Using fallback prompt.")
    (fallbackAdvancedPrompt now structure userRequirement err).
Proof.
  assert (Hrows : forall rows,
            fallbackRows_loop 0 rows = lines (imap rowLine (take 3 rows))).
  { intros rows. apply (fallbackRows_loop_lines 0). lia. }
  split; [|split].
  - unfold fallbackAdvancedPrompt, withSampleData. simpl.
    rewrite !Hrows, take_take. reflexivity.
  - unfold fallbackAdvancedPrompt, formatHeaders. rewrite Hrows.
    do 9 apply substring_of_append_l.
    rewrite !string_app_assoc.
    eexists "", _. rewrite append_nil, !string_app_assoc.
    reflexivity.
  - unfold fallbackAdvancedPrompt. apply substring_of_append_l.
    rewrite !string_app_assoc.
    eexists "", _. rewrite append_nil, !string_app_assoc. reflexivity.
Qed.

Section AdvancedGeneration.
Context `{Lowering} `{PromptTexts} `{AdvancedTexts} `{AdvancedEngine}.

Lemma advancedData_returns (o : RangeOrders) (structure : DataRange)
    (userRequirement : string) (config : AdvancedPromptConfig) :
  0 <= A_MaxSampleRows config ->
  exists data, advancedData o structure userRequirement config = Ret data.
Proof.
  intros Hcap. unfold advancedData.
  rewrite limitSampleData_eq by assumption. cbn [go_bind].
  rewrite selectExamplesForTask_eq. cbn [go_bind].
  eexists. reflexivity.
Qed.

(** X22. For a non-negative sample cap the template data of
    [GenerateAdvancedPrompt] is built. The custom template variables take
    precedence: each is in the data as a string, also under the name of a
    built-in entry, which it replaces. A built-in entry that no custom
    variable shadows holds what the generator computed: the first
    min(cap, number of rows) sample rows, the classification of the
    requirement, the headers as [formatHeadersAdvanced] writes them, and
    the first [FewShotExamples] examples. The chain of thought and the
    error scenarios are entries whatever the flags [EnableChainOfThought]
    and [IncludeErrorScenarios] say, and the relationship text whatever
    [IncludeRelationships] says. The data holds nothing else. *)
Theorem advancedData_entries (o : RangeOrders) (structure : DataRange)
    (userRequirement : string) (config : AdvancedPromptConfig) :
  0 <= A_MaxSampleRows config ->
  exists data,
    advancedData o structure userRequirement config = Ret data /\
    (forall key value,
       A_TemplateVariables config !! key = Some value ->
       data !! key = Some (AString value)) /\
    (A_TemplateVariables config !! "SampleData" = None ->
     data !! "SampleData"
     = Some (ARows (take (Z.to_nat (Z.min (A_MaxSampleRows config)
                                      (Z.of_nat (length (SampleData structure)))))
                      (SampleData structure)))) /\
    (A_TemplateVariables config !! "TaskClassification" = None ->
     data !! "TaskClassification"
     = Some (AClassification
               (classifyUserRequirement o userRequirement structure))) /\
    (A_TemplateVariables config !! "HeadersFormatted" = None ->
     data !! "HeadersFormatted"
     = Some (AString (formatHeadersAdvanced (Headers structure)
                        (DataTypes structure) (HighlightColumns config)))) /\
    (A_TemplateVariables config !! "Examples" = None ->
     data !! "Examples"
     = Some (AString
               (getExamples_loop 0
                  (take (Z.to_nat (FewShotExamples config))
                     [taskExample (TaskType config); sqlExample;
                      errorHandlingExample])))) /\
    (A_TemplateVariables config !! "ChainOfThought" = None ->
     data !! "ChainOfThought"
     = Some (AString (getChainOfThoughtPrompt (TaskType config)))) /\
    (A_TemplateVariables config !! "ErrorScenarios" = None ->
     data !! "ErrorScenarios"
     = Some (AString (getCommonErrorScenarios (TaskType config)))) /\
    (A_TemplateVariables config !! "RelationshipInfo" = None ->
     data !! "RelationshipInfo"
     = Some (AString (getRelationshipDescription (Relationships structure)))) /\
    (forall key, data !! key = None <->
       A_TemplateVariables config !! key = None /\
       key ∉ advancedBuiltinKeys).
Proof.
  intros Hcap. unfold advancedData.
  rewrite limitSampleData_eq by assumption. cbn [go_bind].
  rewrite selectExamplesForTask_eq. cbn [go_bind].
  eexists. split; [reflexivity|].
  assert (Hbuiltin : forall key (m : gmap string AdvancedValue),
            A_TemplateVariables config !! key = None ->
            ((AString <$> A_TemplateVariables config) ∪ m) !! key = m !! key).
  { intros key m Hnone. apply lookup_union_r.
    rewrite lookup_fmap, Hnone. reflexivity. }
  split; [|split; [|split; [|split; [|split; [|split; [|split; [|split]]]]]]].
  - intros key value Hkv. apply lookup_union_Some_l.
    rewrite lookup_fmap, Hkv. reflexivity.
  - intros Hnone. rewrite Hbuiltin by assumption.
    repeat (rewrite lookup_insert_ne by discriminate).
    rewrite lookup_insert_eq. reflexivity.
  - intros Hnone. rewrite Hbuiltin by assumption.
    repeat (rewrite lookup_insert_ne by discriminate).
    rewrite lookup_insert_eq. reflexivity.
  - intros Hnone. rewrite Hbuiltin by assumption.
    repeat (rewrite lookup_insert_ne by discriminate).
    rewrite lookup_insert_eq. reflexivity.
  - intros Hnone. rewrite Hbuiltin by assumption.
    repeat (rewrite lookup_insert_ne by discriminate).
    rewrite lookup_insert_eq. reflexivity.
  - intros Hnone. rewrite Hbuiltin by assumption.
    repeat (rewrite lookup_insert_ne by discriminate).
    rewrite lookup_insert_eq. reflexivity.
  - intros Hnone. rewrite Hbuiltin by assumption.
    repeat (rewrite lookup_insert_ne by discriminate).
    rewrite lookup_insert_eq. reflexivity.
  - intros Hnone. rewrite Hbuiltin by assumption.
    repeat (rewrite lookup_insert_ne by discriminate).
    rewrite lookup_insert_eq. reflexivity.
  - intros key. rewrite lookup_union_None, lookup_fmap, fmap_None.
    apply and_iff_compat_l.
    unfold advancedBuiltinKeys.
    rewrite !lookup_insert_None, lookup_empty, !not_elem_of_cons.
    pose proof (not_elem_of_nil key) as Hnil.
    intuition congruence.
Qed.

(** X23. [GenerateAdvancedPrompt] panics on a negative sample cap, for
    every structure and requirement: the slice expression of
    [limitSampleData] fails before the template is parsed, and neither a
    prompt nor the fallback prompt is returned. With a non-negative cap
    it returns: the output of the template selected for the task type and
    the detail level or, when that template fails to parse or to execute,
    the fallback prompt built from the error. *)
Theorem GenerateAdvancedPrompt_outcome (o : RangeOrders) (fallbackNow : string)
    (structure : DataRange) (userRequirement : string)
    (config : AdvancedPromptConfig) :
  (A_MaxSampleRows config < 0 ->
   GenerateAdvancedPrompt o fallbackNow structure userRequirement config
   = Panic ("runtime error: slice bounds out of range [:"
              ++ Itoa (A_MaxSampleRows config) ++ "]")) /\
  (0 <= A_MaxSampleRows config ->
   exists data,
     advancedData o structure userRequirement config = Ret data /\
     GenerateAdvancedPrompt o fallbackNow structure userRequirement config
     = Ret match advanced_Parse "advanced_mcp_prompt"
                   (selectPromptTemplate (TaskType config)
                      (A_DetailLevel config)) with
           | Err err =>
               fallbackAdvancedPrompt fallbackNow structure userRequirement err
           | Ok tmpl =>
               match advanced_Execute tmpl data with
               | Err err =>
                   fallbackAdvancedPrompt fallbackNow structure
                     userRequirement err
               | Ok buf => buf
               end
           end).
Proof.
  split.
  - intros Hcap. unfold GenerateAdvancedPrompt, advancedData.
    unfold limitSampleData, slice_to.
    destruct (Z.leb_spec (Z.of_nat (length (SampleData structure)))
                (A_MaxSampleRows config)); [lia|].
    destruct (Z.ltb_spec (A_MaxSampleRows config) 0); [reflexivity|lia].
  - intros Hcap.
    destruct (advancedData_returns o structure userRequirement config Hcap)
      as (data & Hdata).
    exists data. split; [exact Hdata|].
    unfold GenerateAdvancedPrompt. rewrite Hdata. cbn [go_bind].
    destruct (advanced_Parse _ _) as [tmpl|err]; [|reflexivity].
    destruct (advanced_Execute tmpl data); reflexivity.
Qed.
End AdvancedGeneration.

Lemma advancedData_entries_witness :
  exists data,
    @advancedData asciiLowering namedTexts namedAdvancedTexts sourceOrder
      exampleRange "Sum the ages"
      (withAdvancedMaxSampleRows (DefaultAdvancedConfig "2024-01-01 00:00:00") 2)
    = Ret data /\
    data !! "SampleData" = Some (ARows [["Alice"; "30"]; ["Bob"; "25"]]) /\
    data !! "Examples"
    = Some (AString ("### Example 1" ++ nl ++ "basicExample" ++ nl ++ nl)).
Proof.
  destruct (@advancedData_entries asciiLowering namedTexts namedAdvancedTexts
              sourceOrder exampleRange "Sum the ages"
              (withAdvancedMaxSampleRows
                 (DefaultAdvancedConfig "2024-01-01 00:00:00") 2)
              ltac:(simpl; lia))
    as (data & Hrun & _ & Hrows & _ & _ & Hexamples & _).
  exists data. split; [exact Hrun|]. split.
  - rewrite Hrows by reflexivity. reflexivity.
  - rewrite Hexamples by reflexivity. reflexivity.
Defined.

Lemma GenerateAdvancedPrompt_outcome_witness :
  @GenerateAdvancedPrompt asciiLowering namedTexts namedAdvancedTexts
    refusingAdvancedEngine sourceOrder "2024-01-01 00:00:05" exampleRange
    "Sum the ages"
    (withAdvancedMaxSampleRows (DefaultAdvancedConfig "2024-01-01 00:00:00") (-1))
  = Panic "runtime error: slice bounds out of range [:-1]" /\
  @GenerateAdvancedPrompt asciiLowering namedTexts namedAdvancedTexts
    refusingAdvancedEngine sourceOrder "2024-01-01 00:00:05" exampleRange
    "Sum the ages" (DefaultAdvancedConfig "2024-01-01 00:00:00")
  = Ret (fallbackAdvancedPrompt "2024-01-01 00:00:05" exampleRange
           "Sum the ages" "template: unexpected end").
Proof.
  split.
  - exact (proj1 (@GenerateAdvancedPrompt_outcome asciiLowering namedTexts
                    namedAdvancedTexts refusingAdvancedEngine sourceOrder
                    "2024-01-01 00:00:05" exampleRange "Sum the ages"
                    (withAdvancedMaxSampleRows
                       (DefaultAdvancedConfig "2024-01-01 00:00:00") (-1)))
             ltac:(simpl; lia)).
  - destruct (proj2 (@GenerateAdvancedPrompt_outcome asciiLowering namedTexts
                       namedAdvancedTexts refusingAdvancedEngine sourceOrder
                       "2024-01-01 00:00:05" exampleRange "Sum the ages"
                       (DefaultAdvancedConfig "2024-01-01 00:00:00"))
                ltac:(simpl; lia)) as (data & _ & Hrun).
    exact Hrun.
Defined.

Section AdvancedEntry.
Context `{Lowering} `{PromptTexts} `{AdvancedTexts} `{AdvancedEngine}.

(** X24. [AdvancedMCPPrompt] returns a prompt for every structure,
    requirement and module flag, under every order Go takes over its maps:
    it never panics (the sample cap of its configuration is 3, and one
    example is asked for). The requirement is classified twice. The
    primary type of the first classification is the task type of the
    configuration: it selects the template, which is used as it is (the
    detail level is "Intermediate"), and the one example. The
    classification that the template is given is the second one. Under
    possible orders the two primary types have the same score, so they
    differ on ties only. The template gets the first three sample rows,
    the user name "Corphon" and the time stamp read at the start; the
    prompt is the output of the template or, when it fails, the fallback
    prompt. *)
Theorem AdvancedMCPPrompt_returns (o1 o2 : RangeOrders)
    (currentTime fallbackNow : string) (structure : DataRange)
    (userRequirement : string) (includeStandardModules : bool) :
  let taskType :=
    PrimaryType (classifyUserRequirement o1 userRequirement structure) in
  exists data,
    advancedData o2 structure userRequirement
      (advancedConfigFor currentTime taskType includeStandardModules)
    = Ret data /\
    data !! "SampleData" = Some (ARows (take 3 (SampleData structure))) /\
    data !! "TaskClassification"
    = Some (AClassification
              (classifyUserRequirement o2 userRequirement structure)) /\
    data !! "Examples"
    = Some (AString ("### Example 1" ++ nl ++ taskExample taskType
                       ++ nl ++ nl)) /\
    data !! "ModulesInfo"
    = Some (AString (getModulesDescription
                       (if includeStandardModules
                        then ["SQLUtils"; "DataTools"; "UIHelpers"] else []))) /\
    data !! "User" = Some (AString "Corphon") /\
    data !! "Timestamp" = Some (AString currentTime) /\
    AdvancedMCPPrompt o1 o2 currentTime fallbackNow structure userRequirement
      includeStandardModules
    = Ret match advanced_Parse "advanced_mcp_prompt" (taskTemplate taskType) with
          | Err err =>
              fallbackAdvancedPrompt fallbackNow structure userRequirement err
          | Ok tmpl =>
              match advanced_Execute tmpl data with
              | Err err =>
                  fallbackAdvancedPrompt fallbackNow structure
                    userRequirement err
              | Ok buf => buf
              end
          end /\
    (possible_orders o1 -> possible_orders o2 ->
     typeScore (ToLower userRequirement) taskType
     = typeScore (ToLower userRequirement)
         (PrimaryType (classifyUserRequirement o2 userRequirement structure))).
Proof.
  intros taskType.
  unfold AdvancedMCPPrompt, GenerateAdvancedPrompt. fold taskType.
  unfold advancedData.
  rewrite limitSampleData_eq by (simpl; lia). cbn [go_bind].
  rewrite selectExamplesForTask_eq. cbn [go_bind].
  eexists. split; [reflexivity|].
  assert (Hvars : forall m : gmap string AdvancedValue,
            (AString <$> A_TemplateVariables
                           (advancedConfigFor currentTime taskType
                              includeStandardModules)) ∪ m = m).
  { intros m. simpl. rewrite fmap_empty. apply (left_id ∅ (∪)). }
  rewrite !Hvars.
  split; [|split; [|split; [|split; [|split; [|split; [|split]]]]]].
  - repeat (rewrite lookup_insert_ne by discriminate).
    rewrite lookup_insert_eq. do 2 f_equal. simpl A_MaxSampleRows.
    destruct (Z.le_ge_cases 3 (Z.of_nat (length (SampleData structure)))).
    + rewrite Z.min_l by lia. reflexivity.
    + rewrite Z.min_r by lia. rewrite Nat2Z.id.
      rewrite !firstn_all2 by lia. reflexivity.
  - repeat (rewrite lookup_insert_ne by discriminate).
    rewrite lookup_insert_eq. reflexivity.
  - repeat (rewrite lookup_insert_ne by discriminate).
    rewrite lookup_insert_eq. do 2 f_equal.
    simpl. rewrite string_app_empty. reflexivity.
  - repeat (rewrite lookup_insert_ne by discriminate).
    rewrite lookup_insert_eq.
    destruct includeStandardModules; reflexivity.
  - repeat (rewrite lookup_insert_ne by discriminate).
    rewrite lookup_insert_eq. reflexivity.
  - repeat (rewrite lookup_insert_ne by discriminate).
    rewrite lookup_insert_eq. reflexivity.
  - change (selectPromptTemplate _ _) with (taskTemplate taskType).
    destruct (advanced_Parse _ _) as [tmpl|err]; [|reflexivity].
    destruct (advanced_Execute _ _); reflexivity.
  - intros (Ha1 & Ha2 & _) (Hb1 & Hb2 & _).
    pose proof (primaryType_spec (order_taskPatterns o1) (order_primaryScore o1)
                  (ToLower userRequirement) Ha1 Ha2) as Hfirst.
    pose proof (primaryType_spec (order_taskPatterns o2) (order_primaryScore o2)
                  (ToLower userRequirement) Hb1 Hb2) as Hsecond.
    cbv zeta in Hfirst, Hsecond.
    destruct Hfirst as (_ & Hmax1 & _). destruct Hsecond as (_ & Hmax2 & _).
    apply Z.le_antisymm; [apply Hmax2|apply Hmax1].
Qed.
End AdvancedEntry.

Lemma AdvancedMCPPrompt_returns_witness :
  @AdvancedMCPPrompt asciiLowering namedTexts namedAdvancedTexts
    classificationEngine sourceOrder reverseOrder
    "2024-01-01 00:00:00" "2024-01-01 00:00:05" exampleRange
    "sort and chart the sum" true
  = Ret ("advancedReportingTemplate: DataProcessing") /\
  typeScore "sort and chart the sum" "Reporting"
  = typeScore "sort and chart the sum" "DataProcessing".
Proof.
  destruct (@AdvancedMCPPrompt_returns asciiLowering namedTexts
              namedAdvancedTexts classificationEngine sourceOrder reverseOrder
              "2024-01-01 00:00:00" "2024-01-01 00:00:05" exampleRange
              "sort and chart the sum" true)
    as (data & Hdata & _ & Hclass & _ & _ & _ & _ & Hrun & Hscore).
  split.
  - rewrite Hrun. cbn [advanced_Parse advanced_Execute classificationEngine].
    rewrite Hclass. vm_compute. reflexivity.
  - exact (Hscore possible_orders_source possible_orders_reverse).
Defined.

(** * Further properties of the methods on the current analysis *)

Import Frontend.

Section CurrentAnalysis.
Context {W : Type} {services : Services W}.

Lemma invalidRegion_false (a : App) (index : Z) :
  invalidRegion a index = false <->
  exists analysis,
    excelAnalysis a = Some analysis /\
    0 <= index < Z.of_nat (length (AllRanges analysis)).
Proof.
  unfold invalidRegion. destruct (excelAnalysis a) as [analysis|].
  - rewrite orb_false_iff, Z.ltb_ge, Z.leb_gt. split.
    + intros [Hlo Hhi]. exists analysis. split; [reflexivity|lia].
    + intros (analysis' & [= <-] & Hlo & Hhi). split; assumption.
  - split; [discriminate|]. intros (analysis & Habs & _). discriminate.
Qed.

Lemma region_at_valid (analysis : ExcelStructureAnalysis) (index : Z)
    (s : Session (W:=W)) :
  0 <= index < Z.of_nat (length (AllRanges analysis)) ->
  exists region,
    AllRanges analysis !! Z.to_nat index = Some region /\
    region_at analysis index s = (s, Ret region).
Proof.
  intros [Hlo Hhi]. unfold region_at.
  destruct (Z.ltb_spec index 0) as [|_]; [lia|].
  destruct (Z.leb_spec (Z.of_nat (length (AllRanges analysis))) index) as [|_];
    [lia|].
  cbn [orb].
  destruct (AllRanges analysis !! Z.to_nat index) as [region|] eqn:Hregion.
  - exists region. split; reflexivity.
  - apply lookup_ge_None in Hregion. lia.
Qed.

Lemma SetCurrentRegion_eq (index : Z) (s : Session (W:=W)) :
  SetCurrentRegion index s
  = if invalidRegion (current s) index then (s, false)
    else ({| outside := outside s;
             current := withCurrentRegion (current s) index;
             sent := sent s |}, true).
Proof.
  unfold SetCurrentRegion, recover, op_bind, get_current, set_current, op_ret.
  destruct (invalidRegion (current s) index) eqn:Hinvalid; [reflexivity|].
  apply invalidRegion_false in Hinvalid as (analysis & Hanalysis & Hrange).
  rewrite Hanalysis.
  destruct (region_at_valid analysis index
              {| outside := outside s;
                 current := withCurrentRegion (current s) index;
                 sent := sent s |} Hrange) as (region & _ & Hat).
  rewrite Hat. reflexivity.
Qed.

(** X25. [SetCurrentRegion] answers true exactly when an analysis is
    held and the index is one of its regions (from 0, below their number).
    On true the selected region is the index and nothing else of the
    receiver changes; on false the receiver is unchanged, so an earlier
    selection stays. In both cases nothing is sent to the front end, no
    service is asked and the outside world is untouched: the method never
    panics. *)
Theorem SetCurrentRegion_selects (index : Z) (s : Session (W:=W)) :
  (snd (SetCurrentRegion index s) = true <->
   exists analysis,
     excelAnalysis (current s) = Some analysis /\
     0 <= index < Z.of_nat (length (AllRanges analysis))) /\
  (snd (SetCurrentRegion index s) = true ->
   current (fst (SetCurrentRegion index s))
   = withCurrentRegion (current s) index) /\
  (snd (SetCurrentRegion index s) = false ->
   current (fst (SetCurrentRegion index s)) = current s) /\
  outside (fst (SetCurrentRegion index s)) = outside s /\
  sent (fst (SetCurrentRegion index s)) = sent s.
Proof.
  rewrite <- invalidRegion_false, SetCurrentRegion_eq.
  destruct (invalidRegion (current s) index);
    simpl; repeat split; try discriminate; reflexivity.
Qed.

(** X26. [PreviewRegion] with no analysis held returns neither a preview
    nor an error: building the details of its error dereferences the
    missing analysis, the panic is recovered, reported to the front end as
    an internal error, and nil, nil is returned. With an analysis and an
    index outside its regions it returns the error INVALID_REGION with the
    index and the number of regions, and does nothing else. With a valid
    index it asks once for the preview of that region of the current file,
    at most 10 rows, and returns the rows, or the error PREVIEW_FAILED
    when the request fails; the receiver is not changed. *)
Theorem PreviewRegion_outcomes (index : Z) (s : Session (W:=W)) :
  (excelAnalysis (current s) = None ->
   PreviewRegion index s
   = (signal (Sent (ErrorEvent "app:error" "INTERNAL_ERROR"
                      ("内部错误: " ++ nilDereference))) s,
      ([], None))) /\
  (forall analysis,
     excelAnalysis (current s) = Some analysis ->
     index < 0 \/ Z.of_nat (length (AllRanges analysis)) <= index ->
     PreviewRegion index s
     = (s, ([], Some (wrapErrorWith "INVALID_REGION" "无效的区域索引"
                        (RegionDetails index
                           (Z.of_nat (length (AllRanges analysis))) true))))) /\
  (forall analysis region,
     excelAnalysis (current s) = Some analysis ->
     0 <= index ->
     AllRanges analysis !! Z.to_nat index = Some region ->
     let reply :=
       GetRegionPreviewData (filePath (current s)) (SheetName region)
         (RangeAddress region) (HasHeaders region) 10 (outside s) in
     PreviewRegion index s
     = ({| outside := fst reply; current := current s;
           sent := app (sent s)
                     [PreviewAsked (filePath (current s)) (SheetName region)
                        (RangeAddress region) (HasHeaders region) 10] |},
        match snd (snd reply) with
        | Some err => ([], Some (wrapError "PREVIEW_FAILED" err))
        | None => (fst (snd reply), None)
        end)).
Proof.
  split; [|split].
  - intros Hnone.
    unfold PreviewRegion, recover, op_bind, get_current, invalidRegion.
    rewrite Hnone. reflexivity.
  - intros analysis Hanalysis Hout.
    unfold PreviewRegion, recover, op_bind, get_current, invalidRegion.
    rewrite Hanalysis.
    assert ((index <? 0) || (Z.of_nat (length (AllRanges analysis)) <=? index)
            = true) as ->.
    { apply orb_true_iff. rewrite Z.ltb_lt, Z.leb_le. exact Hout. }
    reflexivity.
  - intros analysis region Hanalysis Hlo Hregion reply.
    assert (Hrange : 0 <= index < Z.of_nat (length (AllRanges analysis))).
    { apply lookup_lt_Some in Hregion. lia. }
    destruct (region_at_valid analysis index s Hrange) as (region' & Hr & Hat).
    rewrite Hregion in Hr. injection Hr as <-.
    unfold PreviewRegion, recover, op_bind, get_current.
    assert (invalidRegion (current s) index = false) as ->.
    { apply invalidRegion_false. eauto. }
    rewrite Hanalysis, Hat. unfold ask. fold reply.
    destruct reply as [w' [rows [err|]]]; reflexivity.
Qed.
End CurrentAnalysis.

Lemma SetCurrentRegion_selects_witness :
  snd (SetCurrentRegion 0
         (sessionOf (appWith true (Some exampleAnalysis) (-1) "book.xlsx")
            (oneBook threeSheets))) = true /\
  currentRegion
    (current (fst (SetCurrentRegion 0
                     (sessionOf (appWith true (Some exampleAnalysis) (-1)
                                   "book.xlsx")
                        (oneBook threeSheets))))) = 0.
Proof.
  pose proof (SetCurrentRegion_selects (W := Disk) 0
                (sessionOf (appWith true (Some exampleAnalysis) (-1) "book.xlsx")
                   (oneBook threeSheets))) as (Hiff & Htrue & _).
  assert (Hok : snd (SetCurrentRegion 0
                       (sessionOf (appWith true (Some exampleAnalysis) (-1)
                                     "book.xlsx")
                          (oneBook threeSheets))) = true).
  { apply Hiff. exists exampleAnalysis. split; [reflexivity|]. simpl. lia. }
  split; [exact Hok|]. rewrite (Htrue Hok). reflexivity.
Defined.

Lemma PreviewRegion_outcomes_witness :
  snd (PreviewRegion 0
         (sessionOf (appWith true None (-1) "book.xlsx") (oneBook threeSheets)))
  = ([], None) /\
  snd (PreviewRegion 0
         (sessionOf (appWith true (Some exampleAnalysis) (-1) "book.xlsx")
            (oneBook threeSheets)))
  = ([["Sheet1"; "A1:B4"]], None).
Proof.
  split.
  - rewrite (proj1 (PreviewRegion_outcomes (services := deskServices) 0
                      (sessionOf (appWith true None (-1) "book.xlsx")
                         (oneBook threeSheets))) eq_refl).
    reflexivity.
  - rewrite (proj2 (proj2 (PreviewRegion_outcomes (services := deskServices) 0
                             (sessionOf (appWith true (Some exampleAnalysis)
                                           (-1) "book.xlsx")
                                (oneBook threeSheets))))
               exampleAnalysis exampleRange eq_refl ltac:(lia) eq_refl).
    reflexivity.
Defined.

Section Generating.
Context {W : Type} {services : Services W}.
Context `{Lowering} `{PromptTexts} `{AdvancedTexts}.
Context `{TemplateEngine} `{AdvancedEngine}.

(** The prompt layer returns a prompt for every region that
    [GenerateVBAScript] hands to it. *)
Lemma promptFor_returns (rd : Readings) (useAdvanced : bool)
    (region : DataRange) (description : string) :
  exists prompt, promptFor rd useAdvanced region description = Ret prompt.
Proof.
  unfold promptFor. destruct useAdvanced.
  - unfold AdvancedMCPPrompt, GenerateAdvancedPrompt.
    set (config := advancedConfigFor _ _ _).
    destruct (advancedData_returns (secondOrders rd) region description config)
      as (data & ->); [simpl; lia|].
    cbn [go_bind].
    destruct (advanced_Parse _ _) as [tmpl|err]; [|eexists; reflexivity].
    destruct (advanced_Execute _ _); eexists; reflexivity.
  - unfold GenerateMCPPrompt.
    set (config := {| Language := _ |}).
    destruct (GenerateExaMCPPromptWithConfig_returns (promptTime rd) region
                description config) as (data & _ & ->); [simpl; lia|].
    eexists. reflexivity.
Qed.

(** X27. [GenerateVBAScript] sends nothing, asks no service and changes
    nothing when it has nothing to work on: with no analysis held it
    returns the error NO_EXCEL_DATA, and with an analysis but a selected
    region that is negative or not below the number of regions the error
    NO_REGION_SELECTED. After [SetCurrentRegion] has answered true neither
    guard stops it: the generation task is started. *)
Theorem GenerateVBAScript_guards (rd : Readings) (description : string)
    (s : Session (W:=W)) :
  (excelAnalysis (current s) = None ->
   GenerateVBAScript rd description s
   = (s, ("", Some (wrapError "NO_EXCEL_DATA" "请先导入Excel文件")))) /\
  (forall analysis,
     excelAnalysis (current s) = Some analysis ->
     currentRegion (current s) < 0 \/
     Z.of_nat (length (AllRanges analysis)) <= currentRegion (current s) ->
     GenerateVBAScript rd description s
     = (s, ("", Some (wrapError "NO_REGION_SELECTED" "请先选择数据区域")))) /\
  (forall index,
     snd (SetCurrentRegion index s) = true ->
     sent (fst (GenerateVBAScript rd description
                  (fst (SetCurrentRegion index s)))) !! length (sent s)
     = Some (Sent (TaskEvent "task:start" (pendingTask "vba_generation")))).
Proof.
  split; [|split].
  - intros Hnone. unfold GenerateVBAScript, recover, op_bind, get_current.
    rewrite Hnone. reflexivity.
  - intros analysis Hanalysis Hout.
    unfold GenerateVBAScript, recover, op_bind, get_current.
    rewrite Hanalysis.
    assert ((currentRegion (current s) <? 0)
            || (Z.of_nat (length (AllRanges analysis))
                <=? currentRegion (current s)) = true) as ->.
    { apply orb_true_iff. rewrite Z.ltb_lt, Z.leb_le. exact Hout. }
    reflexivity.
  - intros index Hok.
    rewrite SetCurrentRegion_eq in Hok |- *.
    destruct (invalidRegion (current s) index) eqn:Hinvalid; [discriminate|].
    apply invalidRegion_false in Hinvalid as (analysis & Hanalysis & Hrange).
    cbn [fst].
    set (s1 := {| outside := outside s;
                  current := withCurrentRegion (current s) index;
                  sent := sent s |}).
    assert (Hcur : excelAnalysis (current s1) = Some analysis)
      by exact Hanalysis.
    assert (Hidx : currentRegion (current s1) = index) by reflexivity.
    assert (Hsent : sent s1 = sent s) by reflexivity.
    unfold GenerateVBAScript, recover, op_bind, get_current.
    rewrite Hcur, Hidx.
    destruct (Z.ltb_spec index 0) as [|_]; [lia|].
    destruct (Z.leb_spec (Z.of_nat (length (AllRanges analysis))) index) as [|_];
      [lia|].
    cbn [orb].
    destruct (region_at_valid analysis index s1 Hrange) as (region & _ & ->).
    unfold emit_task, lift.
    destruct (promptFor_returns rd (Excel_UseAdvanced (Excel (config (current s1))))
                region description) as (prompt & ->).
    set (s2 := signal _ s1).
    unfold ask.
    destruct (llm_Generate prompt (outside s2)) as [w1 [code [err|]]].
    + simpl. rewrite <- ?app_assoc. apply list_lookup_middle. reflexivity.
    + cbn [snd fst]. unfold reviewCode, op_bind, ask, notify, op_ret.
      cbn [outside].
      destruct (ValidateVBACode code w1) as [w2 v].
      destruct (IsValid v); cbn [negb].
      * simpl. rewrite <- ?app_assoc. apply list_lookup_middle. reflexivity.
      * cbn [outside].
        destruct (SuggestCodeImprovements code v w2) as [w3 [improved fixErr]].
        simpl. rewrite <- ?app_assoc. apply list_lookup_middle. reflexivity.
Qed.
End Generating.

Section GeneratingRun.
Context {W : Type} {services : Services W}.
Context `{Lowering} `{PromptTexts} `{AdvancedTexts}.
Context `{TemplateEngine} `{AdvancedEngine}.

(** X28. With an analysis held and a valid region selected,
    [GenerateVBAScript] never ends in a recovered panic: the prompt layer
    returns a prompt for the region (the advanced one when the
    configuration asks for advanced detection, the basic one otherwise),
    and the model is asked once, with that prompt. The task that is
    started is always settled: the events are task:start and, last,
    task:update. When the model fails the update says failed and the error
    LLM_API_ERROR is returned with no code. Otherwise the code is
    validated once; valid code is returned as it is; for code that is not
    valid an improvement is asked for once, the improved code is returned
    when that succeeds and the code of the model when it fails, and in
    both cases a warning with the warnings of the validator goes to the
    front end; the update says completed and no error is returned even
    though the code did not pass validation. The receiver is not
    changed. *)
Theorem GenerateVBAScript_run (rd : Readings) (description : string)
    (s : Session (W:=W)) (analysis : ExcelStructureAnalysis)
    (region : DataRange) :
  excelAnalysis (current s) = Some analysis ->
  0 <= currentRegion (current s) ->
  AllRanges analysis !! Z.to_nat (currentRegion (current s)) = Some region ->
  exists prompt,
    promptFor rd (Excel_UseAdvanced (Excel (config (current s)))) region
      description = Ret prompt /\
    let task := pendingTask "vba_generation" in
    let reply := llm_Generate prompt (outside s) in
    let code := fst (snd reply) in
    let checked := ValidateVBACode code (fst reply) in
    let improved := SuggestCodeImprovements code (snd checked) (fst checked) in
    (forall err,
       snd (snd reply) = Some err ->
       GenerateVBAScript rd description s
       = ({| outside := fst reply; current := current s;
             sent := app (sent s)
                       [Sent (TaskEvent "task:start" task);
                        GenerateAsked prompt;
                        Sent (TaskEvent "task:update" (failedTask task err))] |},
          ("", Some (wrapError "LLM_API_ERROR" err)))) /\
    (snd (snd reply) = None ->
     IsValid (snd checked) = true ->
     GenerateVBAScript rd description s
     = ({| outside := fst checked; current := current s;
           sent := app (sent s)
                     [Sent (TaskEvent "task:start" task);
                      GenerateAsked prompt;
                      ValidateAsked code;
                      Sent (TaskEvent "task:update" (completedTask task))] |},
        (code, None))) /\
    (snd (snd reply) = None ->
     IsValid (snd checked) = false ->
     GenerateVBAScript rd description s
     = ({| outside := fst improved; current := current s;
           sent := app (sent s)
                     [Sent (TaskEvent "task:start" task);
                      GenerateAsked prompt;
                      ValidateAsked code;
                      ImproveAsked code (snd checked);
                      Notification "warning" "请检查生成的代码"
                        "代码验证发现潜在问题，请仔细检查。"
                        (Warnings (snd checked));
                      Sent (TaskEvent "task:update" (completedTask task))] |},
        (match snd (snd improved) with
         | None => fst (snd improved)
         | Some fixErr => code
         end, None))).
Proof.
  intros Hanalysis Hlo Hregion.
  assert (Hrange : 0 <= currentRegion (current s)
                   < Z.of_nat (length (AllRanges analysis))).
  { apply lookup_lt_Some in Hregion. lia. }
  destruct (promptFor_returns rd (Excel_UseAdvanced (Excel (config (current s))))
              region description) as (prompt & Hprompt).
  exists prompt. split; [exact Hprompt|].
  intros task reply code checked improved.
  assert (Hrun : GenerateVBAScript rd description s
    = recover "GenerateVBAScript" ("", None)
        (op_bind (emit_task "task:start" task) (fun _ =>
         op_bind (ask (GenerateAsked prompt) (llm_Generate prompt)) (fun r =>
           match snd r with
           | Some err =>
               op_bind (emit_task "task:update" (failedTask task err))
                 (fun _ => op_ret ("", Some (wrapError "LLM_API_ERROR" err)))
           | None =>
               op_bind (reviewCode (fst r)) (fun vbaCode =>
               op_bind (emit_task "task:update" (completedTask task))
                 (fun _ => op_ret (vbaCode, None)))
           end))) s).
  { unfold GenerateVBAScript, recover, op_bind at 1 2, get_current.
    rewrite Hanalysis.
    destruct (Z.ltb_spec (currentRegion (current s)) 0) as [|_]; [lia|].
    destruct (Z.leb_spec (Z.of_nat (length (AllRanges analysis)))
                (currentRegion (current s))) as [|_]; [lia|].
    cbn [orb].
    destruct (region_at_valid analysis (currentRegion (current s)) s Hrange)
      as (region' & Hr & ->).
    rewrite Hregion in Hr. injection Hr as <-.
    unfold op_bind at 1 2. unfold emit_task at 1. unfold lift.
    rewrite Hprompt. unfold op_bind, emit_task. reflexivity. }
  rewrite Hrun. clear Hrun.
  unfold recover, op_bind, emit_task, ask, signal. cbn [outside current sent].
  fold reply. subst code checked improved.
  destruct reply as [w1 [code [err|]]]; cbn [fst snd].
  - split; [|split]; [|discriminate|discriminate].
    intros err' [= <-]. unfold op_ret. cbn [outside current sent].
    rewrite <- ?app_assoc. reflexivity.
  - split; [discriminate|].
    unfold reviewCode, op_bind, ask, notify, signal, op_ret.
    cbn [outside current sent].
    destruct (ValidateVBACode code w1) as [w2 v]. cbn [fst snd].
    split; intros _ Hvalid; rewrite Hvalid; cbn [negb].
    + cbn [outside current sent]. rewrite <- ?app_assoc. reflexivity.
    + cbn [outside current sent].
      destruct (SuggestCodeImprovements code v w2) as [w3 [better fixErr]].
      cbn [fst snd outside current sent]. rewrite <- ?app_assoc. reflexivity.
Qed.
End GeneratingRun.

Lemma GenerateVBAScript_guards_witness :
  snd (@GenerateVBAScript Disk deskServices asciiLowering namedTexts
         namedAdvancedTexts refusingEngine refusingAdvancedEngine
         {| firstOrders := sourceOrder; secondOrders := reverseOrder;
            promptTime := "2024-01-01 00:00:00";
            fallbackTime := "2024-01-01 00:00:05" |}
         "Sum the ages"
         (sessionOf (appWith true (Some exampleAnalysis) 1 "book.xlsx")
            (oneBook threeSheets)))
  = ("", Some "NO_REGION_SELECTED: 请先选择数据区域").
Proof.
  rewrite (proj1 (proj2 (@GenerateVBAScript_guards Disk deskServices
                           asciiLowering namedTexts namedAdvancedTexts
                           refusingEngine refusingAdvancedEngine
                           {| firstOrders := sourceOrder;
                              secondOrders := reverseOrder;
                              promptTime := "2024-01-01 00:00:00";
                              fallbackTime := "2024-01-01 00:00:05" |}
                           "Sum the ages"
                           (sessionOf (appWith true (Some exampleAnalysis) 1
                                         "book.xlsx")
                              (oneBook threeSheets))))
             exampleAnalysis eq_refl ltac:(right; simpl; lia)).
  reflexivity.
Defined.

Lemma GenerateVBAScript_run_witness :
  snd (@GenerateVBAScript Disk deskServices asciiLowering namedTexts
         namedAdvancedTexts refusingEngine refusingAdvancedEngine
         {| firstOrders := sourceOrder; secondOrders := reverseOrder;
            promptTime := "2024-01-01 00:00:00";
            fallbackTime := "2024-01-01 00:00:05" |}
         "Sum the ages"
         (sessionOf (appWith false (Some exampleAnalysis) 0 "book.xlsx")
            (oneBook threeSheets)))
  = ("Sub Main()", None).
Proof.
  destruct (@GenerateVBAScript_run Disk deskServices asciiLowering namedTexts
              namedAdvancedTexts refusingEngine refusingAdvancedEngine
              {| firstOrders := sourceOrder; secondOrders := reverseOrder;
                 promptTime := "2024-01-01 00:00:00";
                 fallbackTime := "2024-01-01 00:00:05" |}
              "Sum the ages"
              (sessionOf (appWith false (Some exampleAnalysis) 0 "book.xlsx")
                 (oneBook threeSheets))
              exampleAnalysis exampleRange eq_refl ltac:(simpl; lia) eq_refl)
    as (prompt & _ & _ & Hvalid & _).
  rewrite (Hvalid eq_refl eq_refl). reflexivity.
Defined.

Section Executing.
Context {W : Type} {services : Services W}.

(** X29. [ExecuteVBA] runs code on the file of the receiver, not on a
    file of the caller's choice, and refuses to run without one: with an
    empty file path it returns the error NO_FILE, sends nothing and asks
    nothing. Otherwise it asks once for the run, and the task it starts is
    always settled: the events are task:start, then task:update, which
    says failed with the error exactly when the run failed and completed
    otherwise. A failed run returns no text and the error
    VBA_EXECUTION_ERROR, carrying the error information when the run gave
    one; a successful run returns the success text and no error. The
    receiver is not changed. *)
Theorem ExecuteVBA_settles (vbaCode : string) (s : Session (W:=W)) :
  (filePath (current s) = "" ->
   ExecuteVBA vbaCode s
   = (s, ("", Some (wrapError "NO_FILE" "未选择Excel文件")))) /\
  (filePath (current s) <> "" ->
   let task := pendingTask "vba_execution" in
   let reply :=
     ExecuteVBAWithErrorAnalysis (filePath (current s)) vbaCode (outside s) in
   ExecuteVBA vbaCode s
   = ({| outside := fst reply; current := current s;
         sent := app (sent s)
                   [Sent (TaskEvent "task:start" task);
                    RunAsked (filePath (current s)) vbaCode;
                    Sent (TaskEvent "task:update"
                            match snd (snd reply) with
                            | Some err => failedTask task err
                            | None => completedTask task
                            end)] |},
      match snd (snd reply) with
      | Some err =>
          ("", Some match fst (snd reply) with
                    | Some errorInfo =>
                        wrapErrorWith "VBA_EXECUTION_ERROR" err
                          (ErrorInfoDetails errorInfo)
                    | None => wrapError "VBA_EXECUTION_ERROR" err
                    end)
      | None => ("VBA代码执行成功", None)
      end)).
Proof.
  split.
  - intros Hempty. unfold ExecuteVBA, recover, op_bind, get_current.
    rewrite Hempty. reflexivity.
  - intros Hpath task reply.
    unfold ExecuteVBA, recover, op_bind, get_current.
    destruct (String.eqb_spec (filePath (current s)) "") as [|_];
      [contradiction|].
    unfold emit_task, ask, signal, op_ret. cbn [outside current sent].
    fold task. fold reply.
    destruct reply as [w1 [[errorInfo|] [err|]]];
      cbn [fst snd outside current sent]; rewrite <- ?app_assoc; reflexivity.
Qed.

Lemma TestSQLQuery_guards (filePath sqlQuery : string) (s : Session (W:=W)) :
  (filePath = "" ->
   TestSQLQuery filePath sqlQuery s
   = (s, ("", Some (wrapError "NO_FILE" "未指定Excel文件")))) /\
  (filePath <> "" -> sqlQuery = "" ->
   TestSQLQuery filePath sqlQuery s
   = (s, ("", Some (wrapError "EMPTY_QUERY" "SQL查询为空")))) /\
  (filePath <> "" -> sqlQuery <> "" ->
   sent (fst (TestSQLQuery filePath sqlQuery s))
   = app (sent s) [QueryAsked filePath sqlQuery]).
Proof.
  unfold TestSQLQuery, recover, op_bind, ask, op_ret.
  destruct (String.eqb_spec filePath "") as [->|Hpath].
  { repeat split; try reflexivity; intros; contradiction. }
  destruct (String.eqb_spec sqlQuery "") as [->|Hquery].
  { repeat split; try reflexivity; intros; contradiction. }
  split; [intros; contradiction|]. split; [intros; contradiction|].
  intros _ _.
  destruct (excel_TestSQLQuery filePath sqlQuery (outside s))
    as [w1 [rows [err|]]]; reflexivity.
Qed.
End Executing.

Lemma ExecuteVBA_settles_witness :
  snd (ExecuteVBA "Kill book"
         (sessionOf (appWith true (Some exampleAnalysis) 0 "book.xlsx")
            (oneBook threeSheets)))
  = ("", Some "VBA_EXECUTION_ERROR: run-time error 70 (details)") /\
  snd (ExecuteVBA "Sub Main()"
         (sessionOf (appWith true (Some exampleAnalysis) 0 "")
            (oneBook threeSheets)))
  = ("", Some "NO_FILE: 未选择Excel文件").
Proof.
  split.
  - rewrite (proj2 (ExecuteVBA_settles (services := deskServices) "Kill book"
                      (sessionOf (appWith true (Some exampleAnalysis) 0
                                    "book.xlsx")
                         (oneBook threeSheets)))
               ltac:(discriminate)).
    reflexivity.
  - rewrite (proj1 (ExecuteVBA_settles (services := deskServices) "Sub Main()"
                      (sessionOf (appWith true (Some exampleAnalysis) 0 "")
                         (oneBook threeSheets)))
               eq_refl).
    reflexivity.
Defined.

(** * Further properties of the application shell *)

Import Shell.

(** X30. [safeExecute] never panics, whatever the operation does, and it
    reports a panic of the operation as a success: the error it returns
    is nil exactly when the operation returned nil or panicked, so the
    caller cannot tell the two apart; only the log differs, where the last
    line says that a panic was recovered. An error of the operation comes
    back wrapped, with the name of the operation in front of its message.
    The log gets one line before the operation runs and exactly one after
    it; what the operation logged stays in between. *)
Theorem safeExecute_swallows_panics (operation : string)
    (fn : Log -> Log * Go (option error)) (log : Log) :
  let started := app log ["Executing operation: " ++ operation] in
  (snd (safeExecute operation fn log) = None <->
   snd (fn started) = Ret None \/ exists msg, snd (fn started) = Panic msg) /\
  (forall msg,
     snd (fn started) = Panic msg ->
     safeExecute operation fn log
     = (app (fst (fn started)) ["PANIC RECOVERED: " ++ msg], None)) /\
  (forall err,
     snd (fn started) = Ret (Some err) ->
     safeExecute operation fn log
     = (app (fst (fn started))
          ["Operation " ++ operation ++ " failed: " ++ err],
        Some ("operation " ++ operation ++ " failed: " ++ err))) /\
  (exists line,
     fst (safeExecute operation fn log) = app (fst (fn started)) [line]).
Proof.
  intros started. unfold safeExecute. fold started.
  destruct (fn started) as [log' [[err|]|msg]]; cbn [fst snd].
  - split; [|split; [|split]].
    + split; [discriminate|]. intros [Habs|(msg & Habs)]; discriminate.
    + intros msg Habs. discriminate.
    + intros err' [= <-]. reflexivity.
    + eexists. reflexivity.
  - split; [|split; [|split]].
    + split; [intros _; left; reflexivity|reflexivity].
    + intros msg Habs. discriminate.
    + intros err Habs. discriminate.
    + eexists. reflexivity.
  - split; [|split; [|split]].
    + split; [intros _; right; eauto|reflexivity].
    + intros msg' [= <-]. reflexivity.
    + intros err Habs. discriminate.
    + eexists. reflexivity.
Qed.

Lemma safeExecute_swallows_panics_witness :
  safeExecute "divide" (divideBy 0) []
  = (["Executing operation: divide";
      "PANIC RECOVERED: runtime error: integer divide by zero"], None) /\
  snd (safeExecute "divide" (divideBy (-1)) [])
  = Some "operation divide failed: negative divisor".
Proof.
  split.
  - rewrite (proj1 (proj2 (safeExecute_swallows_panics "divide" (divideBy 0) []))
               "runtime error: integer divide by zero" eq_refl).
    reflexivity.
  - rewrite (proj1 (proj2 (proj2 (safeExecute_swallows_panics "divide"
                                    (divideBy (-1)) [])))
               "negative divisor" eq_refl).
    reflexivity.
Defined.
